(* ===== verification/_CoqProject ===== *)
-Q . S2P
Prelude.v
Pricing.v
OrderStore.v
OrderNumber.v
Orders.v
Cart.v
Notifications.v
Wishlist.v
Users.v
Gateway.v
Payment.v
Webhook.v
Lifecycle.v
