(* ===== verification/Prelude.v ===== *)
(** * A verification library for the marketplace API (src/src/modules)

    The program is a NestJS marketplace backend over a Prisma database. Its
    core is the order-and-payment path: [OrdersService.createOrder] prices a
    cart and persists an order under a generated order number; the
    authenticated endpoints of [PaymentController] ask the Xendit client
    [PaymentService] for a payment instrument and mark the order
    [PENDING]; the unauthenticated webhook endpoints of the same controller
    apply the provider's notifications to the order table. This library
    models that path as executable Rocq functions over an explicit database
    and proves what it does, including where it departs from the
    specification (spec.md).

    ** Files, in dependency order

    - [Prelude] (this file): the result type [result A E] ([Ok]/[Err]) with
      its bind notation [x <- c ;; k] in [result_scope]; the JavaScript
      semantics the code relies on: [||] on numbers and strings ([js_or_Z],
      [js_or_str]), truthiness ([js_truthy_Z], [js_truthy_str]), [!==] on
      [string | undefined] ([js_strict_neq]), template literals of a
      possibly-undefined value ([js_tpl]), [Math.round] on the rational
      [num/den] ([math_round]); Prisma's equality filter, where an
      [undefined] value matches every row ([prisma_where_eq]); sums over
      lists ([sumZ]); the hint databases [api] and [api_rw]; a bounded
      decision procedure [all_in_range] for facts checked by evaluation.
    - [Pricing] (Module [Pricing]): the line-pricing loop of [createOrder]
      (orders.service.ts lines 68-97): [find_product], [find_variant],
      [final_price], [price_item], the running-subtotal loop [price_items]
      and [compute_totals]; the reference [compute_totals_spec] prices every
      line and then sums. The unit price of line 82 is [final_price], exact
      half-up rounding of the rational price, and [final_price_double], the
      same expression evaluated in IEEE-754 doubles with Rocq's primitive
      floats ([Stdlib.Floats]) as the JavaScript engine evaluates it.
    - [OrderStore] (Module [OrderStore]): the order table as a [gmap Z Order]
      with the id counter, the users and the products; the Prisma calls the
      services make: [order_create] (unique [orderNumber], default statuses),
      [order_find_first] (lowest matching id), [order_update],
      [order_update_many] (every row whose number matches the filter). The
      well-formedness invariant [db_wf]: keys are ids below the counter,
      order numbers are unique, totals add up, a paid payment comes with a
      paid order and a payment time. The Prisma schema is not under src/:
      the statuses and the table semantics are modelled from the spec.
    - [OrderNumber] (Module [OrderNumber]): [generateOrderNumber]
      (orders.service.ts lines 5-12) with [String], [padStart], [substring]
      and [toUpperCase] written out; the date and the base-36 string of
      [Math.random()] are inputs.
    - [Orders] (Module [Orders]): [createOrder], [getOrderById],
      [getUserOrders] of [OrdersService].
    - [Gateway] (Module [Gateway]): [PaymentService] (payment.service.ts).
      The xendit-node SDK is the class [XenditApi]; the laws a well-behaved
      gateway keeps (it echoes the reference and amount) are the class
      [XenditLaws]; [echo_xendit] is an instance that keeps them.
    - [Payment] (Module [Payment]): the initiation endpoints of
      [PaymentController] (payment.controller.ts lines 29-241), generic in
      the gateway, and the configuration [Config] whose values may be unset.
    - [Webhook] (Module [Webhook]): the three callback handlers
      (payment.controller.ts lines 243-335), and the specification's
      reconciler (spec section 4.5) they are compared with, written from
      the specification and not from the handlers: [reconcile_spec] (the
      conditional update and the columns it writes, [set_payment]) and the
      invoice rail's status table [invoice_status_table].
    - [Cart] (Module [Cart]): [CartService] and [CartController]
      (cart.service.ts, cart.controller.ts) over the [cartItem] table with
      the foreign keys to products and variants; [cart_controller]
      dispatches a route to the service; [cart_wf] is one row per (user,
      product, variant) with existing product and variant.
    - [Notifications] (Module [Notifications]): [NotificationsService] and
      [NotificationsController], with [parseInt] of the query parameters
      written out ([js_parseInt]: white space, sign, [0x] prefix, longest
      digit prefix, [NaN] as [None]) and Prisma's [skip]/[take].
    - [Wishlist] (Module [Wishlist]): [WishlistService] and its controller:
      an [upsert] and a [delete] on the unique key [userId_productId].
    - [Users] (Module [Users]): [UsersService] and [UsersController]: the
      user table with unique [email] and [username], and the address table
      with the one-default-per-user invariant [addr_wf]; the two writes of
      [updateAddress] are kept apart (no transaction).
    - [Lifecycle] (Module [Lifecycle]): every state-changing request as an
      [Event]; [apply_event] dispatches it to its handler and keeps the
      database when the handler throws; [reachable] is the reflexive
      transitive closure of one step from the seeded database [init_db];
      [spec_step] is the specification's payment state machine.

    ** What the theorems show

    - Invariants: every handler and every reachable database keeps [db_wf]
      (webhooks, order creation, initiation; [Lifecycle.reachable_wf]).
    - Refinement: on an open order the invoice callback does what the
      specification's conditional reconciliation does; one request moves
      the payment status of an open order by at most one edge of the
      spec's machine, except the callbacks' jump from [UNPAID] to a final
      status (a finding); against any gateway that keeps [XenditLaws] the
      endpoints request the order's own number and total.
    - Functional behaviour and equivalence: the running-subtotal loop equals
      price-then-sum; a created order stores the priced items and totals
      with the default statuses; [getOrderById] returns exactly the
      caller's row; [getUserOrders] lists exactly the caller's orders,
      newest first; a redelivered invoice callback is a no-op; initiation
      changes only the caller's order.
    - Errors: a bad callback token is rejected on all three endpoints;
      pricing fails exactly on an unknown product; an order-number
      collision fails without retry.
    - Cart, notifications, wishlist, addresses: every cart request keeps
      [cart_wf]; [addToCart] merges into an existing line; [getCart]
      groups exactly the caller's lines by ascending store id; the
      wishlist refines a set of pairs under insertion and removal; a page
      of notifications is bounded by [limit] and [totalPages] is the
      ceiling of [total / limit]; [markAllAsRead] leaves nothing unread;
      the listing reads decimal [page] and [limit] query strings as those
      numbers and defaults missing or empty ones; one default address per
      user is kept by the owner's operations.
    - Findings, stated as theorems about the code: terminal payment states
      are overwritten by later callbacks; a paid order can be re-initiated;
      an unset callback token accepts unauthenticated callbacks; a callback
      without a reference marks every order paid; the VA callback ignores
      the amount; a callback takes an [UNPAID] order straight to [PAID];
      the double arithmetic of line 82 rounds some exact half-way prices
      down (1075 at 6 percent gives 1010, half-up gives 1011); an OVO
      charge without a phone number is sent anyway; discounts above 100
      give negative prices; unknown
      variants fall back to the product price; cart lines of other users
      can be changed or deleted; a page number of 0 makes the
      notification listing fail; updating another user's address gives
      that user two default addresses.

    ** Bounds and fuel

    - [order_find_first] scans ids [1 .. next_order_id - 1] and
      [getUserOrders] ids [next_order_id - 1] down to [1]: the fuel is the
      counter minus one, enough because [db_wf] keeps every key in that
      range ([OrderStore.find_first_complete], [Orders.getUserOrders_spec]).
    - [dec_digits] has fuel 20: a JavaScript safe integer has at most 16
      decimal digits, and [Notifications.parseInt_string] shows the fuel
      is enough for every number below [10^20].
    - The cart scans ([cart_find_first], [collect_asc]) have the same fuel
      as the order scans, the cart counter minus one, enough under
      [cart_wf] ([Cart.getCart_spec]).
    - Money and ids are [Z]: the code's numbers are IEEE doubles, exact for
      the integer amounts of the smallest currency unit below 2^53.
      Line 82, [Math.round(price * (1 - d/100))], is the one place where
      the double arithmetic is not exact: [final_price_double] models it
      in primitive floats, and [Pricing.final_price_double_rounding]
      compares it with the exact half-up rounding [final_price] on every
      price up to 5000 and every discount from 0 to 100 (checked by
      [vm_compute] over the range: beyond it the comparison is not
      proved). The theorems on order totals use [final_price], which
      agrees with the code except at exact half-way prices.

    ** Not modelled

    - I/O and framework wiring: main.ts, app.module.ts, the Nest modules,
      guards and Swagger decorators; the socket gateway of chat.
    - The remaining services are not modelled: authentication (bcrypt
      and JWT are library calls), the product, review, store and category
      catalogue (query building and includes over Prisma), chat (a socket
      gateway), upload (file system and storage I/O) and admin reporting;
      PROJECT.json lists them with the reason.
    - Request bodies typed [any] are modelled as their declared types;
      a client can send other columns (see the findings).
    - Concurrency: each request is one atomic step; interleavings of the
      awaits inside a handler are not modelled.
    - Dates: the clock and [new Date(paid_at)] are inputs (an invalid date
      is the error [InvalidPaidAt]). *)

From stdpp Require Export base gmap strings list.
From Stdlib Require Export ZArith String.

(** ** Results: the value a handler returns or the error it throws *)

Inductive result (A E : Type) : Type :=
| Ok (a : A)
| Err (e : E).
Arguments Ok {A E} _.
Arguments Err {A E} _.

Declare Scope result_scope.
Delimit Scope result_scope with res.

(** [x <- c ;; k]: run [c]; on [Err] stop there (an exception that
    propagates out of an [async] handler), on [Ok x] continue with [k]. *)
Notation "x <- c ;; k" := (match c with Ok x => k | Err e => Err e end)
  (at level 100, c at next level, right associativity) : result_scope.

(** Translate the error of a callee into the caller's error type. *)
Definition map_err {A E F} (f : E -> F) (r : result A E) : result A F :=
  match r with Ok a => Ok a | Err e => Err (f e) end.

Lemma map_err_Ok {A E F} (f : E -> F) (r : result A E) a :
  map_err f r = Ok a <-> r = Ok a.
Proof. destruct r as [x|e]; simpl; split; intros Hr; by inversion Hr. Qed.

Definition is_ok {A E} (r : result A E) : bool :=
  match r with Ok _ => true | Err _ => false end.

(** ** JavaScript semantics used by the sources *)

(** Math.round on a rational [num/den] with [den > 0]: JavaScript rounds
    half-way cases towards +infinity, i.e. [Math.round x = floor (x + 1/2)]. *)
Definition math_round (num den : Z) : Z := ((2 * num + den) / (2 * den))%Z.

(** [a || d] where [a] is a nullable number: [null], [undefined] and [0]
    are falsy, so each of them yields [d]. *)
Definition js_or_Z (a : option Z) (d : Z) : Z :=
  match a with
  | Some v => if Z.eqb v 0 then d else v
  | None => d
  end.

(** Truthiness of a nullable number ([0] is falsy). *)
Definition js_truthy_Z (a : option Z) : bool :=
  match a with Some v => negb (Z.eqb v 0) | None => false end.

(** Truthiness of an optional string ([""] is falsy). *)
Definition js_truthy_str (a : option string) : bool :=
  match a with Some s => negb (String.eqb s "") | None => false end.

(** [a || b] on optional strings. *)
Definition js_or_str (a b : option string) : option string :=
  if js_truthy_str a then a else b.

(** [a !== b] on values of type [string | undefined]. *)
Definition js_strict_neq (a b : option string) : bool :=
  negb (bool_decide (a = b)).

(** A value of type [string | undefined] interpolated in a template
    literal [`${x}`]: [undefined] prints as ["undefined"]. *)
Definition js_tpl (a : option string) : string :=
  match a with Some s => s | None => "undefined" end.

(** A Prisma [where] field: a filter value of [undefined] is left out of
    the query, so it matches every row; otherwise the column must equal it. *)
Definition prisma_where_eq {K} `{EqDecision K} (filter : option K) (v : K) : bool :=
  match filter with
  | None => true
  | Some k => bool_decide (v = k)
  end.

(** ** Sums of integer amounts *)

Definition sumZ {A} (f : A -> Z) (l : list A) : Z :=
  fold_right (fun x acc => (f x + acc)%Z) 0%Z l.

Create HintDb api discriminated.
Create Rewrite HintDb api_rw.

Section SumZ.
Context {A : Type} (f : A -> Z).

Lemma sumZ_nil : sumZ f [] = 0%Z.
Proof. reflexivity. Qed.

Lemma sumZ_cons x l : sumZ f (x :: l) = (f x + sumZ f l)%Z.
Proof. reflexivity. Qed.

Lemma sumZ_app l1 l2 : sumZ f (l1 ++ l2) = (sumZ f l1 + sumZ f l2)%Z.
Proof. induction l1 as [|x l1 IH]; simpl; [done | rewrite IH; lia]. Qed.

Lemma sumZ_nonneg l : Forall (fun x => 0 <= f x)%Z l -> (0 <= sumZ f l)%Z.
Proof. induction 1; simpl; lia. Qed.

Lemma sumZ_ext (g : A -> Z) l :
  Forall (fun x => f x = g x) l -> sumZ f l = sumZ g l.
Proof. induction 1 as [|x l Hx _ IH]; simpl; [done | by rewrite Hx, IH]. Qed.
End SumZ.

#[export] Hint Rewrite @sumZ_nil @sumZ_cons @sumZ_app : api_rw.

(** ** Strings *)

Lemma str_append_assoc (a b c : string) : ((a ++ b) ++ c = a ++ (b ++ c))%string.
Proof. induction a as [|x a IH]; [done | exact (f_equal (String x) IH)]. Qed.

Lemma str_length_append (a b : string) :
  String.length (a ++ b) = (String.length a + String.length b)%nat.
Proof. induction a as [|x a IH]; [done | exact (f_equal S IH)]. Qed.

#[export] Hint Rewrite str_length_append : api_rw.

(** ** Checking a boolean property on a range of integers *)

(** [all_in_range f lo n] tests [f] on [lo, lo + 1, ..., lo + n - 1]; a
    closed instance is decided by [vm_compute]. *)
Fixpoint all_in_range (f : Z -> bool) (lo : Z) (n : nat) : bool :=
  match n with
  | O => true
  | S k => f lo && all_in_range f (lo + 1) k
  end.

Lemma all_in_range_spec f lo n :
  all_in_range f lo n = true -> forall z, (lo <= z < lo + Z.of_nat n)%Z -> f z = true.
Proof.
  revert lo. induction n as [|n IH]; intros lo; simpl; [intros _ z; lia|].
  intros [Hf Hr]%andb_true_iff z Hz.
  destruct (Z.eq_dec z lo) as [->|Hne]; [done|]. apply (IH (lo + 1)%Z Hr). lia.
Qed.

(** ** Facts on the JavaScript helpers *)

Lemma math_round_spec num den :
  (0 < den)%Z ->
  (2 * den * math_round num den <= 2 * num + den < 2 * den * math_round num den + 2 * den)%Z.
Proof.
  intros Hden. unfold math_round.
  pose proof (Z.mul_div_le (2 * num + den) (2 * den) ltac:(lia)).
  pose proof (Z.mod_pos_bound (2 * num + den) (2 * den) ltac:(lia)).
  pose proof (Z.div_mod (2 * num + den) (2 * den) ltac:(lia)).
  lia.
Qed.

Lemma js_or_Z_truthy a d :
  js_truthy_Z a = true -> exists v, a = Some v /\ js_or_Z a d = v /\ v <> 0%Z.
Proof.
  destruct a as [v|]; simpl; [|done].
  destruct (Z.eqb_spec v 0); simpl; [done|]. eauto.
Qed.

Lemma js_or_Z_falsy a d : js_truthy_Z a = false -> js_or_Z a d = d.
Proof. destruct a as [v|]; simpl; [|done]. by destruct (Z.eqb_spec v 0). Qed.

Lemma js_strict_neq_false a b : js_strict_neq a b = false <-> a = b.
Proof. unfold js_strict_neq. case_bool_decide; naive_solver. Qed.

Lemma prisma_where_eq_Some {K} `{EqDecision K} (k v : K) :
  prisma_where_eq (Some k) v = true <-> v = k.
Proof. simpl. by rewrite bool_decide_eq_true. Qed.

#[export] Hint Resolve js_or_Z_falsy : api.
#[export] Hint Rewrite js_or_Z_falsy using done : api_rw.

(** ** Tactics shared by the components *)

(** Case on every string and integer equality test in the goal. *)
Ltac case_eqb :=
  repeat match goal with
  | |- context [String.eqb ?a ?b] => destruct (String.eqb_spec a b); subst
  | |- context [Z.eqb ?a ?b] => destruct (Z.eqb_spec a b); subst
  end.

(** Put the hypothesis [_ = Ok _] back into the goal, so that the case
    analysis on the handler's tests also rewrites it. *)
Ltac revert_result :=
  match goal with H : _ = Ok _ |- _ => revert H end.

(** Invert a hypothesis and clean it. *)
Ltac invc H := inversion H; subst; clear H.

(** ** Prisma's [findFirst] on a table keyed by autoincrement ids

    The matching row with the least id, found by scanning the ids
    [k, k + 1, ...] for [fuel] steps. *)
Section Scan.
Context {A : Type}.
Local Open Scope Z_scope.

Fixpoint scan_ids (m : gmap Z A) (pred : A -> bool) (k : Z) (fuel : nat) : option A :=
  match fuel with
  | O => None
  | S fuel' =>
      match m !! k with
      | Some o => if pred o then Some o else scan_ids m pred (k + 1) fuel'
      | None => scan_ids m pred (k + 1) fuel'
      end
  end.

Lemma scan_ids_Some m pred k0 fuel o :
  scan_ids m pred k0 fuel = Some o ->
  exists k, k0 <= k < k0 + Z.of_nat fuel /\ m !! k = Some o /\ pred o = true.
Proof.
  revert k0. induction fuel as [|fuel IH]; intros k0; simpl; [done|].
  destruct (m !! k0) as [x|] eqn:E; [destruct (pred x) eqn:Ep|].
  - intros [= <-]. exists k0. split; [lia | done].
  - intros (k & Hk & ?)%IH. exists k. split; [lia | done].
  - intros (k & Hk & ?)%IH. exists k. split; [lia | done].
Qed.

Lemma scan_ids_None m pred k0 fuel :
  scan_ids m pred k0 fuel = None ->
  forall k o, k0 <= k < k0 + Z.of_nat fuel -> m !! k = Some o -> pred o = false.
Proof.
  revert k0. induction fuel as [|fuel IH]; intros k0; simpl; [intros _ k o Hk; lia|].
  intros Hs k o Hk Hko. destruct (decide (k = k0)) as [->|Hne].
  - rewrite Hko in Hs. by destruct (pred o).
  - destruct (m !! k0) as [x|]; [destruct (pred x)|]; try done;
      (apply (IH (k0 + 1) Hs k o); [lia | exact Hko]).
Qed.

End Scan.
