(* ===== verification/Pricing.v ===== *)
(** * Pricing of an order's line items

    The first half of [OrdersService.createOrder]
    (src/src/modules/orders/orders.service.ts, lines 68-97): every cart
    line is resolved against the fetched products, its unit price is the
    variant's price or the product's, the product's discount is applied
    with [Math.round], the running [subtotal] accumulates
    [finalPrice * quantity], and [totalAmount = subtotal + shippingCost].
    Prices are integers in the smallest currency unit (rupiah); the
    rounding of line 82 is modelled both on exact rationals and in
    doubles (see the root header). *)

From Stdlib Require Floats Uint63.
From S2P Require Import Prelude.

Open Scope Z_scope.
Open Scope result_scope.

Module Pricing.

(** A row of [product.variants]. *)
Record Variant := mkVariant {
  variant_id : Z;
  variant_price : option Z;
  variant_value : string;
}.

(** A row of [prisma.product.findMany({ include: { variants: true } })]. *)
Record Product := mkProduct {
  product_id : Z;
  title : string;
  price : Z;
  discount : option Z;
  weight : Z;
  variants : list Variant;
}.

(** An element of [data.items]. *)
Record ItemInput := mkItemInput {
  in_productId : Z;
  in_variantId : option Z;
  in_quantity : Z;
}.

(** The object returned by the [map] callback (lines 86-94): the order
    item as it is persisted, with its price snapshot. *)
Record OrderItem := mkOrderItem {
  productId : Z;
  variantId : option Z;
  productName : string;
  variantName : option string;
  item_price : Z;
  quantity : Z;
  item_weight : Z;
}.

(** The only way the loop fails: [product!.price] when no fetched product
    has the requested id reads a field of [undefined] (a TypeError). *)
Inductive PricingError :=
| ProductUndefined (pid : Z).

(** [products.find(p => p.id === item.productId)] (line 76). *)
Definition find_product (products : list Product) (pid : Z) : option Product :=
  List.find (fun p => Z.eqb (product_id p) pid) products.

(** [item.variantId ? product?.variants.find(v => v.id === item.variantId) : null]
    (lines 77-79). *)
Definition find_variant (product : option Product) (vid : option Z) : option Variant :=
  if js_truthy_Z vid then
    match product, vid with
    | Some p, Some v => List.find (fun x => Z.eqb (variant_id x) v) (variants p)
    | _, _ => None
    end
  else None.

(** [Math.round(price * (1 - discount / 100))] (line 82). *)
Definition final_price (price discount : Z) : Z :=
  math_round (price * (100 - discount)) 100.

(** The same line as the JavaScript engine evaluates it, in IEEE-754
    doubles ([Stdlib.Floats]). [js_number] is the [Number] of an integer
    column (Prisma's [Int] is 32-bit, so the conversion is exact); [1 -
    discount / 100] and the product are each rounded to the nearest
    double; [Math.round] ([math_round_double]) rounds the double's exact
    value [m * 2^e] half-way up, [floor(m * 2^e + 1/2)]. NaN and the
    infinities, which no 32-bit operands produce here, give [None]. *)
Definition js_number (z : Z) : PrimFloat.float :=
  if z <? 0 then PrimFloat.opp (PrimFloat.of_uint63 (Uint63.of_Z (- z)))
  else PrimFloat.of_uint63 (Uint63.of_Z z).

Definition math_round_double (x : PrimFloat.float) : option Z :=
  match FloatOps.Prim2SF x with
  | SpecFloat.S754_zero _ => Some 0
  | SpecFloat.S754_finite s m e =>
      let n := if s then Z.neg m else Z.pos m in
      if 0 <=? e then Some (Z.shiftl n e)
      else Some (Z.shiftr (2 * n + Z.shiftl 1 (- e)) (1 - e))
  | _ => None
  end.

Definition final_price_double (price discount : Z) : option Z :=
  math_round_double (PrimFloat.mul (js_number price)
    (PrimFloat.sub (js_number 1) (PrimFloat.div (js_number discount) (js_number 100)))).

(** Whether the double result is the exact half-up rounding of
    [price * (100 - discount) / 100] or, at an exact tie, one below it. *)
Definition rounding_agrees (price discount : Z) : bool :=
  match final_price_double price discount with
  | Some z =>
      let v := 2 * (price * (100 - discount)) + 100 in
      (200 * z <=? v) && (v <? 200 * z + 200) || (v =? 200 * z + 200)
  | None => false
  end.

(** The body of the [map] callback without the [subtotal] update
    (lines 76-94). *)
Definition price_item (products : list Product) (it : ItemInput)
  : result OrderItem PricingError :=
  let product := find_product products (in_productId it) in
  let variant := find_variant product (in_variantId it) in
  match product with
  | None => Err (ProductUndefined (in_productId it))
  | Some p =>
      let unit_price := js_or_Z (variant ≫= variant_price) (price p) in
      let fp := final_price unit_price (js_or_Z (discount p) 0) in
      Ok {| productId := in_productId it;
            variantId := in_variantId it;
            productName := title p;
            variantName := variant_value <$> variant;
            item_price := fp;
            quantity := in_quantity it;
            item_weight := weight p |}
  end.

(** [finalPrice * item.quantity] (line 84). *)
Definition line_total (oi : OrderItem) : Z := item_price oi * quantity oi.

(** The [data.items.map] loop with its running [subtotal] (lines 74-95):
    the items are priced in order and the first failure aborts the loop. *)
Fixpoint price_items (products : list Product) (items : list ItemInput) (subtotal : Z)
  : result (list OrderItem * Z) PricingError :=
  match items with
  | [] => Ok ([], subtotal)
  | it :: rest =>
      oi <- price_item products it ;;
      r <- price_items products rest (subtotal + line_total oi) ;;
      Ok (oi :: fst r, snd r)
  end.

(** What [createOrder] hands to [prisma.order.create]: the items, the
    subtotal and [totalAmount = subtotal + data.shippingCost] (line 97). *)
Record Totals := mkTotals {
  order_items : list OrderItem;
  subtotal : Z;
  totalAmount : Z;
}.

Definition compute_totals (products : list Product) (items : list ItemInput)
    (shippingCost : Z) : result Totals PricingError :=
  r <- price_items products items 0 ;;
  Ok {| order_items := fst r; subtotal := snd r; totalAmount := snd r + shippingCost |}.

(** ** Reference definition: price every line, then sum *)

Fixpoint price_all (products : list Product) (items : list ItemInput)
  : result (list OrderItem) PricingError :=
  match items with
  | [] => Ok []
  | it :: rest =>
      oi <- price_item products it ;;
      ois <- price_all products rest ;;
      Ok (oi :: ois)
  end.

Definition compute_totals_spec (products : list Product) (items : list ItemInput)
    (shippingCost : Z) : result Totals PricingError :=
  ois <- price_all products items ;;
  Ok {| order_items := ois;
        subtotal := sumZ line_total ois;
        totalAmount := sumZ line_total ois + shippingCost |}.

(** ** Lemmas *)

Lemma price_items_acc products items s :
  price_items products items s =
  (ois <- price_all products items ;; Ok (ois, s + sumZ line_total ois)).
Proof.
  revert s. induction items as [|it rest IH]; intros s; simpl.
  - by rewrite Z.add_0_r.
  - destruct (price_item products it) as [oi|e]; [|done].
    rewrite IH. destruct (price_all products rest) as [ois|e]; [|done].
    simpl. do 2 f_equal. lia.
Qed.

Lemma price_item_Err products it e :
  price_item products it = Err e <->
  find_product products (in_productId it) = None /\ e = ProductUndefined (in_productId it).
Proof.
  unfold price_item. destruct (find_product products (in_productId it)); naive_solver.
Qed.

Lemma price_item_Ok products it oi :
  price_item products it = Ok oi ->
  exists p, find_product products (in_productId it) = Some p /\
    oi = {| productId := in_productId it;
            variantId := in_variantId it;
            productName := title p;
            variantName := variant_value <$> find_variant (Some p) (in_variantId it);
            item_price := final_price
              (js_or_Z (find_variant (Some p) (in_variantId it) ≫= variant_price) (price p))
              (js_or_Z (discount p) 0);
            quantity := in_quantity it;
            item_weight := weight p |}.
Proof.
  unfold price_item. destruct (find_product products (in_productId it)) as [p|];
    [|done]. intros [= <-]. eauto.
Qed.

Lemma find_product_Some products pid p :
  find_product products pid = Some p -> p ∈ products /\ product_id p = pid.
Proof.
  unfold find_product. intros [Hin Heq]%find_some.
  split; [by apply list_elem_of_In | by apply Z.eqb_eq].
Qed.

Lemma find_product_None products pid :
  find_product products pid = None <-> Forall (fun p => product_id p <> pid) products.
Proof.
  unfold find_product. rewrite Forall_forall. split.
  - intros H p Hp%list_elem_of_In Heq. apply (find_none _ _ H) in Hp.
    by rewrite Heq, Z.eqb_refl in Hp.
  - intros H. destruct (List.find _ products) as [p|] eqn:E; [|done].
    apply find_some in E as [Hp Heq%Z.eqb_eq]. apply list_elem_of_In in Hp.
    by destruct (H p Hp).
Qed.

Lemma price_all_length products items ois :
  price_all products items = Ok ois -> List.length ois = List.length items.
Proof.
  revert ois. induction items as [|it rest IH]; intros ois; simpl; [by intros [= <-]|].
  destruct (price_item products it); [|done].
  destruct (price_all products rest) eqn:E; [|done]. intros [= <-]. simpl. by rewrite (IH _ eq_refl).
Qed.

#[export] Hint Resolve find_product_Some price_all_length : api.

(** ** Properties *)

(** C13 (equivalence). The loop of [createOrder], which threads a running
    [subtotal] through the [map] callback, computes the same items,
    subtotal and total as the reference definition that prices every line
    and then sums [finalPrice * quantity]; errors included. *)
Theorem compute_totals_equiv products items shippingCost :
  compute_totals products items shippingCost = compute_totals_spec products items shippingCost.
Proof.
  unfold compute_totals, compute_totals_spec. rewrite price_items_acc.
  by destruct (price_all products items).
Qed.

(** Whenever the pricing of an order succeeds, its total is its subtotal
    plus the shipping cost, and its subtotal is the sum of the persisted
    line totals [price * quantity] (used by the [createOrder] theorems). *)
Lemma compute_totals_amounts products items shippingCost t :
  compute_totals products items shippingCost = Ok t ->
  totalAmount t = subtotal t + shippingCost /\
  subtotal t = sumZ line_total (order_items t).
Proof.
  rewrite compute_totals_equiv. unfold compute_totals_spec.
  destruct (price_all products items); [|done]. by intros [= <-].
Qed.

(** The exact model rounds half-way up:
    [fp - 1/2 <= price * (100 - discount) / 100 < fp + 1/2], and this
    determines [fp]. *)
Lemma final_price_round price discount :
  200 * final_price price discount <= 2 * (price * (100 - discount)) + 100 <
  200 * final_price price discount + 200.
Proof.
  unfold final_price. pose proof (math_round_spec (price * (100 - discount)) 100). lia.
Qed.

Lemma final_price_unique price discount z :
  200 * z <= 2 * (price * (100 - discount)) + 100 < 200 * z + 200 ->
  z = final_price price discount.
Proof. pose proof (final_price_round price discount). lia. Qed.

Lemma rounding_agrees_spec price discount :
  rounding_agrees price discount = true ->
  exists z, final_price_double price discount = Some z /\
    (z = final_price price discount \/
     (price * (100 - discount)) mod 100 = 50 /\ z = final_price price discount - 1).
Proof.
  unfold rounding_agrees. destruct (final_price_double price discount) as [z|]; [|done].
  intros H. exists z. split; [done|].
  apply orb_true_iff in H as [[H1 H2]%andb_true_iff | H3].
  - left. apply final_price_unique. apply Z.leb_le in H1. apply Z.ltb_lt in H2. lia.
  - right. apply Z.eqb_eq in H3.
    set (v := price * (100 - discount)) in *. split.
    + rewrite (Z.div_mod v 100) in H3 by lia. pose proof (Z.mod_pos_bound v 100). lia.
    + enough (z + 1 = final_price price discount) by lia. apply final_price_unique. lia.
Qed.

(** C19 (functional, finding). The code evaluates line 82 in doubles. For
    every price up to 5000 and every discount from 0 to 100 percent its
    result is the exact half-up rounding of [price * (100 - discount) / 100]
    or, when that value is an exact half, one below it; and such a tie is
    rounded down: at price 1075 and a 6 percent discount the exact value is
    1010.5, the specification's half-up rounding gives 1011, and the code
    charges 1010. *)
Theorem final_price_double_rounding :
  (forall price discount, 0 <= price <= 5000 -> 0 <= discount <= 100 ->
     exists z, final_price_double price discount = Some z /\
       (z = final_price price discount \/
        (price * (100 - discount)) mod 100 = 50 /\ z = final_price price discount - 1)) /\
  final_price_double 1075 6 = Some 1010 /\ final_price 1075 6 = 1011.
Proof.
  split; [|split; vm_compute; reflexivity].
  intros price discount Hp Hd. apply rounding_agrees_spec.
  assert (Hall : all_in_range (fun p => all_in_range (rounding_agrees p) 0 (Z.to_nat 101)) 0 (Z.to_nat 5001) = true)
    by (vm_compute; reflexivity).
  apply (all_in_range_spec _ _ _ (all_in_range_spec _ _ _ Hall price ltac:(lia))). lia.
Qed.

Lemma final_price_double_rounding_witness :
  (0 <= 1075 <= 5000 /\ 0 <= 6 <= 100) /\
  exists z, final_price_double 1075 6 = Some z /\
    (z = final_price 1075 6 \/ (1075 * (100 - 6)) mod 100 = 50 /\ z = final_price 1075 6 - 1).
Proof.
  split; [lia|]. apply (proj1 final_price_double_rounding); lia.
Defined.

(** C20 (bounds). With a non-negative price and a discount between 0 and
    100 percent, the discounted price is between 0 and the price. *)
Theorem final_price_bounds price discount :
  0 <= price -> 0 <= discount <= 100 ->
  0 <= final_price price discount <= price.
Proof.
  intros Hp Hd. pose proof (final_price_round price discount).
  assert (0 <= price * (100 - discount) <= price * 100) by nia. lia.
Qed.

Lemma final_price_bounds_witness :
  (0 <= 100000 /\ 0 <= 10 <= 100) /\ 0 <= final_price 100000 10 <= 100000.
Proof.
  split; [lia|]. apply final_price_bounds; lia.
Defined.

(** C21 (bounds, finding). Nothing bounds the discount: a discount above
    100 percent yields a negative unit price once
    [price * (discount - 100) > 50], although the specification requires
    [finalPrice >= 0]. *)
Theorem final_price_negative price discount :
  price * (discount - 100) > 50 -> final_price price discount < 0.
Proof.
  intros H. pose proof (final_price_round price discount). nia.
Qed.

Lemma final_price_negative_witness :
  100 * (150 - 100) > 50 /\ final_price 100 150 < 0.
Proof. split; [lia|]. apply final_price_negative. lia. Defined.

(** C22 (error). Pricing fails exactly when some line names a product that
    was not fetched (the [product!] dereference of [undefined]); it fails
    with the first such line. Unknown variants and non-positive quantities
    are not errors. *)
Theorem compute_totals_error products items shippingCost :
  (exists e, compute_totals products items shippingCost = Err e) <->
  Exists (fun it => find_product products (in_productId it) = None) items.
Proof.
  rewrite compute_totals_equiv. unfold compute_totals_spec.
  induction items as [|it rest IH]; simpl.
  - split; [by intros [? ?]|]. intros H. inversion H.
  - rewrite Exists_cons. destruct (price_item products it) as [oi|e] eqn:Hit.
    + assert (find_product products (in_productId it) <> None).
      { intros Hn. unfold price_item in Hit. by rewrite Hn in Hit. }
      rewrite <- IH. destruct (price_all products rest); naive_solver.
    + apply price_item_Err in Hit as [Hn _]. split; [by left | eauto].
Qed.

Lemma find_variant_none p v :
  Forall (fun x => variant_id x <> v) (variants p) ->
  find_variant (Some p) (Some v) = None.
Proof.
  intros Hall. unfold find_variant. simpl. destruct (negb (v =? 0)); [|done].
  destruct (List.find _ (variants p)) as [x|] eqn:E; [|done].
  apply find_some in E as [Hx Heq%Z.eqb_eq]. rewrite Forall_forall in Hall.
  apply list_elem_of_In in Hx. by destruct (Hall x Hx).
Qed.

(** C23 (functional, finding). A line whose variant id names no variant
    of the product is not rejected: it is priced at the product's own
    price and recorded without a variant name (the specification asks for
    [InvalidLineItem]). *)
Theorem price_item_unknown_variant products it p v :
  find_product products (in_productId it) = Some p ->
  in_variantId it = Some v ->
  Forall (fun x => variant_id x <> v) (variants p) ->
  exists oi, price_item products it = Ok oi /\
    item_price oi = final_price (price p) (js_or_Z (discount p) 0) /\
    variantName oi = None /\ variantId oi = Some v.
Proof.
  intros Hp Hv Hall. unfold price_item. rewrite Hp, Hv, (find_variant_none p v Hall).
  simpl. eauto.
Qed.

Lemma price_item_unknown_variant_witness :
  (find_product [mkProduct 1 "Kaos" 50000 None 200 [mkVariant 7 (Some 60000) "XL"]] 1 =
     Some (mkProduct 1 "Kaos" 50000 None 200 [mkVariant 7 (Some 60000) "XL"]) /\
   in_variantId (mkItemInput 1 (Some 9) 1) = Some 9 /\
   Forall (fun x => variant_id x <> 9) (variants (mkProduct 1 "Kaos" 50000 None 200 [mkVariant 7 (Some 60000) "XL"]))) /\
  exists oi, price_item [mkProduct 1 "Kaos" 50000 None 200 [mkVariant 7 (Some 60000) "XL"]]
                (mkItemInput 1 (Some 9) 1) = Ok oi /\
    item_price oi = final_price 50000 (js_or_Z None 0) /\ variantName oi = None /\ variantId oi = Some 9.
Proof.
  assert (Hf : Forall (fun x => variant_id x <> 9)
     (variants (mkProduct 1 "Kaos" 50000 None 200 [mkVariant 7 (Some 60000) "XL"]))).
  { repeat constructor; simpl; lia. }
  split; [split; [reflexivity | split; [reflexivity | exact Hf]]|].
  exact (price_item_unknown_variant [mkProduct 1 "Kaos" 50000 None 200 [mkVariant 7 (Some 60000) "XL"]]
    (mkItemInput 1 (Some 9) 1) (mkProduct 1 "Kaos" 50000 None 200 [mkVariant 7 (Some 60000) "XL"]) 9
    eq_refl eq_refl Hf).
Defined.
End Pricing.
