(* ===== verification/OrderStore.v ===== *)
(** * The persisted state: orders, users and products, and the Prisma calls on them

    The tables the order and payment code reads and writes, as one record
    [Db], and the Prisma client operations the handlers call on them:
    [order.create] (with the unique [orderNumber] column), [order.findFirst],
    [order.update] and [order.updateMany], each with the documented
    semantics of the Prisma client (a [where] field set to [undefined]
    matches every row; [update] of a missing row throws). The schema file
    is not part of the sources: the status enumerations and the column
    defaults are taken from the specification (section 4.4 and 4.5). *)

From S2P Require Import Prelude Pricing.

Open Scope Z_scope.
Open Scope result_scope.

Module OrderStore.

(** The order axis of the lifecycle (specification 4.5), with the
    [COMPLETED] value that [AdminService] filters on. *)
Module OrderStatus.
Inductive t := PENDING_PAYMENT | PAID | FULFILLING | SHIPPED | DELIVERED | COMPLETED | CANCELLED.
#[global] Instance eq_dec : EqDecision t.
Proof. solve_decision. Defined.
End OrderStatus.

(** The payment axis (specification 4.5); the code writes [PENDING],
    [PAID] and [EXPIRED]. *)
Module PaymentStatus.
Inductive t := UNPAID | PENDING | PAID | EXPIRED | FAILED.
#[global] Instance eq_dec : EqDecision t.
Proof. solve_decision. Defined.
End PaymentStatus.

(** A row of the [order] table with its [items]. *)
Record Order := mkOrder {
  oid : Z;
  orderNumber : string;
  userId : Z;
  storeId : Z;
  addressId : Z;
  voucherId : option Z;
  subtotal : Z;
  shippingCost : Z;
  totalAmount : Z;
  courier : string;
  courierService : string;
  paymentMethod : string;
  notes : option string;
  items : list Pricing.OrderItem;
  status : OrderStatus.t;
  paymentStatus : PaymentStatus.t;
  paidAt : option Z;
}.

(** A row of the [user] table, as far as the payment code reads it. *)
Record User := mkUser {
  email : string;
  fullName : string;
}.

(** The database: the [order] table keyed by its autoincrement id, the
    next id, the [user] table and the [product] catalogue. *)
Record Db := mkDb {
  orders : gmap Z Order;
  next_order_id : Z;
  users : gmap Z User;
  products : list Pricing.Product;
}.

Inductive DbError :=
| UniqueViolation          (* P2002 on order.orderNumber *)
| RecordNotFound.          (* P2025: update of a missing row *)

(** The [data] argument of [prisma.order.create] (orders.service.ts,
    lines 100-116). *)
Record OrderData := mkOrderData {
  d_orderNumber : string;
  d_userId : Z;
  d_storeId : Z;
  d_addressId : Z;
  d_voucherId : option Z;
  d_subtotal : Z;
  d_shippingCost : Z;
  d_totalAmount : Z;
  d_courier : string;
  d_courierService : string;
  d_paymentMethod : string;
  d_notes : option string;
  d_items : list Pricing.OrderItem;
}.

(** The [data] argument of [order.update] / [order.updateMany]: the
    columns the payment code writes, each optional. *)
Record OrderPatch := mkOrderPatch {
  set_paymentStatus : option PaymentStatus.t;
  set_status : option OrderStatus.t;
  set_paidAt : option (option Z);
  set_notes : option (option string);
}.

Definition apply_patch (p : OrderPatch) (o : Order) : Order :=
  {| oid := oid o; orderNumber := orderNumber o; userId := userId o;
     storeId := storeId o; addressId := addressId o; voucherId := voucherId o;
     subtotal := subtotal o; shippingCost := shippingCost o; totalAmount := totalAmount o;
     courier := courier o; courierService := courierService o;
     paymentMethod := paymentMethod o;
     notes := default (notes o) (set_notes p);
     items := items o;
     status := default (status o) (set_status p);
     paymentStatus := default (paymentStatus o) (set_paymentStatus p);
     paidAt := default (paidAt o) (set_paidAt p) |}.

Definition number_taken (db : Db) (num : string) : bool :=
  bool_decide (map_Exists (fun _ o => orderNumber o = num) (orders db)).

(** [prisma.order.create]: the unique constraint on [orderNumber], the
    autoincrement id, and the column defaults [PENDING_PAYMENT], [UNPAID]
    and [paidAt = null]. *)
Definition order_create (d : OrderData) (db : Db) : result (Order * Db) DbError :=
  if number_taken db (d_orderNumber d) then Err UniqueViolation
  else
    let o := {| oid := next_order_id db; orderNumber := d_orderNumber d;
                userId := d_userId d; storeId := d_storeId d; addressId := d_addressId d;
                voucherId := d_voucherId d; subtotal := d_subtotal d;
                shippingCost := d_shippingCost d; totalAmount := d_totalAmount d;
                courier := d_courier d; courierService := d_courierService d;
                paymentMethod := d_paymentMethod d; notes := d_notes d; items := d_items d;
                status := OrderStatus.PENDING_PAYMENT;
                paymentStatus := PaymentStatus.UNPAID; paidAt := None |} in
    Ok (o, {| orders := <[next_order_id db := o]> (orders db);
              next_order_id := next_order_id db + 1;
              users := users db; products := products db |}).

(** [prisma.order.findFirst({ where })]: the matching row with the least
    id, by [scan_ids] over the ids [1 .. next_order_id - 1]. *)
Definition order_find_first (pred : Order -> bool) (db : Db) : option Order :=
  scan_ids (orders db) pred 1 (Z.to_nat (next_order_id db - 1)).

(** [where: { id: orderId, userId }]. *)
Definition by_id_owner (orderId : option Z) (uid : Z) (o : Order) : bool :=
  prisma_where_eq orderId (oid o) && bool_decide (userId o = uid).

(** [prisma.order.update({ where: { id }, data })]. *)
Definition order_update (id : Z) (p : OrderPatch) (db : Db) : result Db DbError :=
  match orders db !! id with
  | None => Err RecordNotFound
  | Some o => Ok {| orders := <[id := apply_patch p o]> (orders db);
                    next_order_id := next_order_id db;
                    users := users db; products := products db |}
  end.

(** [prisma.order.updateMany({ where: { orderNumber }, data })]: every
    matching row is patched; with [orderNumber: undefined] every row
    matches. *)
Definition order_update_many (num : option string) (p : OrderPatch) (db : Db) : Db :=
  {| orders := (fun o => if prisma_where_eq num (orderNumber o) then apply_patch p o else o)
               <$> orders db;
     next_order_id := next_order_id db;
     users := users db; products := products db |}.

(** ** Well-formedness of the database *)

(** Amounts of an order: [totalAmount = subtotal + shippingCost] and the
    subtotal is the sum of the line totals of its items. *)
Definition order_amounts_ok (o : Order) : Prop :=
  totalAmount o = subtotal o + shippingCost o /\
  subtotal o = sumZ Pricing.line_total (items o).

(** A paid payment is recorded with a paid order and a payment time. *)
Definition order_paid_ok (o : Order) : Prop :=
  paymentStatus o = PaymentStatus.PAID ->
  status o = OrderStatus.PAID /\ is_Some (paidAt o).

Definition keys_ok (db : Db) : Prop :=
  map_Forall (fun k o => oid o = k /\ 1 <= k < next_order_id db) (orders db).

Definition numbers_unique (db : Db) : Prop :=
  forall k1 k2 o1 o2, orders db !! k1 = Some o1 -> orders db !! k2 = Some o2 ->
    orderNumber o1 = orderNumber o2 -> k1 = k2.

Definition db_wf (db : Db) : Prop :=
  1 <= next_order_id db /\ keys_ok db /\ numbers_unique db /\
  map_Forall (fun _ o => order_amounts_ok o /\ order_paid_ok o) (orders db).

(** The patches the code issues: a patch that marks the payment paid also
    marks the order paid and stamps [paidAt]; a patch that leaves the
    payment status alone leaves the order status and [paidAt] alone. *)
Definition patch_ok (p : OrderPatch) : Prop :=
  (set_paymentStatus p = Some PaymentStatus.PAID ->
     set_status p = Some OrderStatus.PAID /\ exists t, set_paidAt p = Some (Some t)) /\
  (set_paymentStatus p = None -> set_status p = None /\ set_paidAt p = None).

(** The columns no patch can change: identity, owner, money and items. *)
Definition frame (o : Order) :=
  (oid o, orderNumber o, userId o, storeId o, subtotal o, shippingCost o,
   totalAmount o, items o).

(** ** Lemmas on the Prisma operations *)

Lemma frame_apply_patch p o : frame (apply_patch p o) = frame o.
Proof. reflexivity. Qed.

Lemma amounts_apply_patch p o : order_amounts_ok o -> order_amounts_ok (apply_patch p o).
Proof. done. Qed.

Lemma paid_apply_patch p o :
  patch_ok p -> order_paid_ok o -> order_paid_ok (apply_patch p o).
Proof.
  intros [Hpaid Hnone] Ho. unfold order_paid_ok, apply_patch; simpl.
  destruct (set_paymentStatus p) as [ps|] eqn:Eps; simpl.
  - intros ->. destruct (Hpaid eq_refl) as [-> [t ->]]. simpl. eauto.
  - destruct (Hnone eq_refl) as [-> ->]. exact Ho.
Qed.

Lemma frame_patch_if (b : bool) p o : frame (if b then apply_patch p o else o) = frame o.
Proof. by destruct b. Qed.

Lemma oid_patch_if (b : bool) p o : oid (if b then apply_patch p o else o) = oid o.
Proof. by destruct b. Qed.

Lemma number_patch_if (b : bool) p o :
  orderNumber (if b then apply_patch p o else o) = orderNumber o.
Proof. by destruct b. Qed.

#[export] Hint Rewrite frame_patch_if oid_patch_if number_patch_if frame_apply_patch : api_rw.

Lemma lookup_update_many num p db k :
  orders (order_update_many num p db) !! k =
  (fun o => if prisma_where_eq num (orderNumber o) then apply_patch p o else o)
    <$> orders db !! k.
Proof. apply lookup_fmap. Qed.

Lemma update_many_wf num p db :
  patch_ok p -> db_wf db -> db_wf (order_update_many num p db).
Proof.
  intros Hp (Hn & Hk & Hu & Ho). unfold db_wf, keys_ok, numbers_unique.
  simpl. split; [done|]. split; [|split].
  - apply map_Forall_fmap. intros k o Hko. cbn. rewrite oid_patch_if. apply (Hk k o Hko).
  - intros k1 k2 o1 o2. rewrite !lookup_fmap.
    destruct (orders db !! k1) as [a1|] eqn:E1; [|done].
    destruct (orders db !! k2) as [a2|] eqn:E2; [|done]. simpl.
    intros [= <-] [= <-]. rewrite !number_patch_if. apply (Hu k1 k2 a1 a2 E1 E2).
  - apply map_Forall_fmap. intros k o Hko. cbn. destruct (Ho k o Hko) as [Ha Hpd].
    destruct (prisma_where_eq num (orderNumber o)); [|done].
    split; [by apply amounts_apply_patch | by apply paid_apply_patch].
Qed.

Lemma order_update_wf id p db db' :
  patch_ok p -> db_wf db -> order_update id p db = Ok db' -> db_wf db'.
Proof.
  intros Hp (Hn & Hk & Hu & Ho). unfold order_update.
  destruct (orders db !! id) as [o|] eqn:E; [|done]. intros [= <-].
  unfold db_wf, keys_ok, numbers_unique; simpl. split; [done|]. split; [|split].
  - apply map_Forall_insert_2; [apply (Hk id o E) | done].
  - intros k1 k2 o1 o2. rewrite !lookup_insert.
    case_decide; case_decide; intros [=] [=]; subst; simpl; eauto.
  - apply map_Forall_insert_2; [|done]. destruct (Ho id o E).
    split; [by apply amounts_apply_patch | by apply paid_apply_patch].
Qed.

Lemma number_taken_false db num :
  number_taken db num = false ->
  forall k o, orders db !! k = Some o -> orderNumber o <> num.
Proof.
  unfold number_taken. rewrite bool_decide_eq_false. intros Hn k o Hk Heq.
  apply Hn. exists k, o. done.
Qed.

Lemma order_create_wf d db o db' :
  order_amounts_ok {| oid := 0; orderNumber := d_orderNumber d; userId := 0; storeId := 0;
    addressId := 0; voucherId := None; subtotal := d_subtotal d;
    shippingCost := d_shippingCost d; totalAmount := d_totalAmount d; courier := "";
    courierService := ""; paymentMethod := ""; notes := None; items := d_items d;
    status := OrderStatus.PENDING_PAYMENT; paymentStatus := PaymentStatus.UNPAID;
    paidAt := None |} ->
  db_wf db -> order_create d db = Ok (o, db') -> db_wf db'.
Proof.
  intros Ham (Hn & Hk & Hu & Ho). unfold order_create.
  destruct (number_taken db (d_orderNumber d)) eqn:Et; [done|]. intros [= <- <-].
  pose proof (number_taken_false _ _ Et) as Hfree.
  assert (Hnew : orders db !! next_order_id db = None).
  { destruct (orders db !! next_order_id db) as [x|] eqn:E; [|done].
    destruct (Hk _ _ E). lia. }
  unfold db_wf, keys_ok, numbers_unique; simpl. split; [lia|]. split; [|split].
  - apply map_Forall_insert_2; [simpl; lia|].
    eapply map_Forall_impl; [exact Hk|]. simpl. intros. lia.
  - intros k1 k2 o1 o2. rewrite !lookup_insert.
    case_decide; case_decide; intros E1 E2 Heq; simplify_eq; simpl in *; try done.
    + by destruct (Hfree _ _ E2).
    + by destruct (Hfree _ _ E1).
    + eauto.
  - apply map_Forall_insert_2; [|done]. split; [exact Ham|]. by intros [=].
Qed.

(** A database holding one order under its own id is well formed. *)
Lemma empty_db_wf us ps : db_wf (mkDb ∅ 1 us ps).
Proof.
  split; [simpl; lia|]. split; [apply map_Forall_empty|]. split; [|apply map_Forall_empty].
  intros k1 k2 o1 o2 E. simpl in E. by rewrite lookup_empty in E.
Qed.

Lemma singleton_db_wf o us ps :
  1 <= oid o -> order_amounts_ok o -> order_paid_ok o ->
  db_wf (mkDb {[oid o := o]} (oid o + 1) us ps).
Proof.
  intros Hid Ha Hp. split; [simpl; lia|]. split; [apply map_Forall_singleton; simpl; lia|].
  split; [|by apply map_Forall_singleton].
  intros k1 k2 o1 o2 E1 E2 _. simpl in E1, E2.
  apply lookup_singleton_Some in E1 as [<- _]. by apply lookup_singleton_Some in E2 as [<- _].
Qed.

(** [findFirst] returns a matching row, and it finds one whenever a row
    matches. *)
Lemma find_first_Some pred db o :
  order_find_first pred db = Some o -> exists k, orders db !! k = Some o /\ pred o = true.
Proof. intros (k & _ & ?)%scan_ids_Some. eauto. Qed.

Lemma find_first_complete pred db k o :
  keys_ok db -> orders db !! k = Some o -> pred o = true ->
  exists o', order_find_first pred db = Some o'.
Proof.
  intros Hk Hko Hp. destruct (order_find_first pred db) as [o'|] eqn:E; [eauto|].
  destruct (Hk k o Hko) as [_ Hr].
  rewrite (scan_ids_None _ _ _ _ E k o) in Hp; [done| |done]. lia.
Qed.

(** Looking an order up by id and owner finds exactly that row. *)
Lemma find_by_id_owner db id uid :
  keys_ok db ->
  order_find_first (by_id_owner (Some id) uid) db =
  match orders db !! id with
  | Some o => if bool_decide (userId o = uid) then Some o else None
  | None => None
  end.
Proof.
  intros Hk. unfold by_id_owner; simpl.
  destruct (order_find_first _ db) as [o|] eqn:E.
  - apply find_first_Some in E as (k & Hko & Hp). apply andb_true_iff in Hp as [Hid Hu].
    apply bool_decide_eq_true in Hid. destruct (Hk k o Hko) as [Hoid _]. subst.
    by rewrite Hko, Hu.
  - destruct (orders db !! id) as [o|] eqn:Hid; [|done].
    case_bool_decide as Hu; [|done].
    destruct (find_first_complete (fun o => bool_decide (oid o = id) && bool_decide (userId o = uid))
                db id o Hk Hid) as [o' Ho']; [|congruence].
    destruct (Hk id o Hid). by rewrite !bool_decide_eq_true_2.
Qed.

End OrderStore.
