(* ===== verification/OrderNumber.v ===== *)
(** * Order numbers

    [generateOrderNumber] (src/src/modules/orders/orders.service.ts,
    lines 5-12): ["INV/" + year + month + day + "/" + random], the month
    and day padded to two digits with [padStart(2, '0')], the random part
    [Math.random().toString(36).substring(2, 8).toUpperCase()]. The clock
    and the random generator are inputs: [DateParts] are the local-time
    fields of [new Date()] and [rand36] is the string
    [Math.random().toString(36)] (such as ["0.4fzyo82mvyr"]). *)

From S2P Require Import Prelude.
From Stdlib Require Import Ascii.

Open Scope Z_scope.

Module OrderNumber.

(** [String(n)] for a non-negative integer: its decimal digits. *)
Fixpoint dec_digits (fuel : nat) (n : Z) (acc : string) : string :=
  match fuel with
  | O => acc
  | S fuel' =>
      let acc' := String (ascii_of_nat (48 + Z.to_nat (n mod 10))) acc in
      if n <? 10 then acc' else dec_digits fuel' (n / 10) acc'
  end.

Definition js_string_of_int (n : Z) : string := dec_digits 20 n "".

(** [s.padStart(target, fill)] with a one-character [fill]. *)
Definition pad_start (target : nat) (fill : ascii) (s : string) : string :=
  if Nat.leb target (String.length s) then s
  else append (string_of_list_ascii (repeat fill (target - String.length s))) s.

(** [s.substring(start, end)] for [start <= end]: JavaScript clamps both
    bounds to the length of [s], as [String.substring] does. *)
Definition js_substring (s : string) (start end_ : nat) : string :=
  String.substring start (end_ - start) s.

(** [toUpperCase] on the characters [Number.prototype.toString(36)]
    produces: the letters [a-z] become [A-Z], the rest is unchanged. *)
Definition upper_ascii (c : ascii) : ascii :=
  let n := nat_of_ascii c in
  if andb (Nat.leb 97 n) (Nat.leb n 122) then ascii_of_nat (n - 32) else c.

Fixpoint to_upper (s : string) : string :=
  match s with
  | EmptyString => EmptyString
  | String c s' => String (upper_ascii c) (to_upper s')
  end.

(** The fields of [new Date()] that the function reads. *)
Record DateParts := mkDateParts {
  year : Z;      (* now.getFullYear() *)
  month0 : Z;    (* now.getMonth(), from 0 *)
  day : Z;       (* now.getDate() *)
}.

Definition random_part (rand36 : string) : string :=
  to_upper (js_substring rand36 2 8).

Definition generateOrderNumber (now : DateParts) (rand36 : string) : string :=
  let month := pad_start 2 "0" (js_string_of_int (month0 now + 1)) in
  let d := pad_start 2 "0" (js_string_of_int (day now)) in
  "INV/" ++ js_string_of_int (year now) ++ month ++ d ++ "/" ++ random_part rand36.

(** ** Lemmas *)

Lemma length_to_upper s : String.length (to_upper s) = String.length s.
Proof. induction s; simpl; auto. Qed.

Lemma length_substring n m s : (String.length (String.substring n m s) <= m)%nat.
Proof.
  revert n m. induction s as [|c s IH]; intros [|n] [|m]; simpl; try lia;
    [specialize (IH 0%nat m); lia | apply IH | apply IH].
Qed.

Lemma length_substring_eq n m s :
  String.length (String.substring n m s) = Nat.min m (String.length s - n).
Proof.
  revert n m. induction s as [|c s IH]; intros [|n] [|m];
    cbn [String.substring String.length]; rewrite ?IH; lia.
Qed.

(** Four-digit years print with four digits. *)
Lemma year_digits y : 1000 <= y <= 9999 -> String.length (js_string_of_int y) = 4%nat.
Proof.
  intros Hy. apply Nat.eqb_eq.
  apply (all_in_range_spec (fun n => Nat.eqb (String.length (js_string_of_int n)) 4)
           1000 (Z.to_nat 9000)); [vm_compute; reflexivity | rewrite Z2Nat.id; lia].
Qed.

(** Months and days print with at most two digits, so [padStart(2)]
    makes them exactly two characters. *)
Lemma two_digits n : 0 <= n <= 99 ->
  String.length (pad_start 2 "0" (js_string_of_int n)) = 2%nat.
Proof.
  intros Hn. apply Nat.eqb_eq.
  apply (all_in_range_spec (fun k => Nat.eqb (String.length (pad_start 2 "0" (js_string_of_int k))) 2)
           0 100); [vm_compute; reflexivity | simpl; lia].
Qed.

(** ** Properties *)

(** C25 (roundtrip, bounds). For a four-digit year, a month and a day of
    the month, the order number is ["INV/"], an eight-character date
    [YYYYMMDD], ["/"], and the upper-cased random part, which has
    [min 6 (length rand36 - 2)] characters: fewer than the six the
    specification's format promises whenever [Math.random().toString(36)]
    has fewer than eight characters. *)
Theorem order_number_format now rand36 :
  1000 <= year now <= 9999 -> 0 <= month0 now <= 11 -> 1 <= day now <= 31 ->
  exists date,
    generateOrderNumber now rand36 = ("INV/" ++ date ++ "/" ++ random_part rand36)%string /\
    String.length date = 8%nat /\
    String.length (random_part rand36) = Nat.min 6 (String.length rand36 - 2).
Proof.
  intros Hy Hm Hd. unfold generateOrderNumber.
  exists (js_string_of_int (year now) ++ pad_start 2 "0" (js_string_of_int (month0 now + 1))
          ++ pad_start 2 "0" (js_string_of_int (day now)))%string.
  split; [by rewrite !str_append_assoc|]. split.
  - rewrite !str_length_append, year_digits, !two_digits by lia. done.
  - unfold random_part, js_substring. rewrite length_to_upper, length_substring_eq. lia.
Qed.

Lemma order_number_format_witness :
  (1000 <= year (mkDateParts 2025 0 1) <= 9999 /\ 0 <= month0 (mkDateParts 2025 0 1) <= 11 /\
   1 <= day (mkDateParts 2025 0 1) <= 31) /\
  generateOrderNumber (mkDateParts 2025 0 1) "0.i" = "INV/20250101/I"%string /\
  exists date,
    generateOrderNumber (mkDateParts 2025 0 1) "0.i" = ("INV/" ++ date ++ "/" ++ random_part "0.i")%string /\
    String.length date = 8%nat /\
    String.length (random_part "0.i") = Nat.min 6 (String.length "0.i" - 2).
Proof.
  split; [simpl; lia|]. split; [reflexivity|].
  apply order_number_format; simpl; lia.
Defined.

End OrderNumber.
