(* ===== verification/Orders.v ===== *)
(** * The order service

    [OrdersService] (src/src/modules/orders/orders.service.ts):
    [createOrder] composes the product query, the pricing loop of
    [Pricing], [generateOrderNumber] of [OrderNumber] and
    [prisma.order.create] of [OrderStore]; [getOrderById] and
    [getUserOrders] are the owner-scoped reads. *)

From Stdlib Require Import Sorting.Sorted.
From S2P Require Import Prelude Pricing OrderStore OrderNumber.

Open Scope Z_scope.
Open Scope result_scope.

Module Orders.
Import OrderStore.

(** The body of [POST /orders] that [createOrder] reads (lines 53-67). *)
Record CreateOrderInput := mkCreateOrderInput {
  c_storeId : Z;
  c_addressId : Z;
  c_voucherId : option Z;
  c_items : list Pricing.ItemInput;
  c_courier : string;
  c_courierService : string;
  c_shippingCost : Z;
  c_paymentMethod : string;
  c_notes : option string;
}.

Inductive CreateError :=
| PricingFailed (e : Pricing.PricingError)
| DbFailed (e : DbError).

(** [prisma.product.findMany({ where: { id: { in: ids } } })] (lines 69-72). *)
Definition product_find_many (ids : list Z) (db : Db) : list Pricing.Product :=
  List.filter (fun p => existsb (Z.eqb (Pricing.product_id p)) ids) (products db).

(** [createOrder(userId, data)] (lines 53-121). The clock and
    [Math.random().toString(36)] are inputs. *)
Definition createOrder (uid : Z) (data : CreateOrderInput) (now : OrderNumber.DateParts)
    (rand36 : string) (db : Db) : result (Order * Db) CreateError :=
  let fetched := product_find_many (map Pricing.in_productId (c_items data)) db in
  match Pricing.compute_totals fetched (c_items data) (c_shippingCost data) with
  | Err e => Err (PricingFailed e)
  | Ok t =>
      match order_create
              {| d_orderNumber := OrderNumber.generateOrderNumber now rand36;
                 d_userId := uid; d_storeId := c_storeId data;
                 d_addressId := c_addressId data; d_voucherId := c_voucherId data;
                 d_subtotal := Pricing.subtotal t; d_shippingCost := c_shippingCost data;
                 d_totalAmount := Pricing.totalAmount t;
                 d_courier := c_courier data; d_courierService := c_courierService data;
                 d_paymentMethod := c_paymentMethod data; d_notes := c_notes data;
                 d_items := Pricing.order_items t |} db with
      | Err e => Err (DbFailed e)
      | Ok r => Ok r
      end
  end.

(** [getOrderById(id, userId)] (lines 36-51). *)
Definition getOrderById (id uid : Z) (db : Db) : option Order :=
  order_find_first (by_id_owner (Some id) uid) db.

(** [where: { userId, ...(status && { status }) }]. *)
Definition user_status_filter (uid : Z) (st : option OrderStatus.t) (o : Order) : bool :=
  bool_decide (userId o = uid) &&
  match st with Some s => bool_decide (status o = s) | None => true end.

(** The matching rows from id [k] down to id [1]: [orderBy: { createdAt:
    'desc' }], the autoincrement id growing with the creation time. *)
Fixpoint collect_desc (m : gmap Z Order) (pred : Order -> bool) (k : Z) (fuel : nat)
  : list Order :=
  match fuel with
  | O => []
  | S fuel' =>
      let rest := collect_desc m pred (k - 1) fuel' in
      match m !! k with
      | Some o => if pred o then o :: rest else rest
      | None => rest
      end
  end.

(** [getUserOrders(userId, status)] (lines 18-34). *)
Definition getUserOrders (uid : Z) (st : option OrderStatus.t) (db : Db) : list Order :=
  collect_desc (orders db) (user_status_filter uid st) (next_order_id db - 1)
    (Z.to_nat (next_order_id db - 1)).

(** ** Lemmas *)

Lemma find_product_find_many ids db pid :
  pid ∈ ids ->
  Pricing.find_product (product_find_many ids db) pid = Pricing.find_product (products db) pid.
Proof.
  intros Hin. unfold product_find_many, Pricing.find_product.
  induction (products db) as [|p ps IH]; simpl; [done|].
  destruct (existsb (Z.eqb (Pricing.product_id p)) ids) eqn:Ex; simpl.
  - by rewrite IH.
  - destruct (Z.eqb_spec (Pricing.product_id p) pid) as [<-|]; [|done].
    exfalso. apply list_elem_of_In in Hin.
    assert (existsb (Z.eqb (Pricing.product_id p)) ids = true) as Ht
      by (apply existsb_exists; exists (Pricing.product_id p); split; [done | apply Z.eqb_refl]).
    congruence.
Qed.

Lemma collect_desc_sound m pred k fuel o :
  o ∈ collect_desc m pred k fuel ->
  exists j, k - Z.of_nat fuel < j <= k /\ m !! j = Some o /\ pred o = true.
Proof.
  revert k. induction fuel as [|fuel IH]; intros k; simpl; [by intros ?%elem_of_nil|].
  destruct (m !! k) as [x|] eqn:E; [destruct (pred x) eqn:Ep|].
  - intros [->|(j & Hj & ?)%IH]%elem_of_cons; [exists k; split; [lia | done]|].
    exists j. split; [lia | done].
  - intros (j & Hj & ?)%IH. exists j. split; [lia | done].
  - intros (j & Hj & ?)%IH. exists j. split; [lia | done].
Qed.

Lemma collect_desc_complete m pred k fuel j o :
  k - Z.of_nat fuel < j <= k -> m !! j = Some o -> pred o = true ->
  o ∈ collect_desc m pred k fuel.
Proof.
  revert k. induction fuel as [|fuel IH]; intros k Hj Hm Hp; simpl; [lia|].
  destruct (decide (j = k)) as [->|Hne].
  - rewrite Hm, Hp. apply list_elem_of_here.
  - assert (o ∈ collect_desc m pred (k - 1) fuel) by (apply (IH (k - 1)); [lia | done | done]).
    destruct (m !! k) as [x|]; [destruct (pred x)|]; [by apply list_elem_of_further | done | done].
Qed.

Lemma collect_desc_bound m pred k fuel o :
  (forall j x, m !! j = Some x -> oid x = j) ->
  o ∈ collect_desc m pred k fuel -> oid o <= k.
Proof.
  intros Hm (j & Hj & Hmj & _)%collect_desc_sound. rewrite (Hm j o Hmj). lia.
Qed.

(** The scan from [k] downwards yields strictly decreasing ids. *)
Lemma collect_desc_sorted m pred k fuel :
  (forall j x, m !! j = Some x -> oid x = j) ->
  StronglySorted (fun a b => oid b < oid a) (collect_desc m pred k fuel).
Proof.
  intros Hm. revert k. induction fuel as [|fuel IH]; intros k; simpl; [constructor|].
  destruct (m !! k) as [x|] eqn:E; [destruct (pred x)|]; try apply IH.
  constructor; [apply IH|]. apply Forall_forall. intros y Hy.
  rewrite (Hm k x E). apply (collect_desc_bound m pred (k - 1) fuel y Hm) in Hy. lia.
Qed.

Lemma createOrder_Ok uid data now rand36 db o db' :
  createOrder uid data now rand36 db = Ok (o, db') ->
  exists t fetched,
    fetched = product_find_many (map Pricing.in_productId (c_items data)) db /\
    Pricing.compute_totals fetched (c_items data) (c_shippingCost data) = Ok t /\
    order_create
      {| d_orderNumber := OrderNumber.generateOrderNumber now rand36;
         d_userId := uid; d_storeId := c_storeId data;
         d_addressId := c_addressId data; d_voucherId := c_voucherId data;
         d_subtotal := Pricing.subtotal t; d_shippingCost := c_shippingCost data;
         d_totalAmount := Pricing.totalAmount t;
         d_courier := c_courier data; d_courierService := c_courierService data;
         d_paymentMethod := c_paymentMethod data; d_notes := c_notes data;
         d_items := Pricing.order_items t |} db = Ok (o, db').
Proof.
  unfold createOrder.
  destruct (Pricing.compute_totals _ _ _) as [t|e] eqn:Ht; [|done].
  destruct (order_create _ db) as [[o1 db1]|e] eqn:Hc; [|done].
  intros [= <- <-]. eauto.
Qed.

(** ** Properties *)

(** C14 (invariant). Creating an order keeps the database well formed:
    ids and keys agree and stay below the counter, order numbers stay
    unique, every order's total is its subtotal plus shipping and its
    subtotal the sum of its line totals, and paid payments are recorded
    with a paid order and a payment time. *)
Theorem createOrder_wf uid data now rand36 db o db' :
  db_wf db -> createOrder uid data now rand36 db = Ok (o, db') -> db_wf db'.
Proof.
  intros Hwf (t & fetched & -> & Ht & Hc)%createOrder_Ok.
  apply Pricing.compute_totals_amounts in Ht as [Htot Hsub].
  eapply order_create_wf; [|exact Hwf|exact Hc]. split; simpl; [exact Htot | exact Hsub].
Qed.

Lemma createOrder_wf_witness :
  db_wf (mkDb ∅ 1 ∅ [Pricing.mkProduct 1 "Kaos" 100000 (Some 10) 200 []]) /\
  createOrder 5 (mkCreateOrderInput 2 3 None [Pricing.mkItemInput 1 None 2] "jne" "REG" 15000 "VA" None) (OrderNumber.mkDateParts 2025 0 1) "0.abc123xyz" (mkDb ∅ 1 ∅ [Pricing.mkProduct 1 "Kaos" 100000 (Some 10) 200 []]) = Ok ((mkOrder 1 "INV/20250101/ABC123" 5 2 3 None 180000 15000 195000 "jne" "REG" "VA" None [Pricing.mkOrderItem 1 None "Kaos" None 90000 2 200] OrderStatus.PENDING_PAYMENT PaymentStatus.UNPAID None), (mkDb {[1 := (mkOrder 1 "INV/20250101/ABC123" 5 2 3 None 180000 15000 195000 "jne" "REG" "VA" None [Pricing.mkOrderItem 1 None "Kaos" None 90000 2 200] OrderStatus.PENDING_PAYMENT PaymentStatus.UNPAID None)]} 2 ∅ [Pricing.mkProduct 1 "Kaos" 100000 (Some 10) 200 []])) /\
  db_wf (mkDb {[1 := (mkOrder 1 "INV/20250101/ABC123" 5 2 3 None 180000 15000 195000 "jne" "REG" "VA" None [Pricing.mkOrderItem 1 None "Kaos" None 90000 2 200] OrderStatus.PENDING_PAYMENT PaymentStatus.UNPAID None)]} 2 ∅ [Pricing.mkProduct 1 "Kaos" 100000 (Some 10) 200 []]).
Proof.
  pose proof (empty_db_wf ∅ [Pricing.mkProduct 1 "Kaos" 100000 (Some 10) 200 []]) as H0.
  assert (H : createOrder 5 (mkCreateOrderInput 2 3 None [Pricing.mkItemInput 1 None 2] "jne" "REG" 15000 "VA" None) (OrderNumber.mkDateParts 2025 0 1) "0.abc123xyz" (mkDb ∅ 1 ∅ [Pricing.mkProduct 1 "Kaos" 100000 (Some 10) 200 []]) = Ok ((mkOrder 1 "INV/20250101/ABC123" 5 2 3 None 180000 15000 195000 "jne" "REG" "VA" None [Pricing.mkOrderItem 1 None "Kaos" None 90000 2 200] OrderStatus.PENDING_PAYMENT PaymentStatus.UNPAID None), (mkDb {[1 := (mkOrder 1 "INV/20250101/ABC123" 5 2 3 None 180000 15000 195000 "jne" "REG" "VA" None [Pricing.mkOrderItem 1 None "Kaos" None 90000 2 200] OrderStatus.PENDING_PAYMENT PaymentStatus.UNPAID None)]} 2 ∅ [Pricing.mkProduct 1 "Kaos" 100000 (Some 10) 200 []]))) by (vm_compute; reflexivity).
  split; [exact H0|]. split; [exact H|]. exact (createOrder_wf _ _ _ _ _ _ _ H0 H).
Defined.

(** C15 (functional). A created order is the priced cart: pricing the
    fetched products succeeds with some totals [t], and the order stores
    [t]'s line items, subtotal and total (subtotal plus shipping) with the
    caller's delivery choices; it is stored under the new id, owned by the
    caller, numbered by [generateOrderNumber], unpaid with
    [PENDING_PAYMENT] status and no payment time; every other row is
    unchanged. *)
Theorem createOrder_result uid data now rand36 db o db' :
  createOrder uid data now rand36 db = Ok (o, db') ->
  orders db' !! oid o = Some o /\ oid o = next_order_id db /\
  userId o = uid /\ orderNumber o = OrderNumber.generateOrderNumber now rand36 /\
  status o = OrderStatus.PENDING_PAYMENT /\ paymentStatus o = PaymentStatus.UNPAID /\
  paidAt o = None /\ (forall k, k <> oid o -> orders db' !! k = orders db !! k) /\
  storeId o = c_storeId data /\ addressId o = c_addressId data /\
  paymentMethod o = c_paymentMethod data /\ shippingCost o = c_shippingCost data /\
  exists t,
    Pricing.compute_totals (product_find_many (map Pricing.in_productId (c_items data)) db)
      (c_items data) (c_shippingCost data) = Ok t /\
    items o = Pricing.order_items t /\ subtotal o = Pricing.subtotal t /\
    totalAmount o = Pricing.totalAmount t /\ totalAmount o = subtotal o + c_shippingCost data.
Proof.
  intros (t & fetched & -> & Ht & Hc)%createOrder_Ok.
  pose proof (Pricing.compute_totals_amounts _ _ _ _ Ht) as [Htot _].
  unfold order_create in Hc. destruct (number_taken _ _); [done|].
  injection Hc as <- <-. simpl.
  split; [apply lookup_insert_eq|]. do 6 (split; [done|]).
  split; [intros k Hk; by apply lookup_insert_ne|]. do 4 (split; [done|]).
  exists t. by repeat split.
Qed.

Lemma createOrder_result_witness :
  let db := mkDb ∅ 1 ∅ [Pricing.mkProduct 1 "Kaos" 100000 (Some 10) 200 []] in
  let data := mkCreateOrderInput 2 3 None [Pricing.mkItemInput 1 None 2] "jne" "REG" 15000 "VA" None in
  let o := mkOrder 1 "INV/20250101/ABC123" 5 2 3 None 180000 15000 195000 "jne" "REG" "VA" None
        [Pricing.mkOrderItem 1 None "Kaos" None 90000 2 200]
        OrderStatus.PENDING_PAYMENT PaymentStatus.UNPAID None in
  createOrder 5 data (OrderNumber.mkDateParts 2025 0 1) "0.abc123xyz" db =
    Ok (o, mkDb {[1 := o]} 2 ∅ [Pricing.mkProduct 1 "Kaos" 100000 (Some 10) 200 []]) /\
  exists t,
    Pricing.compute_totals (product_find_many (map Pricing.in_productId (c_items data)) db)
      (c_items data) (c_shippingCost data) = Ok t /\
    items o = Pricing.order_items t /\ subtotal o = Pricing.subtotal t /\
    totalAmount o = Pricing.totalAmount t /\ totalAmount o = subtotal o + c_shippingCost data.
Proof.
  intros db data o.
  assert (H : createOrder 5 data (OrderNumber.mkDateParts 2025 0 1) "0.abc123xyz" db =
    Ok (o, mkDb {[1 := o]} 2 ∅ [Pricing.mkProduct 1 "Kaos" 100000 (Some 10) 200 []]))
    by (vm_compute; reflexivity).
  split; [exact H|].
  destruct (createOrder_result _ _ _ _ _ _ _ H) as (_ & _ & _ & _ & _ & _ & _ & _ & _ & _ & _ & _ & Ht).
  exact Ht.
Defined.

(** C24 (error, finding). There is no retry on an order-number collision:
    when the generated number is already taken, [createOrder] fails (with
    the unique-constraint error, or earlier in pricing) and the database
    is left as it was. *)
Theorem createOrder_collision uid data now rand36 db :
  number_taken db (OrderNumber.generateOrderNumber now rand36) = true ->
  createOrder uid data now rand36 db = Err (DbFailed UniqueViolation) \/
  exists e, createOrder uid data now rand36 db = Err (PricingFailed e).
Proof.
  intros Ht. unfold createOrder, order_create. simpl. rewrite Ht.
  destruct (Pricing.compute_totals _ _ _); eauto.
Qed.

Lemma createOrder_collision_witness :
  number_taken (mkDb {[1 := mkOrder 1 "INV/20250101/ABC123" 5 2 3 None 0 0 0 "" "" "" None []
        OrderStatus.PENDING_PAYMENT PaymentStatus.UNPAID None]} 2 ∅ [])
    (OrderNumber.generateOrderNumber (OrderNumber.mkDateParts 2025 0 1) "0.abc123xyz") = true /\
  (createOrder 5 (mkCreateOrderInput 2 3 None [] "jne" "REG" 0 "VA" None)
    (OrderNumber.mkDateParts 2025 0 1) "0.abc123xyz"
    (mkDb {[1 := mkOrder 1 "INV/20250101/ABC123" 5 2 3 None 0 0 0 "" "" "" None []
        OrderStatus.PENDING_PAYMENT PaymentStatus.UNPAID None]} 2 ∅ []) = Err (DbFailed UniqueViolation) \/
  exists e, createOrder 5 (mkCreateOrderInput 2 3 None [] "jne" "REG" 0 "VA" None)
    (OrderNumber.mkDateParts 2025 0 1) "0.abc123xyz"
    (mkDb {[1 := mkOrder 1 "INV/20250101/ABC123" 5 2 3 None 0 0 0 "" "" "" None []
        OrderStatus.PENDING_PAYMENT PaymentStatus.UNPAID None]} 2 ∅ []) = Err (PricingFailed e)).
Proof.
  assert (H : number_taken (mkDb {[1 := mkOrder 1 "INV/20250101/ABC123" 5 2 3 None 0 0 0 "" "" "" None []
        OrderStatus.PENDING_PAYMENT PaymentStatus.UNPAID None]} 2 ∅ [])
    (OrderNumber.generateOrderNumber (OrderNumber.mkDateParts 2025 0 1) "0.abc123xyz") = true)
    by (vm_compute; reflexivity).
  split; [exact H|]. exact (createOrder_collision _ _ _ _ _ H).
Defined.

(** C26 (safety, functional). On a well-keyed database, [getOrderById]
    returns an order exactly when the row with that id exists and belongs
    to the caller, and then it returns that row: another user's order is
    never returned, and the caller's own order always is. *)
Theorem getOrderById_owner id uid db o :
  keys_ok db ->
  (getOrderById id uid db = Some o <-> orders db !! id = Some o /\ userId o = uid).
Proof.
  intros Hk. unfold getOrderById. rewrite (find_by_id_owner db id uid Hk).
  destruct (orders db !! id) as [x|]; [|naive_solver].
  case_bool_decide; naive_solver.
Qed.

Lemma getOrderById_owner_witness :
  let o := mkOrder 1 "INV/20250101/ABC123" 5 2 3 None 0 0 0 "" "" "" None []
        OrderStatus.PENDING_PAYMENT PaymentStatus.UNPAID None in
  keys_ok (mkDb {[1 := o]} 2 ∅ []) /\
  (getOrderById 1 5 (mkDb {[1 := o]} 2 ∅ []) = Some o <->
   orders (mkDb {[1 := o]} 2 ∅ []) !! 1 = Some o /\ userId o = 5).
Proof.
  intros o. assert (H : keys_ok (mkDb {[1 := o]} 2 ∅ [])).
  { unfold keys_ok. apply map_Forall_singleton. simpl. lia. }
  split; [exact H|]. exact (getOrderById_owner 1 5 _ o H).
Defined.

(** C27 (safety, functional). On a well-keyed database, [getUserOrders]
    lists exactly the caller's orders (with the requested status, when
    one is given): no other user's order and none of the caller's
    missing; and it lists them newest first, by strictly decreasing id
    (the autoincrement id grows with [createdAt], the column the query
    orders by). *)
Theorem getUserOrders_spec uid st db :
  keys_ok db ->
  StronglySorted (fun a b => oid b < oid a) (getUserOrders uid st db) /\
  (forall o, o ∈ getUserOrders uid st db <->
   exists k, orders db !! k = Some o /\ userId o = uid /\
     match st with Some s => status o = s | None => True end).
Proof.
  intros Hk. split.
  { apply collect_desc_sorted. intros j o Hj. apply (Hk j o Hj). }
  intros o. unfold getUserOrders. split.
  - intros (j & _ & Hj & Hp)%collect_desc_sound. exists j. split; [done|].
    unfold user_status_filter in Hp. apply andb_true_iff in Hp as [H1 H2].
    apply bool_decide_eq_true in H1. split; [done|].
    destruct st; [by apply bool_decide_eq_true in H2 | done].
  - intros (k & Hko & Hu & Hs). destruct (Hk k o Hko) as [_ Hr].
    eapply collect_desc_complete; [|exact Hko|]; [rewrite Z2Nat.id; lia|].
    unfold user_status_filter. rewrite bool_decide_eq_true_2 by done.
    destruct st; [by rewrite bool_decide_eq_true_2 | done].
Qed.

Lemma getUserOrders_spec_witness :
  let o1 := mkOrder 1 "INV/20250101/ABC123" 5 2 3 None 0 0 0 "" "" "" None []
        OrderStatus.PENDING_PAYMENT PaymentStatus.UNPAID None in
  let o2 := mkOrder 2 "INV/20250102/DEF456" 5 2 3 None 0 0 0 "" "" "" None []
        OrderStatus.PAID PaymentStatus.PAID (Some 7) in
  keys_ok (mkDb {[1 := o1; 2 := o2]} 3 ∅ []) /\
  getUserOrders 5 None (mkDb {[1 := o1; 2 := o2]} 3 ∅ []) = [o2; o1] /\
  StronglySorted (fun a b => oid b < oid a) (getUserOrders 5 None (mkDb {[1 := o1; 2 := o2]} 3 ∅ [])).
Proof.
  intros o1 o2. assert (H : keys_ok (mkDb {[1 := o1; 2 := o2]} 3 ∅ [])).
  { unfold keys_ok. apply map_Forall_insert_2; [simpl; lia|].
    apply map_Forall_singleton. simpl. lia. }
  split; [exact H|]. split; [vm_compute; reflexivity|].
  exact (proj1 (getUserOrders_spec 5 None _ H)).
Defined.

End Orders.
