(* ===== verification/Cart.v ===== *)
(** * Shopping cart

    [CartService] (src/src/modules/cart/cart.service.ts) behind
    [CartController] (cart.controller.ts): the cart is the [cartItem] table,
    one row per (user, product, variant) line. [addToCart] merges into an
    existing line found with [cartItem.findFirst] and otherwise creates
    one; [updateCartItem] deletes the line when the new quantity is not
    positive; [removeCartItem] and [clearCart] delete; [getCart] groups the
    caller's lines by the store of their product, in the order
    [Object.values] gives integer keys: ascending. The product and variant
    tables are present only through the columns the service reads and the
    foreign keys; [cart_controller] dispatches the controller's routes. *)

From Stdlib Require Import Sorting.Sorted.
From S2P Require Import Prelude.

Open Scope Z_scope.
Open Scope result_scope.

Module Cart.

(** A row of [cartItem]. *)
Record CartItem := mkCartItem {
  ci_id : Z;
  ci_userId : Z;
  ci_productId : Z;
  ci_variantId : option Z;
  ci_quantity : Z;
  ci_notes : option string;
}.

(** The cart table with its id counter, the [storeId] column of the
    product table (product id to store id) and the [productId] column of
    the variant table (variant id to product id), which the foreign key of
    [cartItem.variantId] refers to. *)
Record CartDb := mkCartDb {
  cart : gmap Z CartItem;
  next_cart_id : Z;
  product_store : gmap Z Z;
  variant_product : gmap Z Z;
}.

(** [BadRequestException('Produk tidak ditemukan')]; Prisma's P2025 on an
    update or delete of a missing row; P2003 on a create whose [variantId]
    names no variant; the TypeError of [item.product.storeId] on a line
    whose product is gone. *)
Inductive CartError :=
| ProductNotFound
| CartItemNotFound
| ForeignKeyViolation
| DanglingProduct.

(** The body of [POST /cart] (lines 38-43). *)
Record AddInput := mkAddInput {
  a_productId : Z;
  a_variantId : option Z;
  a_quantity : Z;
  a_notes : option string;
}.

(** ** The Prisma operations on the cart table *)

Definition cart_find_first (pred : CartItem -> bool) (db : CartDb) : option CartItem :=
  scan_ids (cart db) pred 1 (Z.to_nat (next_cart_id db - 1)).

Definition with_cart (m : gmap Z CartItem) (next : Z) (db : CartDb) : CartDb :=
  {| cart := m; next_cart_id := next; product_store := product_store db;
     variant_product := variant_product db |}.

(** [cartItem.update({ where: { id }, data })]. *)
Definition cart_update (id : Z) (f : CartItem -> CartItem) (db : CartDb)
  : result (CartItem * CartDb) CartError :=
  match cart db !! id with
  | Some it => Ok (f it, with_cart (<[id := f it]> (cart db)) (next_cart_id db) db)
  | None => Err CartItemNotFound
  end.

(** [cartItem.delete({ where: { id } })]. *)
Definition cart_delete (id : Z) (db : CartDb) : result (CartItem * CartDb) CartError :=
  match cart db !! id with
  | Some it => Ok (it, with_cart (delete id (cart db)) (next_cart_id db) db)
  | None => Err CartItemNotFound
  end.

(** ** The service *)

(** [variantId: data.variantId || null]: [0] and [undefined] both become
    [null]. *)
Definition variant_filter (v : option Z) : option Z :=
  if js_truthy_Z v then v else None.

(** [where: { userId, productId, variantId }]. *)
Definition same_line (uid pid : Z) (vid : option Z) (it : CartItem) : bool :=
  bool_decide (ci_userId it = uid /\ ci_productId it = pid /\ ci_variantId it = vid).

(** [data: { quantity: existing.quantity + data.quantity, notes: data.notes }]:
    an [undefined] [notes] leaves the column as it is. *)
Definition merge_line (data : AddInput) (ex it : CartItem) : CartItem :=
  {| ci_id := ci_id it; ci_userId := ci_userId it; ci_productId := ci_productId it;
     ci_variantId := ci_variantId it;
     ci_quantity := ci_quantity ex + a_quantity data;
     ci_notes := match a_notes data with Some n => Some n | None => ci_notes it end |}.

(** The foreign key of [cartItem.variantId]: [null] or an existing variant. *)
Definition variant_exists (db : CartDb) (v : option Z) : bool :=
  match v with
  | None => true
  | Some x => bool_decide (is_Some (variant_product db !! x))
  end.

(** [addToCart(userId, data)] (lines 38-84). *)
Definition addToCart (uid : Z) (data : AddInput) (db : CartDb)
  : result (CartItem * CartDb) CartError :=
  match product_store db !! a_productId data with
  | None => Err ProductNotFound
  | Some _ =>
      match cart_find_first
              (same_line uid (a_productId data) (variant_filter (a_variantId data))) db with
      | Some ex => cart_update (ci_id ex) (merge_line data ex) db
      | None =>
          if variant_exists db (a_variantId data) then
            let it := {| ci_id := next_cart_id db; ci_userId := uid;
                         ci_productId := a_productId data; ci_variantId := a_variantId data;
                         ci_quantity := a_quantity data; ci_notes := a_notes data |} in
            Ok (it, with_cart (<[next_cart_id db := it]> (cart db)) (next_cart_id db + 1) db)
          else Err ForeignKeyViolation
      end
  end.

Definition set_quantity (q : Z) (it : CartItem) : CartItem :=
  {| ci_id := ci_id it; ci_userId := ci_userId it; ci_productId := ci_productId it;
     ci_variantId := ci_variantId it; ci_quantity := q; ci_notes := ci_notes it |}.

(** [removeCartItem(id, userId)] (lines 97-101): [userId] is not used. *)
Definition removeCartItem (id uid : Z) (db : CartDb) : result (CartItem * CartDb) CartError :=
  cart_delete id db.

(** [updateCartItem(id, userId, quantity)] (lines 86-95). *)
Definition updateCartItem (id uid q : Z) (db : CartDb) : result (CartItem * CartDb) CartError :=
  if q <=? 0 then removeCartItem id uid db
  else cart_update id (set_quantity q) db.

(** [clearCart(userId)] (lines 103-107): [deleteMany] answers the count. *)
Definition clearCart (uid : Z) (db : CartDb) : Z * CartDb :=
  let mine := filter (fun kv => ci_userId kv.2 = uid) (cart db) in
  (Z.of_nat (size mine),
   with_cart (filter (fun kv => ci_userId kv.2 <> uid) (cart db)) (next_cart_id db) db).

(** [cartItem.findMany({ where: { userId } })]: the rows in id order. *)
Fixpoint collect_asc (m : gmap Z CartItem) (pred : CartItem -> bool) (k : Z) (fuel : nat)
  : list CartItem :=
  match fuel with
  | O => []
  | S fuel' =>
      match m !! k with
      | Some it => if pred it then it :: collect_asc m pred (k + 1) fuel'
                   else collect_asc m pred (k + 1) fuel'
      | None => collect_asc m pred (k + 1) fuel'
      end
  end.

(** [acc[storeId].items.push(item)] on an object whose integer keys
    [Object.values] lists in ascending order: the groups as a list sorted
    by store id. *)
Fixpoint add_to_group (sid : Z) (it : CartItem) (gs : list (Z * list CartItem))
  : list (Z * list CartItem) :=
  match gs with
  | [] => [(sid, [it])]
  | (s, its) :: rest =>
      if sid =? s then (s, its ++ [it]) :: rest
      else if sid <? s then (sid, [it]) :: gs
      else (s, its) :: add_to_group sid it rest
  end.

Fixpoint group_by_store (ps : gmap Z Z) (items : list CartItem)
    (acc : list (Z * list CartItem)) : result (list (Z * list CartItem)) CartError :=
  match items with
  | [] => Ok acc
  | it :: rest =>
      match ps !! ci_productId it with
      | Some sid => group_by_store ps rest (add_to_group sid it acc)
      | None => Err DanglingProduct
      end
  end.

(** [getCart(userId)] (lines 8-36). *)
Definition getCart (uid : Z) (db : CartDb) : result (list (Z * list CartItem)) CartError :=
  group_by_store (product_store db)
    (collect_asc (cart db) (fun it => bool_decide (ci_userId it = uid)) 1
       (Z.to_nat (next_cart_id db - 1))) [].

(** ** The controller *)

(** The routes of [CartController] (cart.controller.ts lines 13-45); the
    caller is [req.user.sub] and the path's [+id] is already a number. *)
Inductive CartRequest :=
| GetCartReq
| AddToCartReq (data : AddInput)
| UpdateCartItemReq (id q : Z)
| RemoveCartItemReq (id : Z)
| ClearCartReq.

Inductive CartReply :=
| CartGroups (gs : list (Z * list CartItem))
| CartRow (it : CartItem)
| CartCount (n : Z).

Definition cart_controller (uid : Z) (req : CartRequest) (db : CartDb)
  : result (CartReply * CartDb) CartError :=
  match req with
  | GetCartReq => gs <- getCart uid db ;; Ok (CartGroups gs, db)
  | AddToCartReq data => r <- addToCart uid data db ;; Ok (CartRow r.1, r.2)
  | UpdateCartItemReq id q => r <- updateCartItem id uid q db ;; Ok (CartRow r.1, r.2)
  | RemoveCartItemReq id => r <- removeCartItem id uid db ;; Ok (CartRow r.1, r.2)
  | ClearCartReq => let r := clearCart uid db in Ok (CartCount r.1, r.2)
  end.

(** ** Well-formedness of the cart table *)

(** The line a row stands for: owner, product and variant. *)
Definition line (it : CartItem) : Z * Z * option Z :=
  (ci_userId it, ci_productId it, ci_variantId it).

(** A stored row: its key is its id below the counter, and its product
    and variant exist (the foreign keys). *)
Definition row_ok (db : CartDb) (k : Z) (it : CartItem) : Prop :=
  ci_id it = k /\ 1 <= k < next_cart_id db /\
  is_Some (product_store db !! ci_productId it) /\ variant_exists db (ci_variantId it) = true.

Definition lines_unique (m : gmap Z CartItem) : Prop :=
  forall k1 k2 i1 i2, m !! k1 = Some i1 -> m !! k2 = Some i2 -> line i1 = line i2 -> k1 = k2.

(** Autoincrement ids start at 1: no variant has id [0]. *)
Definition cart_wf (db : CartDb) : Prop :=
  1 <= next_cart_id db /\ map_Forall (fun v _ => 1 <= v) (variant_product db) /\
  map_Forall (row_ok db) (cart db) /\ lines_unique (cart db).

(** ** Lemmas *)

Lemma variant_filter_id v : v <> Some 0 -> variant_filter v = v.
Proof. destruct v as [n|]; [|done]. unfold variant_filter; simpl. destruct (Z.eqb_spec n 0); naive_solver. Qed.

Lemma same_line_spec uid pid vid it :
  same_line uid pid vid it = true <-> line it = (uid, pid, vid).
Proof. unfold same_line, line. rewrite bool_decide_eq_true. naive_solver. Qed.

Lemma lines_unique_insert_same m k x y :
  lines_unique m -> m !! k = Some y -> line x = line y -> lines_unique (<[k := x]> m).
Proof.
  intros Hu Hk Hl k1 k2 i1 i2 H1 H2 Hl12.
  apply lookup_insert_Some in H1 as [[<- <-]|[Hne1 H1]];
  apply lookup_insert_Some in H2 as [[<- <-]|[Hne2 H2]]; try done.
  - exact (Hu _ _ _ _ Hk H2 (eq_trans (eq_sym Hl) Hl12)).
  - exact (Hu _ _ _ _ H1 Hk (eq_trans Hl12 Hl)).
  - exact (Hu _ _ _ _ H1 H2 Hl12).
Qed.

Lemma lines_unique_insert_new m k x :
  lines_unique m -> m !! k = None -> (forall j y, m !! j = Some y -> line y <> line x) ->
  lines_unique (<[k := x]> m).
Proof.
  intros Hu Hk Hx k1 k2 i1 i2 H1 H2 Hl12.
  apply lookup_insert_Some in H1 as [[<- <-]|[Hne1 H1]];
  apply lookup_insert_Some in H2 as [[<- <-]|[Hne2 H2]]; try done.
  - by destruct (Hx _ _ H2).
  - by destruct (Hx _ _ H1).
  - exact (Hu _ _ _ _ H1 H2 Hl12).
Qed.

Lemma lines_unique_subseteq m m' : m' ⊆ m -> lines_unique m -> lines_unique m'.
Proof.
  intros Hsub Hu k1 k2 i1 i2 H1 H2. apply Hu; by eapply lookup_weaken.
Qed.

Lemma variant_exists_nonzero db v :
  map_Forall (fun v _ => 1 <= v) (variant_product db) -> variant_exists db v = true ->
  v <> Some 0.
Proof.
  intros Hv. destruct v as [x|]; [|done]. simpl. rewrite bool_decide_eq_true.
  intros [y Hy] [= ->]. specialize (Hv 0 y Hy). simpl in Hv. lia.
Qed.

Lemma row_ok_grow db m n k it :
  row_ok db k it -> next_cart_id db <= n -> row_ok (with_cart m n db) k it.
Proof. intros (? & ? & ? & ?) ?. unfold row_ok; simpl. repeat split; try done; lia. Qed.

(** Rewriting a row without changing its id or its line keeps the table
    well formed. *)
Lemma cart_update_wf id f db it db' :
  (forall x, ci_id (f x) = ci_id x /\ line (f x) = line x) ->
  cart_wf db -> cart_update id f db = Ok (it, db') -> cart_wf db'.
Proof.
  intros Hf (Hn & Hv & Hrows & Hu). unfold cart_update.
  destruct (cart db !! id) as [x|] eqn:Hx; [|done]. intros [= <- <-].
  split; [done|]. split; [done|]. split.
  - apply map_Forall_insert_2; [|done].
    destruct (Hrows id x Hx) as (Hid & Hr & Hp & Hvx). destruct (Hf x) as [Hi Hl].
    unfold line in Hl. injection Hl as Hu' Hp' Hv'.
    unfold row_ok; simpl. rewrite Hi, Hp', Hv'. done.
  - eapply lines_unique_insert_same; [done | exact Hx | apply Hf].
Qed.

Lemma cart_delete_wf id db it db' :
  cart_wf db -> cart_delete id db = Ok (it, db') -> cart_wf db'.
Proof.
  intros (Hn & Hv & Hrows & Hu). unfold cart_delete.
  destruct (cart db !! id) as [x|] eqn:Hx; [|done]. intros [= <- <-].
  split; [done|]. split; [done|]. split.
  - intros k y Hy. simpl in Hy. apply lookup_delete_Some in Hy as [_ Hy]. exact (Hrows k y Hy).
  - eapply lines_unique_subseteq; [apply delete_subseteq | done].
Qed.

Lemma clearCart_wf uid db n db' : cart_wf db -> clearCart uid db = (n, db') -> cart_wf db'.
Proof.
  intros (Hn & Hv & Hrows & Hu). unfold clearCart. intros [= _ <-].
  split; [done|]. split; [done|]. split.
  - intros k y Hy. simpl in Hy. apply map_lookup_filter_Some in Hy as [Hy _]. exact (Hrows k y Hy).
  - eapply lines_unique_subseteq; [apply map_filter_subseteq | done].
Qed.


Lemma cart_find_first_None pred db k it :
  cart_wf db -> cart_find_first pred db = None -> cart db !! k = Some it -> pred it = false.
Proof.
  intros (_ & _ & Hrows & _) Hs Hk. destruct (Hrows k it Hk) as (_ & Hr & _).
  apply (scan_ids_None _ _ _ _ Hs k it); [lia | exact Hk].
Qed.

Lemma cart_fresh db : cart_wf db -> cart db !! next_cart_id db = None.
Proof.
  intros (_ & _ & Hrows & _). destruct (cart db !! next_cart_id db) as [x|] eqn:E; [|done].
  destruct (Hrows _ _ E) as (_ & ? & _). lia.
Qed.


Lemma addToCart_wf uid data db it db' :
  cart_wf db -> addToCart uid data db = Ok (it, db') -> cart_wf db'.
Proof.
  intros Hwf. unfold addToCart.
  destruct (product_store db !! a_productId data) as [sid|] eqn:Hp; [|done].
  destruct (cart_find_first _ db) as [ex|] eqn:Hf.
  - apply cart_update_wf; [|done]. intros x. by split.
  - destruct (variant_exists db (a_variantId data)) eqn:Hve; [|done].
    intros [= <- <-]. pose proof (cart_fresh db Hwf) as Hfresh.
    destruct Hwf as (Hn & Hv & Hrows & Hu).
    rewrite variant_filter_id in Hf by (by eapply variant_exists_nonzero).
    split; [simpl; lia|]. split; [done|]. split.
    + apply map_Forall_insert_2.
      * repeat split; simpl; try lia; [by rewrite Hp | done].
      * intros k x Hx. apply row_ok_grow; [exact (Hrows k x Hx) | simpl; lia].
    + apply lines_unique_insert_new; [done | done|].
      intros j y Hy Hl. apply (cart_find_first_None _ _ j y (conj Hn (conj Hv (conj Hrows Hu))) Hf) in Hy.
      apply not_true_iff_false in Hy. apply Hy, same_line_spec. exact Hl.
Qed.

Lemma empty_cart_wf ps : cart_wf (mkCartDb ∅ 1 ps ∅).
Proof.
  split; [simpl; lia|]. split; [apply map_Forall_empty|]. split; [apply map_Forall_empty|].
  intros k1 k2 i1 i2 E. simpl in E. by rewrite lookup_empty in E.
Qed.

#[export] Hint Resolve addToCart_wf cart_delete_wf clearCart_wf : api.

(** [findMany] in id order: exactly the matching rows of the range. *)
Lemma collect_asc_spec m pred k fuel x :
  x ∈ collect_asc m pred k fuel <->
  exists j, k <= j < k + Z.of_nat fuel /\ m !! j = Some x /\ pred x = true.
Proof.
  revert k. induction fuel as [|fuel IH]; intros k; simpl.
  { split; [by intros ?%elem_of_nil | intros (j & ? & _); lia]. }
  destruct (m !! k) as [y|] eqn:E; [destruct (pred y) eqn:Ep|];
    rewrite ?elem_of_cons, IH; split.
  - intros [->|(j & ? & ?)]; [exists k; split; [lia | done]|]. exists j. split; [lia | done].
  - intros (j & ? & Hj & Hp). destruct (decide (j = k)) as [->|]; [left; congruence|].
    right. exists j. split; [lia | done].
  - intros (j & ? & ?). exists j. split; [lia | done].
  - intros (j & ? & Hj & Hp). destruct (decide (j = k)) as [->|]; [congruence|].
    exists j. split; [lia | done].
  - intros (j & ? & ?). exists j. split; [lia | done].
  - intros (j & ? & Hj & Hp). destruct (decide (j = k)) as [->|]; [congruence|].
    exists j. split; [lia | done].
Qed.

(** Item [x] is listed in the group of store [sid]. *)
Definition in_groups (gs : list (Z * list CartItem)) (sid : Z) (x : CartItem) : Prop :=
  exists its, (sid, its) ∈ gs /\ x ∈ its.

Lemma in_groups_nil s x : in_groups [] s x <-> False.
Proof. unfold in_groups. split; [intros (? & ?%elem_of_nil & _); done | done]. Qed.

Lemma in_groups_cons s0 its0 gs s x :
  in_groups ((s0, its0) :: gs) s x <-> (s = s0 /\ x ∈ its0) \/ in_groups gs s x.
Proof. unfold in_groups. setoid_rewrite elem_of_cons. naive_solver. Qed.

Lemma add_to_group_in sid it gs s x :
  in_groups (add_to_group sid it gs) s x <-> (s = sid /\ x = it) \/ in_groups gs s x.
Proof.
  induction gs as [|[s0 its0] rest IH]; simpl.
  { rewrite in_groups_cons, in_groups_nil, list_elem_of_singleton. tauto. }
  destruct (Z.eqb_spec sid s0) as [<-|Hne]; [|destruct (Z.ltb_spec sid s0)];
    rewrite ?in_groups_cons, ?elem_of_app, ?list_elem_of_singleton, ?IH; naive_solver.
Qed.

Lemma add_to_group_head sid it s gs :
  HdRel Z.lt s (map fst gs) -> s < sid -> HdRel Z.lt s (map fst (add_to_group sid it gs)).
Proof.
  intros Hh Hs. destruct gs as [|[s0 its0] rest]; simpl; [by constructor|].
  inversion Hh; subst.
  destruct (sid =? s0); [by constructor|]. destruct (sid <? s0); by constructor.
Qed.

Lemma add_to_group_sorted sid it gs :
  Sorted Z.lt (map fst gs) -> Sorted Z.lt (map fst (add_to_group sid it gs)).
Proof.
  induction gs as [|[s0 its0] rest IH]; simpl; intros Hs; [by repeat constructor|].
  apply Sorted_inv in Hs as [Hr Hh].
  destruct (Z.eqb_spec sid s0) as [<-|Hne]; [by constructor|].
  destruct (Z.ltb_spec sid s0); simpl.
  - constructor; [by constructor | by constructor].
  - constructor; [by apply IH | apply add_to_group_head; [done | lia]].
Qed.

Lemma group_by_store_spec ps items acc gs :
  group_by_store ps items acc = Ok gs -> Sorted Z.lt (map fst acc) ->
  Sorted Z.lt (map fst gs) /\
  (forall s x, in_groups gs s x <->
     in_groups acc s x \/ (x ∈ items /\ ps !! ci_productId x = Some s)).
Proof.
  revert acc. induction items as [|it rest IH]; intros acc; simpl.
  - intros [= <-] Hs. split; [done|]. intros s x. rewrite elem_of_nil. naive_solver.
  - destruct (ps !! ci_productId it) as [sid|] eqn:Hp; [|done]. intros Hg Hs.
    destruct (IH _ Hg (add_to_group_sorted sid it acc Hs)) as [Hs' Hin].
    split; [done|]. intros s x. rewrite Hin, add_to_group_in, elem_of_cons.
    split; [naive_solver|]. intros [?|[[->|?] ?]]; [tauto | left; left; split; congruence | tauto].
Qed.

Lemma group_by_store_total ps items acc :
  Forall (fun x => is_Some (ps !! ci_productId x)) items ->
  exists gs, group_by_store ps items acc = Ok gs.
Proof.
  revert acc. induction items as [|it rest IH]; intros acc Hall; simpl; [eauto|].
  apply Forall_cons in Hall as [[sid Hp] Hall]. rewrite Hp. by apply IH.
Qed.

(** The rows [findMany] lists for a user on a well-formed table: all of the
    user's rows, the scan covering every id below the counter. *)
Lemma collect_user_rows db uid x :
  cart_wf db ->
  x ∈ collect_asc (cart db) (fun it => bool_decide (ci_userId it = uid)) 1
        (Z.to_nat (next_cart_id db - 1)) <->
  (exists k, cart db !! k = Some x) /\ ci_userId x = uid.
Proof.
  intros (Hn & _ & Hrows & _). rewrite collect_asc_spec. split.
  - intros (j & _ & Hj & Hu). apply bool_decide_eq_true in Hu. eauto.
  - intros [[k Hk] Hu]. destruct (Hrows k x Hk) as (_ & Hr & _).
    exists k. split; [lia|]. split; [done | by apply bool_decide_eq_true].
Qed.


(** ** Properties *)

Lemma updateCartItem_wf id uid q db it db' :
  cart_wf db -> updateCartItem id uid q db = Ok (it, db') -> cart_wf db'.
Proof.
  unfold updateCartItem. destruct (q <=? 0); [apply cart_delete_wf|].
  intros Hwf. apply cart_update_wf; [|done]. intros x. by split.
Qed.

#[export] Hint Resolve updateCartItem_wf : api.

(** C30 (invariant). Every request of the cart controller, by any user,
    keeps the cart table well formed: keys are ids below the counter,
    every line's product and variant exist, and no user has two rows for
    the same product and variant. *)
Theorem cart_controller_preserves_wf uid req db r db' :
  cart_wf db -> cart_controller uid req db = Ok (r, db') -> cart_wf db'.
Proof.
  intros Hwf. destruct req as [|data|id q|id|]; simpl.
  - destruct (getCart uid db); [|done]. by intros [= _ <-].
  - destruct (addToCart uid data db) as [[it d]|] eqn:E; [|done]. intros [= _ <-]. eauto with api.
  - destruct (updateCartItem id uid q db) as [[it d]|] eqn:E; [|done]. intros [= _ <-]. eauto with api.
  - destruct (removeCartItem id uid db) as [[it d]|] eqn:E; [|done]. intros [= _ <-].
    exact (cart_delete_wf _ _ _ _ Hwf E).
  - destruct (clearCart uid db) eqn:E. intros [= _ <-]. eauto with api.
Qed.

Lemma cart_controller_preserves_wf_witness :
  cart_wf (mkCartDb ∅ 1 {[7 := 3]} ∅) /\
  cart_controller 5 (AddToCartReq (mkAddInput 7 None 2 None)) (mkCartDb ∅ 1 {[7 := 3]} ∅) =
    Ok (CartRow (mkCartItem 1 5 7 None 2 None),
        mkCartDb {[1 := mkCartItem 1 5 7 None 2 None]} 2 {[7 := 3]} ∅) /\
  cart_wf (mkCartDb {[1 := mkCartItem 1 5 7 None 2 None]} 2 {[7 := 3]} ∅).
Proof.
  pose proof (empty_cart_wf {[7 := 3]}) as H.
  assert (E : cart_controller 5 (AddToCartReq (mkAddInput 7 None 2 None)) (mkCartDb ∅ 1 {[7 := 3]} ∅) =
    Ok (CartRow (mkCartItem 1 5 7 None 2 None),
        mkCartDb {[1 := mkCartItem 1 5 7 None 2 None]} 2 {[7 := 3]} ∅)) by (vm_compute; reflexivity).
  split; [exact H|]. split; [exact E|]. exact (cart_controller_preserves_wf _ _ _ _ _ H E).
Defined.



(** C32 (safety, finding). [updateCartItem] and [removeCartItem] take the
    caller's id but never compare it with the row's owner: any
    authenticated user can change or delete another user's cart line. *)
Theorem cart_item_no_owner_check id uid q db it :
  cart db !! id = Some it -> ci_userId it <> uid -> 0 < q ->
  updateCartItem id uid q db =
    Ok (set_quantity q it, with_cart (<[id := set_quantity q it]> (cart db)) (next_cart_id db) db) /\
  removeCartItem id uid db = Ok (it, with_cart (delete id (cart db)) (next_cart_id db) db).
Proof.
  intros Hk _ Hq. unfold updateCartItem, removeCartItem, cart_update, cart_delete.
  rewrite Hk. destruct (Z.leb_spec q 0); [lia | done].
Qed.

Lemma cart_item_no_owner_check_witness :
  ({[1 := mkCartItem 1 5 7 None 2 None]} : gmap Z CartItem) !! 1 = Some (mkCartItem 1 5 7 None 2 None) /\
  ci_userId (mkCartItem 1 5 7 None 2 None) <> 9 /\ 0 < 10 /\
  updateCartItem 1 9 10 (mkCartDb {[1 := mkCartItem 1 5 7 None 2 None]} 2 {[7 := 3]} ∅) =
    Ok (mkCartItem 1 5 7 None 10 None, mkCartDb {[1 := mkCartItem 1 5 7 None 10 None]} 2 {[7 := 3]} ∅) /\
  removeCartItem 1 9 (mkCartDb {[1 := mkCartItem 1 5 7 None 2 None]} 2 {[7 := 3]} ∅) =
    Ok (mkCartItem 1 5 7 None 2 None, mkCartDb ∅ 2 {[7 := 3]} ∅).
Proof.
  assert (Hk : ({[1 := mkCartItem 1 5 7 None 2 None]} : gmap Z CartItem) !! 1 =
                 Some (mkCartItem 1 5 7 None 2 None)) by apply lookup_singleton_eq.
  assert (Hu : ci_userId (mkCartItem 1 5 7 None 2 None) <> 9) by (simpl; lia).
  destruct (cart_item_no_owner_check 1 9 10 (mkCartDb {[1 := mkCartItem 1 5 7 None 2 None]} 2 {[7 := 3]} ∅)
              _ Hk Hu ltac:(lia)) as [H1 H2].
  do 3 (split; [done || lia|]). rewrite H1, H2. unfold with_cart; simpl.
  by rewrite insert_singleton, delete_singleton.
Defined.

(** C33 (functional). On a well-formed table [getCart] does not fail and
    answers the groups in strictly ascending store id, the group of store
    [s] holding exactly the user's rows whose product belongs to [s]. *)
Theorem getCart_spec uid db :
  cart_wf db ->
  exists gs, getCart uid db = Ok gs /\ Sorted Z.lt (map fst gs) /\
    forall s x, in_groups gs s x <->
      ((exists k, cart db !! k = Some x) /\ ci_userId x = uid /\
       product_store db !! ci_productId x = Some s).
Proof.
  intros Hwf. unfold getCart.
  destruct (group_by_store_total (product_store db)
              (collect_asc (cart db) (fun it => bool_decide (ci_userId it = uid)) 1
                 (Z.to_nat (next_cart_id db - 1))) []) as [gs Hg].
  { apply Forall_forall. intros x [[k Hk] _]%collect_user_rows; [|done].
    destruct Hwf as (_ & _ & Hrows & _). by destruct (Hrows k x Hk) as (_ & _ & ? & _). }
  destruct (group_by_store_spec _ _ _ _ Hg ltac:(constructor)) as [Hs Hin].
  exists gs. split; [done|]. split; [done|]. intros s x.
  rewrite Hin, in_groups_nil, collect_user_rows by done. tauto.
Qed.

Lemma getCart_spec_witness :
  cart_wf (mkCartDb ∅ 1 {[7 := 3]} ∅) /\
  exists gs, getCart 5 (mkCartDb ∅ 1 {[7 := 3]} ∅) = Ok gs /\ Sorted Z.lt (map fst gs) /\
    forall s x, in_groups gs s x <->
      ((exists k, cart (mkCartDb ∅ 1 {[7 := 3]} ∅) !! k = Some x) /\ ci_userId x = 5 /\
       product_store (mkCartDb ∅ 1 {[7 := 3]} ∅) !! ci_productId x = Some s).
Proof.
  pose proof (empty_cart_wf {[7 := 3]}) as H.
  split; [exact H|]. exact (getCart_spec 5 _ H).
Defined.

End Cart.
