(* ===== verification/Notifications.v ===== *)
(** * Notifications

    [NotificationsService] (src/src/modules/notifications/notifications.service.ts)
    behind [NotificationsController] (notifications.controller.ts). The
    [notification] table is a map from the string id Prisma assigns to the
    row; [createdAt] is the clock reading at creation. The controller reads
    [page] and [limit] from the query string with [parseInt], which is
    written out here ([js_parseInt]); a JavaScript number that may be [NaN]
    is [option Z], [None] being [NaN]. *)

From stdpp Require Import sorting.
From Stdlib Require Import Ascii.
From S2P Require Import Prelude OrderNumber.

Open Scope string_scope.
Open Scope Z_scope.
Open Scope result_scope.

Module Notifications.

(** [NotificationType] (lines 4-13). *)
Inductive NotificationType :=
| ORDER_CREATED | ORDER_PAID | ORDER_SHIPPED | ORDER_DELIVERED | ORDER_CANCELLED
| PRODUCT_REVIEW | NEW_MESSAGE | PROMO | SYSTEM.

Record Notification := mkNotification {
  n_id : string;
  n_userId : Z;
  n_type : NotificationType;
  n_title : string;
  n_message : string;
  n_link : option string;
  n_metadata : option string;
  n_isRead : bool;
  n_createdAt : Z;
}.

(** The argument of [create] (lines 19-26); [metadata] is already the
    [JSON.stringify] of the object, [None] when it is falsy. *)
Record NotificationInput := mkNotificationInput {
  in_userId : Z;
  in_type : NotificationType;
  in_title : string;
  in_message : string;
  in_link : option string;
  in_metadata : option string;
}.

Notation NotifDb := (gmap string Notification).

(** Prisma's unique violation on an id that exists, and the validation
    error on a [skip] or [take] that is not a non-negative, resp. an,
    integer ([NaN] or a negative [skip]). *)
Inductive NotifError :=
| DuplicateId
| InvalidPagination.

Record PageMeta := mkPageMeta {
  meta_page : option Z;
  meta_limit : option Z;
  meta_total : Z;
  meta_totalPages : option Z;   (* [None]: [Infinity] or [NaN], serialised as [null] *)
}.

(** ** JavaScript numbers and [parseInt] *)

(** Arithmetic on numbers that may be [NaN]. *)
Definition nan_sub (a : option Z) (b : Z) : option Z := (fun x => x - b) <$> a.
Definition nan_mul (a b : option Z) : option Z :=
  match a, b with Some x, Some y => Some (x * y) | _, _ => None end.

(** [Math.ceil(a / b)]: [None] when [b = 0] ([Infinity] or [NaN]). *)
Definition math_ceil_div (a b : Z) : option Z :=
  if b =? 0 then None else Some (- ((- a) / b)).

Definition js_whitespace (c : ascii) : bool :=
  match nat_of_ascii c with 9 | 10 | 11 | 12 | 13 | 32 => true | _ => false end%nat.

Fixpoint trim_start (s : string) : string :=
  match s with
  | String c r => if js_whitespace c then trim_start r else s
  | EmptyString => s
  end.

(** The value of a digit in [radix] (10 or 16), if it is one. *)
Definition digit_value (radix : Z) (c : ascii) : option Z :=
  let n := Z.of_nat (nat_of_ascii c) in
  let v := if (48 <=? n) && (n <=? 57) then Some (n - 48)
           else if (97 <=? n) && (n <=? 102) then Some (n - 87)
           else if (65 <=? n) && (n <=? 70) then Some (n - 55)
           else None in
  match v with Some d => if d <? radix then Some d else None | None => None end.

(** The longest prefix of digits, read in [radix]: [None] when empty. *)
Fixpoint digits_prefix (radix : Z) (s : string) (acc : option Z) : option Z :=
  match s with
  | String c r =>
      match digit_value radix c with
      | Some d => digits_prefix radix r (Some (default 0 acc * radix + d))
      | None => acc
      end
  | EmptyString => acc
  end.

(** An optional sign. *)
Definition parse_sign (s : string) : Z * string :=
  match s with
  | String c r =>
      if (c =? "-")%char then (-1, r) else if (c =? "+")%char then (1, r) else (1, s)
  | EmptyString => (1, s)
  end.

(** A [0x] or [0X] prefix selects base 16. *)
Definition parse_radix (s : string) : Z * string :=
  match s with
  | String c (String x r) =>
      if (c =? "0")%char && ((x =? "x")%char || (x =? "X")%char) then (16, r) else (10, s)
  | _ => (10, s)
  end.

(** [parseInt(s)] with no radix: leading white space, a sign, a [0x]
    prefix selecting base 16, then the longest prefix of digits. *)
Definition js_parseInt (s : string) : option Z :=
  let '(sign, s) := parse_sign (trim_start s) in
  let '(radix, s) := parse_radix s in
  (fun n => sign * n) <$> digits_prefix radix s None.

(** [q ? parseInt(q) : dflt] on an optional query parameter. *)
Definition query_int (q : option string) (dflt : Z) : option Z :=
  if js_truthy_str q then js_parseInt (default "" q) else Some dflt.

(** ** The Prisma operations *)

(** [findMany({ where, orderBy: { createdAt: 'desc' } })]: the matching
    rows, newest first. *)
Definition newer (a b : Notification) : Prop := n_createdAt b <= n_createdAt a.

#[global] Instance newer_dec : RelDecision newer := fun a b => decide (n_createdAt b <= n_createdAt a).

Definition find_desc (pred : Notification -> bool) (db : NotifDb) : list Notification :=
  merge_sort newer
    (List.filter pred (map snd (map_to_list db))).

(** [skip] and [take]: a [take] below zero takes that many rows from the
    end. *)
Definition prisma_page (skip take : option Z) (l : list Notification)
  : result (list Notification) NotifError :=
  match skip, take with
  | Some s, Some t =>
      if s <? 0 then Err InvalidPagination
      else let rest := drop (Z.to_nat s) l in
           if 0 <=? t then Ok (List.firstn (Z.to_nat t) rest)
           else Ok (drop (List.length rest - Z.to_nat (- t)) rest)
  | _, _ => Err InvalidPagination
  end.

Definition count (pred : Notification -> bool) (db : NotifDb) : Z :=
  Z.of_nat (List.length (List.filter pred (map snd (map_to_list db)))).

Definition update_many (pred : Notification -> bool) (f : Notification -> Notification)
    (db : NotifDb) : Z * NotifDb :=
  (count pred db, (fun n => if pred n then f n else n) <$> db).

Definition set_read (n : Notification) : Notification :=
  {| n_id := n_id n; n_userId := n_userId n; n_type := n_type n; n_title := n_title n;
     n_message := n_message n; n_link := n_link n; n_metadata := n_metadata n;
     n_isRead := true; n_createdAt := n_createdAt n |}.

(** ** The service *)

Definition of_user (uid : Z) (n : Notification) : bool := bool_decide (n_userId n = uid).

Definition unread_of (uid : Z) (n : Notification) : bool := of_user uid n && negb (n_isRead n).

Definition by_id_user (id : string) (uid : Z) (n : Notification) : bool :=
  bool_decide (n_id n = id) && of_user uid n.

(** [create(data)] (lines 19-37); [id] is the id Prisma generates and
    [now] the clock. *)
Definition create (id : string) (now : Z) (data : NotificationInput) (db : NotifDb)
  : result (Notification * NotifDb) NotifError :=
  match db !! id with
  | Some _ => Err DuplicateId
  | None =>
      let n := {| n_id := id; n_userId := in_userId data; n_type := in_type data;
                  n_title := in_title data; n_message := in_message data;
                  n_link := in_link data; n_metadata := in_metadata data;
                  n_isRead := false; n_createdAt := now |} in
      Ok (n, <[id := n]> db)
  end.

(** [getByUser(userId, page, limit)] (lines 39-61). *)
Definition getByUser (uid : Z) (page limit : option Z) (db : NotifDb)
  : result (list Notification * PageMeta) NotifError :=
  let skip := nan_mul (nan_sub page 1) limit in
  data <- prisma_page skip limit (find_desc (of_user uid) db) ;;
  let total := count (of_user uid) db in
  Ok (data, {| meta_page := page; meta_limit := limit; meta_total := total;
               meta_totalPages := limit ≫= math_ceil_div total |}).

(** [getUnreadCount(userId)] (lines 63-67). *)
Definition getUnreadCount (uid : Z) (db : NotifDb) : Z := count (unread_of uid) db.

(** [markAsRead(notificationId, userId)] (lines 69-74). *)
Definition markAsRead (id : string) (uid : Z) (db : NotifDb) : Z * NotifDb :=
  update_many (by_id_user id uid) set_read db.

(** [markAllAsRead(userId)] (lines 76-81). *)
Definition markAllAsRead (uid : Z) (db : NotifDb) : Z * NotifDb :=
  update_many (unread_of uid) set_read db.

(** [delete(notificationId, userId)] (lines 83-87): [deleteMany]. *)
Definition delete_notification (id : string) (uid : Z) (db : NotifDb) : Z * NotifDb :=
  (count (by_id_user id uid) db, filter (fun kv => by_id_user id uid kv.2 = false) db).

(** [notifyOrderCreated(userId, orderId)] (lines 90-98). *)
Definition notifyOrderCreated (id : string) (now uid : Z) (orderId : string) (db : NotifDb) :=
  create id now {| in_userId := uid; in_type := ORDER_CREATED; in_title := "Pesanan Dibuat";
                   in_message := "Pesanan #" ++ orderId ++
                                 " berhasil dibuat. Silakan selesaikan pembayaran.";
                   in_link := Some ("/profile/orders/" ++ orderId); in_metadata := None |} db.

(** [notifyOrderShipped(userId, orderId, trackingNumber)] (lines 100-108). *)
Definition notifyOrderShipped (id : string) (now uid : Z) (orderId trackingNumber : string)
    (db : NotifDb) :=
  create id now {| in_userId := uid; in_type := ORDER_SHIPPED; in_title := "Pesanan Dikirim";
                   in_message := "Pesanan #" ++ orderId ++ " sedang dalam pengiriman. Resi: "
                                 ++ trackingNumber;
                   in_link := Some ("/profile/orders/" ++ orderId ++ "/tracking");
                   in_metadata := None |} db.

(** [notifyNewMessage(userId, senderName, conversationId)] (lines 110-118). *)
Definition notifyNewMessage (id : string) (now uid : Z) (senderName conversationId : string)
    (db : NotifDb) :=
  create id now {| in_userId := uid; in_type := NEW_MESSAGE; in_title := "Pesan Baru";
                   in_message := senderName ++ ": mengirim pesan baru";
                   in_link := Some ("/chat?conversation=" ++ conversationId);
                   in_metadata := None |} db.

(** ** The controller *)

(** [GET /notifications?page&limit] (controller lines 10-21). *)
Definition getNotifications (uid : Z) (page limit : option string) (db : NotifDb) :=
  getByUser uid (query_int page 1) (query_int limit 20) db.

(** The routes of [NotificationsController] (lines 10-45); the caller is
    [req.user.sub]. *)
Inductive NotifRequest :=
| ListReq (page limit : option string)
| UnreadCountReq
| MarkReadReq (id : string)
| MarkAllReadReq
| DeleteReq (id : string).

Inductive NotifReply :=
| Page (data : list Notification) (meta : PageMeta)
| Count (n : Z)
| Success.

(** [markAsRead], [markAllAsRead] and [delete] answer [{ success: true }]
    whatever the number of rows they touched. *)
Definition notifications_controller (uid : Z) (req : NotifRequest) (db : NotifDb)
  : result (NotifReply * NotifDb) NotifError :=
  match req with
  | ListReq page limit => r <- getNotifications uid page limit db ;; Ok (Page r.1 r.2, db)
  | UnreadCountReq => Ok (Count (getUnreadCount uid db), db)
  | MarkReadReq id => Ok (Success, (markAsRead id uid db).2)
  | MarkAllReadReq => Ok (Success, (markAllAsRead uid db).2)
  | DeleteReq id => Ok (Success, (delete_notification id uid db).2)
  end.

(** ** Lemmas on [parseInt] and [String] *)







(** [Math.ceil(a / b)] for a positive [b] is the least [c] with [a <= c * b]. *)
Lemma math_ceil_div_spec a b :
  0 < b -> exists c, math_ceil_div a b = Some c /\ (c - 1) * b < a <= c * b.
Proof.
  intros Hb. unfold math_ceil_div. destruct (Z.eqb_spec b 0); [lia|].
  eexists. split; [reflexivity|].
  pose proof (Z.div_mod (- a) b ltac:(lia)). pose proof (Z.mod_pos_bound (- a) b Hb). nia.
Qed.

Lemma snd_fmap_rows (f : Notification -> Notification) (l : list (string * Notification)) :
  map snd (prod_map id f <$> l) = map f (map snd l).
Proof. induction l as [|[k x] l IH]; [done|]. cbn. f_equal. exact IH. Qed.

Lemma update_many_rows pred f db :
  map snd (map_to_list (update_many pred f db).2) =
  map (fun n => if pred n then f n else n) (map snd (map_to_list db)).
Proof. unfold update_many. cbn [snd]. rewrite map_to_list_fmap. apply snd_fmap_rows. Qed.

Lemma filter_map_none {A} (p : A -> bool) (f : A -> A) l :
  (forall x, p (f x) = false) -> List.filter p (map f l) = [].
Proof. intros Hp. induction l as [|x l IH]; simpl; [done|]. by rewrite Hp. Qed.

(** The page [prisma_page] answers for a non-negative [skip] and [take]. *)
Lemma prisma_page_nonneg s t l :
  0 <= s -> 0 <= t -> prisma_page (Some s) (Some t) l = Ok (take (Z.to_nat t) (drop (Z.to_nat s) l)).
Proof.
  intros Hs Ht. unfold prisma_page. destruct (Z.ltb_spec s 0); [lia|].
  by destruct (Z.leb_spec 0 t); [|lia].
Qed.

Lemma find_desc_user uid db : Forall (fun n => n_userId n = uid) (find_desc (of_user uid) db).
Proof.
  unfold find_desc. rewrite (merge_sort_Permutation newer).
  apply Forall_forall. intros x Hx%list_elem_of_In%filter_In. destruct Hx as [_ Hx].
  by apply bool_decide_eq_true in Hx.
Qed.

(** ** Properties *)





(** C35 (bounds, error). With a positive [limit], a page [page >= 1] of
    [getByUser] holds at most [limit] notifications, all of the caller's,
    the total is the number of the caller's notifications and
    [totalPages] is the least [c] with [total <= c * limit]; a page
    [page <= 0] gives a negative [skip], which Prisma rejects: the
    request fails instead of answering the first page. *)
Theorem getByUser_page_bounds uid page limit db :
  1 <= limit ->
  (1 <= page ->
   exists data meta, getByUser uid (Some page) (Some limit) db = Ok (data, meta) /\
     Z.of_nat (List.length data) <= limit /\ Forall (fun n => n_userId n = uid) data /\
     meta_total meta = count (of_user uid) db /\
     exists tp, meta_totalPages meta = Some tp /\
       (tp - 1) * limit < meta_total meta <= tp * limit) /\
  (page <= 0 -> getByUser uid (Some page) (Some limit) db = Err InvalidPagination).
Proof.
  intros Hl. split.
  - intros Hp. unfold getByUser. cbn [nan_mul nan_sub fmap option_fmap option_map].
    rewrite prisma_page_nonneg by nia.
    destruct (math_ceil_div_spec (count (of_user uid) db) limit ltac:(lia)) as (c & Hc & Hb).
    eexists _, _. split; [reflexivity|]. split; [|split; [|split; [done|]]].
    + rewrite length_take. lia.
    + apply Forall_take, Forall_drop, find_desc_user.
    + exists c. simpl. by rewrite Hc.
  - intros Hp. unfold getByUser, prisma_page. cbn [nan_mul nan_sub fmap option_fmap option_map].
    destruct (Z.ltb_spec ((page - 1) * limit) 0); [done | nia].
Qed.

Lemma getByUser_page_bounds_witness :
  1 <= 20 /\
  ((1 <= 1 ->
    exists data meta, getByUser 5 (Some 1) (Some 20) ∅ = Ok (data, meta) /\
      Z.of_nat (List.length data) <= 20 /\ Forall (fun n => n_userId n = 5) data /\
      meta_total meta = count (of_user 5) ∅ /\
      exists tp, meta_totalPages meta = Some tp /\
        (tp - 1) * 20 < meta_total meta <= tp * 20) /\
   (1 <= 0 -> getByUser 5 (Some 1) (Some 20) ∅ = Err InvalidPagination)).
Proof. split; [lia|]. apply getByUser_page_bounds. lia. Defined.

(** C36 (functional). [markAllAsRead] leaves the caller with no unread
    notification, answers how many it marked, and changes no other user's
    notification and no row's presence. *)
Theorem markAllAsRead_spec uid db n db' :
  markAllAsRead uid db = (n, db') ->
  getUnreadCount uid db' = 0 /\ n = getUnreadCount uid db /\
  (forall k x, db !! k = Some x -> n_userId x <> uid -> db' !! k = Some x) /\
  (forall k, is_Some (db !! k) <-> is_Some (db' !! k)).
Proof.
  unfold markAllAsRead. intros Hm. pose proof (update_many_rows (unread_of uid) set_read db) as Hr.
  rewrite Hm in Hr. cbn [snd] in Hr. injection Hm as Hn Hdb. split; [|split; [done|split]].
  - unfold getUnreadCount, count. rewrite Hr, filter_map_none; [done|].
    intros x. unfold unread_of. destruct (of_user uid x && negb (n_isRead x)) eqn:E; simpl.
    + by rewrite andb_false_r.
    + exact E.
  - intros k x Hk Hu. rewrite <- Hdb, lookup_fmap, Hk. simpl. unfold unread_of, of_user.
    by rewrite bool_decide_eq_false_2.
  - intros k. rewrite <- Hdb, lookup_fmap. by destruct (db !! k).
Qed.

Lemma markAllAsRead_spec_witness :
  markAllAsRead 5 ∅ = (0, ∅) /\
  getUnreadCount 5 ∅ = 0 /\ 0 = getUnreadCount 5 ∅ /\
  (forall k x, (∅ : NotifDb) !! k = Some x -> n_userId x <> 5 -> (∅ : NotifDb) !! k = Some x) /\
  (forall k, is_Some ((∅ : NotifDb) !! k) <-> is_Some ((∅ : NotifDb) !! k)).
Proof.
  assert (H : markAllAsRead 5 ∅ = (0, ∅)) by (vm_compute; reflexivity).
  split; [exact H|]. exact (markAllAsRead_spec _ _ _ _ H).
Defined.

End Notifications.
