(* ===== verification/Wishlist.v ===== *)
(** * Wishlist

    [WishlistService] (src/src/modules/wishlist/wishlist.service.ts) behind
    [WishlistController] (wishlist.controller.ts). The [wishlist] table has
    the unique key [userId_productId]; it is a map from that pair to the
    row. [addToWishlist] is an [upsert] with an empty update, so adding
    twice is adding once; [removeFromWishlist] is a [delete] on the key,
    which fails when the row is absent. The theorems show that, seen
    through [isInWishlist], the table is a set of pairs and the two
    operations are set insertion and removal. *)

From stdpp Require Import sorting.
From S2P Require Import Prelude.

Open Scope Z_scope.
Open Scope result_scope.

Module Wishlist.

Record WishRow := mkWishRow {
  w_userId : Z;
  w_productId : Z;
  w_createdAt : Z;
}.

(** The wishlist table by its unique key, and the ids of the product
    table, which the foreign key of [productId] refers to. *)
Record WishDb := mkWishDb {
  wishes : gmap (Z * Z) WishRow;
  products : gset Z;
}.

(** Prisma's P2003 on a create whose product does not exist, and P2025 on
    a delete of a missing row. *)
Inductive WishError :=
| ForeignKeyViolation
| RecordNotFound.

(** [addToWishlist(userId, productId)] (lines 23-31); [now] is the clock. *)
Definition addToWishlist (uid pid now : Z) (db : WishDb) : result (WishRow * WishDb) WishError :=
  match wishes db !! (uid, pid) with
  | Some r => Ok (r, db)
  | None =>
      if bool_decide (pid ∈ products db) then
        let r := mkWishRow uid pid now in
        Ok (r, {| wishes := <[(uid, pid) := r]> (wishes db); products := products db |})
      else Err ForeignKeyViolation
  end.

(** [removeFromWishlist(userId, productId)] (lines 33-39). *)
Definition removeFromWishlist (uid pid : Z) (db : WishDb) : result (WishRow * WishDb) WishError :=
  match wishes db !! (uid, pid) with
  | Some r => Ok (r, {| wishes := delete (uid, pid) (wishes db); products := products db |})
  | None => Err RecordNotFound
  end.

(** [isInWishlist(userId, productId)] (lines 41-48): [!!item]. *)
Definition isInWishlist (uid pid : Z) (db : WishDb) : bool :=
  bool_decide (is_Some (wishes db !! (uid, pid))).

Definition newer (a b : WishRow) : Prop := w_createdAt b <= w_createdAt a.

#[global] Instance newer_dec : RelDecision newer :=
  fun a b => decide (w_createdAt b <= w_createdAt a).

(** [getWishlist(userId)] (lines 8-21): the user's rows, newest first. *)
Definition getWishlist (uid : Z) (db : WishDb) : list WishRow :=
  merge_sort newer
    (List.filter (fun r => bool_decide (w_userId r = uid)) (map snd (map_to_list (wishes db)))).

(** The routes of [WishlistController] (lines 13-36); the caller is
    [req.user.sub] and [+productId] is already a number. *)
Inductive WishRequest :=
| GetWishlistReq
| AddReq (pid : Z)
| RemoveReq (pid : Z)
| CheckReq (pid : Z).

Inductive WishReply :=
| WishRows (rs : list WishRow)
| WishRowReply (r : WishRow)
| InWishlist (b : bool).

Definition wishlist_controller (uid now : Z) (req : WishRequest) (db : WishDb)
  : result (WishReply * WishDb) WishError :=
  match req with
  | GetWishlistReq => Ok (WishRows (getWishlist uid db), db)
  | AddReq pid => r <- addToWishlist uid pid now db ;; Ok (WishRowReply r.1, r.2)
  | RemoveReq pid => r <- removeFromWishlist uid pid db ;; Ok (WishRowReply r.1, r.2)
  | CheckReq pid => Ok (InWishlist (isInWishlist uid pid db), db)
  end.

(** ** Well-formedness: rows sit under their own key and name a product. *)

Definition wish_wf (db : WishDb) : Prop :=
  map_Forall (fun k r => k = (w_userId r, w_productId r) /\ w_productId r ∈ products db)
    (wishes db).

(** ** Properties *)

(** C37 (refinement). Seen through [isInWishlist], the wishlist is a set
    of (user, product) pairs: a successful [addToWishlist] is insertion of
    the pair, a successful [removeFromWishlist] its removal, both keep the
    table well formed, and adding a pair that is present changes nothing
    (the [upsert]'s empty update). *)
Theorem wishlist_refines_set uid pid now db :
  wish_wf db ->
  (forall r db', addToWishlist uid pid now db = Ok (r, db') ->
     wish_wf db' /\
     (forall u p, isInWishlist u p db' = isInWishlist u p db || bool_decide ((u, p) = (uid, pid)))) /\
  (forall r db', removeFromWishlist uid pid db = Ok (r, db') ->
     wish_wf db' /\
     (forall u p, isInWishlist u p db' = isInWishlist u p db && negb (bool_decide ((u, p) = (uid, pid))))) /\
  (isInWishlist uid pid db = true -> forall now', addToWishlist uid pid now' db = Ok (default (mkWishRow uid pid now') (wishes db !! (uid, pid)), db)).
Proof.
  intros Hwf. unfold addToWishlist, removeFromWishlist, isInWishlist.
  split; [|split].
  - intros r db'. destruct (wishes db !! (uid, pid)) as [x|] eqn:Hx.
    + intros [= <- <-]. split; [done|]. intros u p.
      destruct (decide ((u, p) = (uid, pid))) as [He|He];
        [rewrite (bool_decide_eq_true_2 _ He) | rewrite (bool_decide_eq_false_2 _ He)];
        [injection He as -> ->; rewrite orb_true_r; apply bool_decide_eq_true; by rewrite Hx
        | by rewrite orb_false_r].
    + case_bool_decide as Hp; [|done]. intros [= <- <-]. split.
      * apply map_Forall_insert_2; [done|]. intros k y Hy. exact (Hwf k y Hy).
      * intros u p. simpl. destruct (decide ((u, p) = (uid, pid))) as [He|He].
        -- rewrite (bool_decide_eq_true_2 _ He). injection He as -> ->.
           rewrite lookup_insert_eq, orb_true_r. by apply bool_decide_eq_true.
        -- rewrite (bool_decide_eq_false_2 _ He), lookup_insert_ne by congruence.
           by rewrite orb_false_r.
  - intros r db'. destruct (wishes db !! (uid, pid)) as [x|] eqn:Hx; [|done].
    intros [= <- <-]. split.
    + intros k y Hy. simpl in Hy. apply lookup_delete_Some in Hy as [_ Hy]. exact (Hwf k y Hy).
    + intros u p. simpl. destruct (decide ((u, p) = (uid, pid))) as [He|He].
      * rewrite (bool_decide_eq_true_2 _ He). injection He as -> ->.
        rewrite lookup_delete_eq, andb_false_r. by apply bool_decide_eq_false.
      * rewrite (bool_decide_eq_false_2 _ He), lookup_delete_ne by congruence.
        by rewrite andb_true_r.
  - intros Hin now'. apply bool_decide_eq_true in Hin. destruct Hin as [x Hx]. by rewrite Hx.
Qed.

Lemma wishlist_refines_set_witness :
  wish_wf (mkWishDb ∅ {[7]}) /\
  ((forall r db', addToWishlist 5 7 100 (mkWishDb ∅ {[7]}) = Ok (r, db') ->
     wish_wf db' /\
     (forall u p, isInWishlist u p db' = isInWishlist u p (mkWishDb ∅ {[7]}) || bool_decide ((u, p) = (5, 7)))) /\
   (forall r db', removeFromWishlist 5 7 (mkWishDb ∅ {[7]}) = Ok (r, db') ->
     wish_wf db' /\
     (forall u p, isInWishlist u p db' = isInWishlist u p (mkWishDb ∅ {[7]}) && negb (bool_decide ((u, p) = (5, 7))))) /\
   (isInWishlist 5 7 (mkWishDb ∅ {[7]}) = true -> forall now', addToWishlist 5 7 now' (mkWishDb ∅ {[7]}) =
      Ok (default (mkWishRow 5 7 now') (wishes (mkWishDb ∅ {[7]}) !! (5, 7)), mkWishDb ∅ {[7]}))).
Proof.
  assert (H : wish_wf (mkWishDb ∅ {[7]})) by apply map_Forall_empty.
  split; [exact H|]. exact (wishlist_refines_set 5 7 100 _ H).
Defined.

End Wishlist.
