(* ===== verification/Users.v ===== *)
(** * Users and addresses

    [UsersService] (src/src/modules/users/users.service.ts): the [user]
    table with its unique [email] and [username], and the [userAddress]
    table. [createAddress] and [updateAddress] first clear the caller's
    default address with an [updateMany] when the new data sets
    [isDefault], then write the row; the two writes are separate requests
    to the database, so a failing second write leaves the first done:
    [updateAddress] answers the database after the first write together
    with the outcome of the second. *)

From S2P Require Import Prelude.

Open Scope string_scope.
Open Scope Z_scope.
Open Scope result_scope.

Module Users.

(** ** The user table *)

Record UserRow := mkUserRow {
  u_id : Z;
  u_email : string;
  u_password : string;
  u_fullName : string;
  u_username : option string;
  u_phone : option string;
  u_avatar : option string;
  u_province : option string;
  u_city : option string;
  u_district : option string;
}.

(** [RegisterDto & { password }] as [create] reads it (lines 9-19). *)
Record NewUser := mkNewUser {
  nu_email : string;
  nu_password : string;
  nu_fullName : string;
  nu_username : option string;
  nu_phone : option string;
}.

(** [Partial<{ fullName, username, phone, avatar, province, city,
    district }>] (lines 43-51): an absent field leaves the column. *)
Record ProfilePatch := mkProfilePatch {
  pp_fullName : option string;
  pp_username : option string;
  pp_phone : option string;
  pp_avatar : option string;
  pp_province : option string;
  pp_city : option string;
  pp_district : option string;
}.

(** ** The address table *)

Record Address := mkAddress {
  ad_id : Z;
  ad_userId : Z;
  ad_label : string;
  ad_recipientName : string;
  ad_phone : string;
  ad_province : string;
  ad_city : string;
  ad_district : string;
  ad_provinceId : string;
  ad_cityId : string;
  ad_districtId : string;
  ad_fullAddress : string;
  ad_postalCode : option string;
  ad_isDefault : bool;
}.

(** The body of [createAddress] (lines 73-86). *)
Record NewAddress := mkNewAddress {
  na_label : string;
  na_recipientName : string;
  na_phone : string;
  na_province : string;
  na_city : string;
  na_district : string;
  na_provinceId : string;
  na_cityId : string;
  na_districtId : string;
  na_fullAddress : string;
  na_postalCode : option string;
  na_isDefault : option bool;
}.

(** The body of [updateAddress] (lines 103-113): every field optional. *)
Record AddressPatch := mkAddressPatch {
  ap_label : option string;
  ap_recipientName : option string;
  ap_phone : option string;
  ap_province : option string;
  ap_city : option string;
  ap_district : option string;
  ap_fullAddress : option string;
  ap_postalCode : option string;
  ap_isDefault : option bool;
}.

Record UserDb := mkUserDb {
  users : gmap Z UserRow;
  next_user_id : Z;
  addrs : gmap Z Address;
  next_addr_id : Z;
}.

(** Prisma's P2002 on a taken [email] or [username], and P2025 on an
    update or delete of a missing row. *)
Inductive UserError :=
| UniqueViolation
| RecordNotFound.

(** ** The service *)

Definition set_opt {A} (v : option A) (old : A) : A :=
  match v with Some x => x | None => old end.

Definition email_taken (db : UserDb) (e : string) : bool :=
  bool_decide (map_Exists (fun _ u => u_email u = e) (users db)).

Definition username_taken (db : UserDb) (n : option string) : bool :=
  match n with
  | Some x => bool_decide (map_Exists (fun _ u => u_username u = Some x) (users db))
  | None => false
  end.

(** [create(data)] (lines 9-19). *)
Definition create (data : NewUser) (db : UserDb) : result (UserRow * UserDb) UserError :=
  if email_taken db (nu_email data) || username_taken db (nu_username data) then
    Err UniqueViolation
  else
    let u := {| u_id := next_user_id db; u_email := nu_email data;
                u_password := nu_password data; u_fullName := nu_fullName data;
                u_username := nu_username data; u_phone := nu_phone data;
                u_avatar := None; u_province := None; u_city := None; u_district := None |} in
    Ok (u, {| users := <[next_user_id db := u]> (users db); next_user_id := next_user_id db + 1;
              addrs := addrs db; next_addr_id := next_addr_id db |}).

(** [findById(id)] (lines 21-29), with the included addresses. *)
Definition findById (id : Z) (db : UserDb) : option (UserRow * list Address) :=
  (fun u => (u, List.filter (fun a => bool_decide (ad_userId a = id))
                  (map snd (map_to_list (addrs db))))) <$> users db !! id.

(** [findByEmail(email)] and [findByUsername(username)] (lines 31-41):
    [findUnique] on a unique column. *)
Definition findByEmail (e : string) (db : UserDb) : option UserRow :=
  snd <$> List.find (fun kv => bool_decide (u_email kv.2 = e)) (map_to_list (users db)).

Definition findByUsername (n : string) (db : UserDb) : option UserRow :=
  snd <$> List.find (fun kv => bool_decide (u_username kv.2 = Some n)) (map_to_list (users db)).

Definition apply_profile (p : ProfilePatch) (u : UserRow) : UserRow :=
  {| u_id := u_id u; u_email := u_email u; u_password := u_password u;
     u_fullName := set_opt (pp_fullName p) (u_fullName u);
     u_username := match pp_username p with Some x => Some x | None => u_username u end;
     u_phone := match pp_phone p with Some x => Some x | None => u_phone u end;
     u_avatar := match pp_avatar p with Some x => Some x | None => u_avatar u end;
     u_province := match pp_province p with Some x => Some x | None => u_province u end;
     u_city := match pp_city p with Some x => Some x | None => u_city u end;
     u_district := match pp_district p with Some x => Some x | None => u_district u end |}.

Definition user_update (id : Z) (f : UserRow -> UserRow) (db : UserDb)
  : result (UserRow * UserDb) UserError :=
  match users db !! id with
  | Some u => Ok (f u, {| users := <[id := f u]> (users db); next_user_id := next_user_id db;
                         addrs := addrs db; next_addr_id := next_addr_id db |})
  | None => Err RecordNotFound
  end.

(** [updateProfile(id, data)] (lines 43-56): a new [username] must still
    be free. *)
Definition updateProfile (id : Z) (p : ProfilePatch) (db : UserDb)
  : result (UserRow * UserDb) UserError :=
  if bool_decide (map_Exists (fun k u => k <> id /\ u_username u = pp_username p /\
                                         is_Some (pp_username p)) (users db))
  then Err UniqueViolation
  else user_update id (apply_profile p) db.

(** [updatePassword(id, hashedPassword)] (lines 58-63). *)
Definition updatePassword (id : Z) (h : string) (db : UserDb) : result (UserRow * UserDb) UserError :=
  user_update id (fun u => {| u_id := u_id u; u_email := u_email u; u_password := h;
                              u_fullName := u_fullName u; u_username := u_username u;
                              u_phone := u_phone u; u_avatar := u_avatar u;
                              u_province := u_province u; u_city := u_city u;
                              u_district := u_district u |}) db.

(** [getAddresses(userId)] (lines 66-71): the user's addresses, the
    default one first. *)
Definition getAddresses (uid : Z) (db : UserDb) : list Address :=
  let mine := List.filter (fun a => bool_decide (ad_userId a = uid)) (map snd (map_to_list (addrs db))) in
  List.filter ad_isDefault mine ++ List.filter (fun a => negb (ad_isDefault a)) mine.

Definition with_addrs (m : gmap Z Address) (next : Z) (db : UserDb) : UserDb :=
  {| users := users db; next_user_id := next_user_id db; addrs := m; next_addr_id := next |}.

Definition set_default (b : bool) (a : Address) : Address :=
  {| ad_id := ad_id a; ad_userId := ad_userId a; ad_label := ad_label a;
     ad_recipientName := ad_recipientName a; ad_phone := ad_phone a;
     ad_province := ad_province a; ad_city := ad_city a; ad_district := ad_district a;
     ad_provinceId := ad_provinceId a; ad_cityId := ad_cityId a;
     ad_districtId := ad_districtId a; ad_fullAddress := ad_fullAddress a;
     ad_postalCode := ad_postalCode a; ad_isDefault := b |}.

(** [userAddress.updateMany({ where: { userId, isDefault: true },
    data: { isDefault: false } })] (lines 89-92 and 116-119). *)
Definition unset_defaults (uid : Z) (db : UserDb) : UserDb :=
  with_addrs ((fun a => if bool_decide (ad_userId a = uid) && ad_isDefault a
                        then set_default false a else a) <$> addrs db) (next_addr_id db) db.

(** [createAddress(userId, data)] (lines 73-101); an absent [isDefault]
    takes the column's default [false]. *)
Definition createAddress (uid : Z) (data : NewAddress) (db : UserDb) : Address * UserDb :=
  let db1 := if default false (na_isDefault data) then unset_defaults uid db else db in
  let a := {| ad_id := next_addr_id db1; ad_userId := uid; ad_label := na_label data;
              ad_recipientName := na_recipientName data; ad_phone := na_phone data;
              ad_province := na_province data; ad_city := na_city data;
              ad_district := na_district data; ad_provinceId := na_provinceId data;
              ad_cityId := na_cityId data; ad_districtId := na_districtId data;
              ad_fullAddress := na_fullAddress data; ad_postalCode := na_postalCode data;
              ad_isDefault := default false (na_isDefault data) |} in
  (a, with_addrs (<[next_addr_id db1 := a]> (addrs db1)) (next_addr_id db1 + 1) db1).

Definition apply_address (p : AddressPatch) (a : Address) : Address :=
  {| ad_id := ad_id a; ad_userId := ad_userId a;
     ad_label := set_opt (ap_label p) (ad_label a);
     ad_recipientName := set_opt (ap_recipientName p) (ad_recipientName a);
     ad_phone := set_opt (ap_phone p) (ad_phone a);
     ad_province := set_opt (ap_province p) (ad_province a);
     ad_city := set_opt (ap_city p) (ad_city a);
     ad_district := set_opt (ap_district p) (ad_district a);
     ad_provinceId := ad_provinceId a; ad_cityId := ad_cityId a;
     ad_districtId := ad_districtId a;
     ad_fullAddress := set_opt (ap_fullAddress p) (ad_fullAddress a);
     ad_postalCode := match ap_postalCode p with Some x => Some x | None => ad_postalCode a end;
     ad_isDefault := set_opt (ap_isDefault p) (ad_isDefault a) |}.

(** [updateAddress(id, userId, data)] (lines 103-126): the row is found by
    [id] alone. *)
Definition updateAddress (id uid : Z) (p : AddressPatch) (db : UserDb)
  : UserDb * result Address UserError :=
  let db1 := if default false (ap_isDefault p) then unset_defaults uid db else db in
  match addrs db1 !! id with
  | Some a => (with_addrs (<[id := apply_address p a]> (addrs db1)) (next_addr_id db1) db1,
               Ok (apply_address p a))
  | None => (db1, Err RecordNotFound)
  end.

(** [deleteAddress(id)] (lines 128-132). *)
Definition deleteAddress (id : Z) (db : UserDb) : result (Address * UserDb) UserError :=
  match addrs db !! id with
  | Some a => Ok (a, with_addrs (delete id (addrs db)) (next_addr_id db) db)
  | None => Err RecordNotFound
  end.

(** ** The controller *)

(** [const { password, ...result } = user]: the profile without the
    password column. *)
Record ProfileView := mkProfileView {
  pv_id : Z; pv_email : string; pv_fullName : string; pv_username : option string;
  pv_phone : option string; pv_avatar : option string; pv_province : option string;
  pv_city : option string; pv_district : option string; pv_addresses : list Address;
}.

Definition profile_view (ua : UserRow * list Address) : ProfileView :=
  let u := ua.1 in
  {| pv_id := u_id u; pv_email := u_email u; pv_fullName := u_fullName u;
     pv_username := u_username u; pv_phone := u_phone u; pv_avatar := u_avatar u;
     pv_province := u_province u; pv_city := u_city u; pv_district := u_district u;
     pv_addresses := ua.2 |}.

(** The routes of [UsersController] (users.controller.ts lines 13-57); the
    caller is [req.user.sub]. *)
Inductive UsersRequest :=
| GetProfileReq
| UpdateProfileReq (p : ProfilePatch)
| GetAddressesReq
| CreateAddressReq (data : NewAddress)
| UpdateAddressReq (id : Z) (p : AddressPatch)
| DeleteAddressReq (id : Z).

Inductive UsersReply :=
| ProfileReply (v : option ProfileView)
| UserReply (u : UserRow)
| AddressesReply (l : list Address)
| AddressReply (a : Address).

(** [DELETE me/addresses/:id] passes no user id at all. *)
Definition users_controller (uid : Z) (req : UsersRequest) (db : UserDb)
  : UserDb * result UsersReply UserError :=
  match req with
  | GetProfileReq => (db, Ok (ProfileReply (profile_view <$> findById uid db)))
  | UpdateProfileReq p =>
      match updateProfile uid p db with
      | Ok (u, db') => (db', Ok (UserReply u))
      | Err e => (db, Err e)
      end
  | GetAddressesReq => (db, Ok (AddressesReply (getAddresses uid db)))
  | CreateAddressReq data => let r := createAddress uid data db in (r.2, Ok (AddressReply r.1))
  | UpdateAddressReq id p =>
      let r := updateAddress id uid p db in
      (r.1, match r.2 with Ok a => Ok (AddressReply a) | Err e => Err e end)
  | DeleteAddressReq id =>
      match deleteAddress id db with
      | Ok (a, db') => (db', Ok (AddressReply a))
      | Err e => (db, Err e)
      end
  end.

(** ** The invariant: one default address per user *)

Definition addr_keys_ok (db : UserDb) : Prop :=
  map_Forall (fun k a => ad_id a = k /\ 1 <= k < next_addr_id db) (addrs db).

Definition defaults_unique (m : gmap Z Address) : Prop :=
  forall k1 k2 a1 a2, m !! k1 = Some a1 -> m !! k2 = Some a2 ->
    ad_userId a1 = ad_userId a2 -> ad_isDefault a1 = true -> ad_isDefault a2 = true -> k1 = k2.

Definition addr_wf (db : UserDb) : Prop :=
  1 <= next_addr_id db /\ addr_keys_ok db /\ defaults_unique (addrs db).

(** ** Lemmas *)

(** A row after [unset_defaults]: the same row up to its flag, which is
    off for the user's rows and not raised for anyone. *)
Lemma unset_lookup_Some uid db k a :
  addrs (unset_defaults uid db) !! k = Some a ->
  exists a0, addrs db !! k = Some a0 /\ ad_id a = ad_id a0 /\ ad_userId a = ad_userId a0 /\
    (ad_isDefault a = true -> ad_isDefault a0 = true) /\
    (ad_userId a = uid -> ad_isDefault a = false).
Proof.
  unfold unset_defaults, with_addrs; simpl. rewrite lookup_fmap.
  destruct (addrs db !! k) as [a0|]; [|done]. intros [= <-]. exists a0. split; [done|].
  destruct (bool_decide (ad_userId a0 = uid)) eqn:Hu, (ad_isDefault a0) eqn:Hd; simpl;
    rewrite ?Hd; repeat split; try done.
  all: intros Heq; apply bool_decide_eq_false in Hu; contradiction.
Qed.

Lemma unset_lookup_None uid db k :
  addrs (unset_defaults uid db) !! k = None <-> addrs db !! k = None.
Proof. unfold unset_defaults, with_addrs; simpl. rewrite lookup_fmap. by destruct (addrs db !! k). Qed.

(** Writing row [a] under [k] keeps one default per user when [a], if it
    is a default, is its user's only one. *)
Lemma defaults_unique_insert m k a :
  defaults_unique m ->
  (ad_isDefault a = true -> forall j b, m !! j = Some b -> j <> k ->
     ad_userId b = ad_userId a -> ad_isDefault b = false) ->
  defaults_unique (<[k := a]> m).
Proof.
  intros Hu Ha k1 k2 a1 a2 H1 H2 Hus Hd1 Hd2.
  apply lookup_insert_Some in H1 as [[<- <-]|[Hne1 H1]];
  apply lookup_insert_Some in H2 as [[<- <-]|[Hne2 H2]]; try done.
  - rewrite (Ha Hd1 k2 a2 H2 (not_eq_sym Hne2) (eq_sym Hus)) in Hd2. done.
  - rewrite (Ha Hd2 k1 a1 H1 (not_eq_sym Hne1) Hus) in Hd1. done.
  - exact (Hu _ _ _ _ H1 H2 Hus Hd1 Hd2).
Qed.

Lemma unset_wf uid db : addr_wf db -> addr_wf (unset_defaults uid db).
Proof.
  intros (Hn & Hk & Hu). split; [done|]. split.
  - intros k a (a0 & Ha0 & Hid & _)%unset_lookup_Some. rewrite Hid. exact (Hk k a0 Ha0).
  - intros k1 k2 a1 a2 (b1 & Hb1 & _ & Hu1 & Hd1 & _)%unset_lookup_Some
      (b2 & Hb2 & _ & Hu2 & Hd2 & _)%unset_lookup_Some Hus D1 D2.
    apply (Hu _ _ _ _ Hb1 Hb2); [congruence | auto | auto].
Qed.

Lemma addr_fresh db : addr_wf db -> addrs db !! next_addr_id db = None.
Proof.
  intros (_ & Hk & _). destruct (addrs db !! next_addr_id db) as [a|] eqn:E; [|done].
  destruct (Hk _ _ E). lia.
Qed.

Lemma createAddress_wf uid data db : addr_wf db -> addr_wf (createAddress uid data db).2.
Proof.
  intros Hwf. unfold createAddress.
  set (db1 := if default false (na_isDefault data) then unset_defaults uid db else db).
  assert (Hwf1 : addr_wf db1) by (unfold db1; destruct (default false _); [by apply unset_wf | done]).
  pose proof (addr_fresh db1 Hwf1) as Hfresh. destruct Hwf1 as (Hn & Hk & Hu).
  split; [simpl; lia|]. split.
  - apply map_Forall_insert_2; [simpl; lia|].
    intros k a Ha. destruct (Hk k a Ha). simpl. split; [done | lia].
  - apply defaults_unique_insert; [done|]. simpl. intros Hd j b Hb _ Hub.
    unfold db1 in Hb |- *. rewrite Hd in Hb.
    apply unset_lookup_Some in Hb as (b0 & _ & _ & _ & _ & Hoff). by apply Hoff.
Qed.

Lemma updateAddress_own_wf id uid p db :
  addr_wf db -> (forall a, addrs db !! id = Some a -> ad_userId a = uid) ->
  addr_wf (updateAddress id uid p db).1.
Proof.
  intros Hwf Hown. unfold updateAddress.
  set (db1 := if default false (ap_isDefault p) then unset_defaults uid db else db).
  assert (Hwf1 : addr_wf db1) by (unfold db1; destruct (default false _); [by apply unset_wf | done]).
  assert (Hown1 : forall a, addrs db1 !! id = Some a -> ad_userId a = uid).
  { unfold db1. destruct (default false _); [|done].
    intros a (a0 & Ha0 & _ & Hu & _)%unset_lookup_Some. rewrite Hu. by apply Hown. }
  destruct (addrs db1 !! id) as [a|] eqn:Ha; [|done]. cbn [fst]. unfold with_addrs.
  destruct Hwf1 as (Hn & Hk & Hu). split; [done|]. split.
  - apply map_Forall_insert_2; [exact (Hk id a Ha)|]. intros k b Hb. exact (Hk k b Hb).
  - apply defaults_unique_insert; [done|]. intros Hd j b Hb Hne Hub.
    pose proof (Hown1 a eq_refl) as Hua. cbn [apply_address ad_isDefault] in Hd.
    destruct (ap_isDefault p) as [[]|] eqn:Hp; cbn [set_opt] in Hd.
    + unfold db1 in Hb. rewrite ?Hp in Hb. cbn [default] in Hb.
      apply unset_lookup_Some in Hb as (b0 & _ & _ & _ & _ & Hoff). apply Hoff. rewrite Hub. exact Hua.
    + done.
    + destruct (ad_isDefault b) eqn:Hdb; [|done]. destruct Hne.
      exact (Hu _ _ _ _ Hb Ha Hub Hdb Hd).
Qed.

Lemma deleteAddress_wf id db a db' : addr_wf db -> deleteAddress id db = Ok (a, db') -> addr_wf db'.
Proof.
  intros (Hn & Hk & Hu). unfold deleteAddress.
  destruct (addrs db !! id) as [x|]; [|done]. intros [= <- <-]. split; [done|]. split.
  - intros k b Hb. simpl in Hb. apply lookup_delete_Some in Hb as [_ Hb]. exact (Hk k b Hb).
  - intros k1 k2 a1 a2 H1 H2. simpl in H1, H2.
    apply lookup_delete_Some in H1 as [_ H1]. apply lookup_delete_Some in H2 as [_ H2]. by apply Hu.
Qed.

(** [updateAddress] on another user's address: the caller's defaults are
    cleared, and the other user's address becomes a default beside that
    user's own default. *)
Lemma update_foreign_address_two_defaults :
  let a1 := mkAddress 1 1 "Rumah" "Ani" "0812" "Jawa Barat" "Bandung" "Coblong" "32" "3273" "327301"
              "Jl. Dago 1" None true in
  let a2 := mkAddress 2 1 "Kantor" "Ani" "0812" "Jawa Barat" "Bandung" "Sukajadi" "32" "3273" "327302"
              "Jl. Pasteur 2" None false in
  let db := mkUserDb ∅ 1 (<[2 := a2]> {[1 := a1]}) 3 in
  let p := mkAddressPatch None None None None None None None None (Some true) in
  addr_wf db /\ ~ addr_wf (updateAddress 2 7 p db).1.
Proof.
  intros a1 a2 db p. split.
  - split; [simpl; lia|]. split.
    + apply map_Forall_insert_2; [simpl; lia|]. apply map_Forall_singleton. simpl. lia.
    + intros k1 k2 b1 b2 H1 H2 _ D1 D2. simpl in H1, H2.
      apply lookup_insert_Some in H1 as [[<- <-]|[? H1]]; [done|].
      apply lookup_insert_Some in H2 as [[<- <-]|[? H2]]; [done|].
      apply lookup_singleton_Some in H1 as [<- _]. by apply lookup_singleton_Some in H2 as [<- _].
  - intros (_ & _ & Hu).
    assert (1 = 2) by (apply (Hu 1 2 a1 (set_default true a2)); vm_compute; reflexivity).
    lia.
Qed.

(** ** Properties *)

(** C38 (invariant). A user has at most one default address: creating an
    address (default or not), deleting one, and updating one's own
    address keep it so, since setting [isDefault] first clears the user's
    other defaults. The guard is the caller's own defaults only, and the
    row is found by [id] alone: updating another user's address breaks it
    ([update_foreign_address_two_defaults]). *)
Theorem default_address_unique uid db :
  addr_wf db ->
  (forall data, addr_wf (createAddress uid data db).2) /\
  (forall id a db', deleteAddress id db = Ok (a, db') -> addr_wf db') /\
  (forall id p, (forall a, addrs db !! id = Some a -> ad_userId a = uid) ->
     addr_wf (updateAddress id uid p db).1).
Proof.
  intros Hwf. split; [|split].
  - intros data. by apply createAddress_wf.
  - intros id a db'. by apply deleteAddress_wf.
  - intros id p Hown. by apply updateAddress_own_wf.
Qed.

Lemma default_address_unique_witness :
  addr_wf (mkUserDb ∅ 1 ∅ 1) /\
  ((forall data, addr_wf (createAddress 5 data (mkUserDb ∅ 1 ∅ 1)).2) /\
   (forall id a db', deleteAddress id (mkUserDb ∅ 1 ∅ 1) = Ok (a, db') -> addr_wf db') /\
   (forall id p, (forall a, addrs (mkUserDb ∅ 1 ∅ 1) !! id = Some a -> ad_userId a = 5) ->
      addr_wf (updateAddress id 5 p (mkUserDb ∅ 1 ∅ 1)).1)).
Proof.
  assert (H : addr_wf (mkUserDb ∅ 1 ∅ 1)).
  { split; [simpl; lia|]. split; [apply map_Forall_empty|].
    intros k1 k2 b1 b2 E. simpl in E. by rewrite lookup_empty in E. }
  split; [exact H|]. exact (default_address_unique 5 _ H).
Defined.

End Users.
