(* ===== verification/Gateway.v ===== *)
(** * The payment gateway client

    [PaymentService] (src/src/modules/payment/payment.service.ts): one
    method per payment rail (virtual account, e-wallet charge, QRIS code,
    hosted invoice), each building the request of the Xendit SDK from its
    arguments and renaming the fields of the SDK's response. The SDK is
    the interface [XenditApi], a class of operations that may fail; the
    promises the controller relies on (the gateway echoes the reference
    and the amount it was given) are the class [XenditLaws]. The instance
    [echo_xendit] implements both and runs the witnesses. *)

From S2P Require Import Prelude.

Open Scope Z_scope.
Open Scope result_scope.

Module Gateway.

Inductive EwalletChannel := ID_OVO | ID_DANA | ID_LINKAJA | ID_SHOPEEPAY | ID_GOPAY.

#[global] Instance EwalletChannel_eq_dec : EqDecision EwalletChannel.
Proof. solve_decision. Defined.

Definition channel_code (c : EwalletChannel) : string :=
  match c with
  | ID_OVO => "ID_OVO" | ID_DANA => "ID_DANA" | ID_LINKAJA => "ID_LINKAJA"
  | ID_SHOPEEPAY => "ID_SHOPEEPAY" | ID_GOPAY => "ID_GOPAY"
  end.

(** A transport failure or a rejection by the provider. *)
Inductive GatewayError :=
| GatewayUnavailable
| GatewayRejected (msg : string).

(** ** Requests and responses of the SDK *)

Record VARequest := mkVARequest {
  va_externalID : string; va_bankCode : string; va_name : string; va_expectedAmt : Z;
  va_isClosed : bool; va_isSingleUse : bool; va_expirationDate : Z;
}.

Record VAResponse := mkVAResponse {
  var_id : string; var_external_id : string; var_bank_code : string;
  var_account_number : string; var_name : string; var_expected_amount : Z;
  var_expiration_date : string; var_status : string;
}.

(** [channelProperties] of an e-wallet charge. *)
Record ChannelProperties := mkChannelProperties {
  mobile_number : option string;
  success_redirect_url : option string;
  failure_redirect_url : option string;
}.

Record EwalletRequest := mkEwalletRequest {
  ew_referenceID : string; ew_currency : string; ew_amount : Z;
  ew_checkoutMethod : string; ew_channelCode : EwalletChannel;
  ew_channelProperties : ChannelProperties;
}.

Record EwalletResponse := mkEwalletResponse {
  ewr_id : string; ewr_reference_id : string; ewr_charge_amount : Z;
  ewr_status : string; ewr_channel_code : EwalletChannel; ewr_actions : list string;
}.

Record QrRequest := mkQrRequest {
  qr_externalID : string; qr_type : string; qr_callbackURL : string; qr_amount : Z;
}.

Record QrResponse := mkQrResponse {
  qrr_id : string; qrr_external_id : string; qrr_qr_string : string;
  qrr_amount : Z; qrr_status : string;
}.

Record InvoiceItem := mkInvoiceItem { ii_name : string; ii_quantity : Z; ii_price : Z }.

Record InvoiceRequest := mkInvoiceRequest {
  inv_externalID : string; inv_amount : Z; inv_payerEmail : string;
  inv_description : string; inv_successRedirectURL : option string;
  inv_failureRedirectURL : option string; inv_invoiceDuration : Z;
  inv_currency : string; inv_items : option (list InvoiceItem);
  inv_paymentMethods : list string;
}.

Record InvoiceResponse := mkInvoiceResponse {
  invr_id : string; invr_external_id : string; invr_invoice_url : string;
  invr_status : string; invr_amount : Z; invr_expiry_date : string;
  invr_paid_amount : option Z; invr_paid_at : option string;
  invr_payment_method : option string; invr_payment_channel : option string;
}.

(** The Xendit SDK, as the client code uses it. *)
Class XenditApi := {
  createFixedVA : VARequest -> result VAResponse GatewayError;
  createEWalletCharge : EwalletRequest -> result EwalletResponse GatewayError;
  createCode : QrRequest -> result QrResponse GatewayError;
  createInvoiceApi : InvoiceRequest -> result InvoiceResponse GatewayError;
  getInvoice : string -> result InvoiceResponse GatewayError;
}.

(** What the gateway promises to the client: a created payment instrument
    carries the reference and the amount it was requested with. *)
Class XenditLaws `{XenditApi} := {
  va_echo : forall r resp, createFixedVA r = Ok resp ->
    var_external_id resp = va_externalID r /\ var_expected_amount resp = va_expectedAmt r /\
    var_bank_code resp = va_bankCode r;
  ewallet_echo : forall r resp, createEWalletCharge r = Ok resp ->
    ewr_reference_id resp = ew_referenceID r /\ ewr_charge_amount resp = ew_amount r /\
    ewr_channel_code resp = ew_channelCode r;
  qr_echo : forall r resp, createCode r = Ok resp ->
    qrr_external_id resp = qr_externalID r /\ qrr_amount resp = qr_amount r;
  invoice_echo : forall r resp, createInvoiceApi r = Ok resp ->
    invr_external_id resp = inv_externalID r /\ invr_amount resp = inv_amount r;
}.

(** ** The service methods *)

Section Service.
Context `{XenditApi}.

Record VAData := mkVAData {
  vd_externalId : string; vd_bankCode : string; vd_name : string; vd_amount : Z;
  vd_description : option string;
}.

Record VAResult := mkVAResult {
  vres_id : string; vres_externalId : string; vres_bankCode : string;
  vres_accountNumber : string; vres_name : string; vres_amount : Z;
  vres_expirationDate : string; vres_status : string;
}.

(** [createVirtualAccount(data)] (lines 18-48); [now] is [Date.now()]. *)
Definition createVirtualAccount (data : VAData) (now : Z) : result VAResult GatewayError :=
  resp <- createFixedVA {| va_externalID := vd_externalId data; va_bankCode := vd_bankCode data;
                           va_name := vd_name data; va_expectedAmt := vd_amount data;
                           va_isClosed := true; va_isSingleUse := true;
                           va_expirationDate := now + 24 * 60 * 60 * 1000 |} ;;
  Ok {| vres_id := var_id resp; vres_externalId := var_external_id resp;
        vres_bankCode := var_bank_code resp; vres_accountNumber := var_account_number resp;
        vres_name := var_name resp; vres_amount := var_expected_amount resp;
        vres_expirationDate := var_expiration_date resp; vres_status := var_status resp |}.

Record EwalletData := mkEwalletData {
  ed_externalId : string; ed_amount : Z; ed_channelCode : EwalletChannel;
  ed_mobileNumber : option string; ed_successRedirectUrl : option string;
  ed_failureRedirectUrl : option string;
}.

Record EwalletResult := mkEwalletResult {
  eres_id : string; eres_referenceId : string; eres_chargeAmount : Z;
  eres_status : string; eres_channelCode : EwalletChannel; eres_actions : list string;
}.

(** The [channelProperties] branch of [createEwalletCharge] (lines 64-71). *)
Definition channel_properties (data : EwalletData) : ChannelProperties :=
  if bool_decide (ed_channelCode data = ID_OVO) && js_truthy_str (ed_mobileNumber data) then
    {| mobile_number := ed_mobileNumber data; success_redirect_url := None;
       failure_redirect_url := None |}
  else if js_truthy_str (ed_successRedirectUrl data) then
    {| mobile_number := None; success_redirect_url := ed_successRedirectUrl data;
       failure_redirect_url := js_or_str (ed_failureRedirectUrl data) (ed_successRedirectUrl data) |}
  else {| mobile_number := None; success_redirect_url := None; failure_redirect_url := None |}.

(** [createEwalletCharge(data)] (lines 53-90). *)
Definition createEwalletCharge (data : EwalletData) : result EwalletResult GatewayError :=
  resp <- createEWalletCharge {| ew_referenceID := ed_externalId data; ew_currency := "IDR";
                                 ew_amount := ed_amount data;
                                 ew_checkoutMethod := "ONE_TIME_PAYMENT";
                                 ew_channelCode := ed_channelCode data;
                                 ew_channelProperties := channel_properties data |} ;;
  Ok {| eres_id := ewr_id resp; eres_referenceId := ewr_reference_id resp;
        eres_chargeAmount := ewr_charge_amount resp; eres_status := ewr_status resp;
        eres_channelCode := ewr_channel_code resp; eres_actions := ewr_actions resp |}.

Record QrisResult := mkQrisResult {
  qres_id : string; qres_externalId : string; qres_qrString : string;
  qres_amount : Z; qres_status : string;
}.

(** [createQRISPayment(data)] (lines 95-117); [callbackBase] is
    [configService.get('XENDIT_CALLBACK_URL')], which may be unset. *)
Definition createQRISPayment (externalId : string) (amount : Z) (callbackBase : option string)
  : result QrisResult GatewayError :=
  resp <- createCode {| qr_externalID := externalId; qr_type := "DYNAMIC";
                        qr_callbackURL := js_tpl callbackBase ++ "/payment/callback/qris";
                        qr_amount := amount |} ;;
  Ok {| qres_id := qrr_id resp; qres_externalId := qrr_external_id resp;
        qres_qrString := qrr_qr_string resp; qres_amount := qrr_amount resp;
        qres_status := qrr_status resp |}.

Record InvoiceData := mkInvoiceData {
  id_externalId : string; id_amount : Z; id_payerEmail : string; id_description : string;
  id_successRedirectUrl : option string; id_failureRedirectUrl : option string;
  id_items : option (list InvoiceItem);
}.

Record InvoiceResult := mkInvoiceResult {
  ires_id : string; ires_externalId : string; ires_invoiceUrl : string;
  ires_status : string; ires_amount : Z; ires_expiryDate : string;
}.

Definition invoice_payment_methods : list string :=
  ["BCA"; "BNI"; "BRI"; "MANDIRI"; "PERMATA"; "OVO"; "DANA"; "SHOPEEPAY"; "LINKAJA"; "QRIS"].

(** [createInvoice(data)] (lines 122-159). *)
Definition createInvoice (data : InvoiceData) : result InvoiceResult GatewayError :=
  resp <- createInvoiceApi
            {| inv_externalID := id_externalId data; inv_amount := id_amount data;
               inv_payerEmail := id_payerEmail data; inv_description := id_description data;
               inv_successRedirectURL := id_successRedirectUrl data;
               inv_failureRedirectURL := id_failureRedirectUrl data;
               inv_invoiceDuration := 86400; inv_currency := "IDR";
               inv_items := id_items data; inv_paymentMethods := invoice_payment_methods |} ;;
  Ok {| ires_id := invr_id resp; ires_externalId := invr_external_id resp;
        ires_invoiceUrl := invr_invoice_url resp; ires_status := invr_status resp;
        ires_amount := invr_amount resp; ires_expiryDate := invr_expiry_date resp |}.

Record InvoiceStatus := mkInvoiceStatus {
  st_id : string; st_externalId : string; st_status : string; st_amount : Z;
  st_paidAmount : option Z; st_paidAt : option string; st_paymentMethod : option string;
  st_paymentChannel : option string;
}.

(** [getInvoiceStatus(invoiceId)] (lines 164-180). *)
Definition getInvoiceStatus (invoiceId : string) : result InvoiceStatus GatewayError :=
  resp <- getInvoice invoiceId ;;
  Ok {| st_id := invr_id resp; st_externalId := invr_external_id resp;
        st_status := invr_status resp; st_amount := invr_amount resp;
        st_paidAmount := invr_paid_amount resp; st_paidAt := invr_paid_at resp;
        st_paymentMethod := invr_payment_method resp;
        st_paymentChannel := invr_payment_channel resp |}.

End Service.

(** [getAvailableBanks()] (lines 185-196). *)
Definition getAvailableBanks : list (string * string) :=
  [("BCA", "Bank Central Asia"); ("BNI", "Bank Negara Indonesia");
   ("BRI", "Bank Rakyat Indonesia"); ("MANDIRI", "Bank Mandiri");
   ("PERMATA", "Bank Permata"); ("BSI", "Bank Syariah Indonesia");
   ("BJB", "Bank Jabar Banten"); ("CIMB", "CIMB Niaga")].

(** [getAvailableEwallets()] (lines 201-209): code, name, [requiresPhone]. *)
Definition getAvailableEwallets : list (EwalletChannel * string * bool) :=
  [(ID_OVO, "OVO", true); (ID_DANA, "DANA", false); (ID_SHOPEEPAY, "ShopeePay", false);
   (ID_LINKAJA, "LinkAja", false); (ID_GOPAY, "GoPay", false)].

(** ** A gateway that accepts every request and echoes it *)

#[global] Instance echo_xendit : XenditApi := {|
  createFixedVA r := Ok {| var_id := "va-1"; var_external_id := va_externalID r;
    var_bank_code := va_bankCode r; var_account_number := "8808000000001";
    var_name := va_name r; var_expected_amount := va_expectedAmt r;
    var_expiration_date := "2025-01-02T00:00:00Z"; var_status := "PENDING" |};
  createEWalletCharge r := Ok {| ewr_id := "ewc-1"; ewr_reference_id := ew_referenceID r;
    ewr_charge_amount := ew_amount r; ewr_status := "PENDING";
    ewr_channel_code := ew_channelCode r; ewr_actions := [] |};
  createCode r := Ok {| qrr_id := "qr-1"; qrr_external_id := qr_externalID r;
    qrr_qr_string := "00020101"; qrr_amount := qr_amount r; qrr_status := "ACTIVE" |};
  createInvoiceApi r := Ok {| invr_id := "inv-1"; invr_external_id := inv_externalID r;
    invr_invoice_url := "https://checkout.xendit.co/web/inv-1"; invr_status := "PENDING";
    invr_amount := inv_amount r; invr_expiry_date := "2025-01-02T00:00:00Z";
    invr_paid_amount := None; invr_paid_at := None; invr_payment_method := None;
    invr_payment_channel := None |};
  getInvoice id := Err (GatewayRejected "not found");
|}.

#[global] Instance echo_xendit_laws : @XenditLaws echo_xendit.
Proof. split; intros r resp [= <-]; simpl; auto. Qed.

(** ** Properties *)

(** C29 (error, finding). [getAvailableEwallets] advertises that OVO, and
    only OVO, requires a phone number, but [createEwalletCharge] does not
    enforce it: an OVO charge without a (non-empty) mobile number makes
    the gateway call anyway, with a request for OVO, the order's reference
    and amount, no [mobile_number], and the redirect URL when one is
    given; the client refuses nothing itself, so whatever the gateway
    answers to that request is the answer. *)
Theorem ovo_without_phone `{XenditApi} data :
  ed_channelCode data = ID_OVO -> js_truthy_str (ed_mobileNumber data) = false ->
  (exists r,
    ew_channelCode r = ID_OVO /\ ew_referenceID r = ed_externalId data /\
    ew_amount r = ed_amount data /\ mobile_number (ew_channelProperties r) = None /\
    (js_truthy_str (ed_successRedirectUrl data) = true ->
       success_redirect_url (ew_channelProperties r) = ed_successRedirectUrl data) /\
    (forall e, createEWalletCharge r = Err e -> createEwalletCharge data = Err e) /\
    (forall resp, createEWalletCharge r = Ok resp ->
       exists res, createEwalletCharge data = Ok res /\ eres_id res = ewr_id resp)) /\
  (forall c n rp, (c, n, rp) ∈ getAvailableEwallets -> rp = true <-> c = ID_OVO).
Proof.
  intros Hc Hm. split.
  - exists {| ew_referenceID := ed_externalId data; ew_currency := "IDR";
              ew_amount := ed_amount data; ew_checkoutMethod := "ONE_TIME_PAYMENT";
              ew_channelCode := ed_channelCode data;
              ew_channelProperties := channel_properties data |}.
    split; [exact Hc|]. do 2 (split; [reflexivity|]).
    unfold createEwalletCharge, channel_properties; simpl. rewrite Hm, andb_false_r.
    split; [by destruct (js_truthy_str (ed_successRedirectUrl data))|].
    split; [by intros ->|].
    split; [intros e ->; reflexivity | intros resp ->; eexists; split; reflexivity].
  - intros c n rp Hin. repeat (apply elem_of_cons in Hin as [Hin|Hin]; [by simplify_eq|]).
    by apply elem_of_nil in Hin.
Qed.

Lemma ovo_without_phone_witness :
  (ed_channelCode (mkEwalletData "INV/20250101/ABC123" 195000 ID_OVO None (Some "https://app/ok") None) = ID_OVO /\
   js_truthy_str (ed_mobileNumber (mkEwalletData "INV/20250101/ABC123" 195000 ID_OVO None (Some "https://app/ok") None)) = false) /\
  exists r,
    ew_channelCode r = ID_OVO /\ ew_referenceID r = "INV/20250101/ABC123" /\
    ew_amount r = 195000 /\ mobile_number (ew_channelProperties r) = None /\
    (js_truthy_str (Some "https://app/ok") = true ->
       success_redirect_url (ew_channelProperties r) = Some "https://app/ok") /\
    (forall e, @createEWalletCharge echo_xendit r = Err e ->
       @createEwalletCharge echo_xendit (mkEwalletData "INV/20250101/ABC123" 195000 ID_OVO None (Some "https://app/ok") None) = Err e) /\
    (forall resp, @createEWalletCharge echo_xendit r = Ok resp ->
       exists res, @createEwalletCharge echo_xendit (mkEwalletData "INV/20250101/ABC123" 195000 ID_OVO None (Some "https://app/ok") None) = Ok res /\
         eres_id res = ewr_id resp).
Proof.
  split; [split; reflexivity|].
  exact (proj1 (@ovo_without_phone echo_xendit
    (mkEwalletData "INV/20250101/ABC123" 195000 ID_OVO None (Some "https://app/ok") None) eq_refl eq_refl)).
Defined.

Section WithLaws.
Context `{XenditLaws}.

(** C28 (refinement). Against any gateway that keeps its contract
    ([XenditLaws]), every payment instrument the client returns carries
    the reference and the amount it was asked for: the rail-specific
    responses are translated to the common shape without loss. *)
Theorem instrument_echo :
  (forall data now r, createVirtualAccount data now = Ok r ->
     vres_externalId r = vd_externalId data /\ vres_amount r = vd_amount data /\
     vres_bankCode r = vd_bankCode data) /\
  (forall data r, createEwalletCharge data = Ok r ->
     eres_referenceId r = ed_externalId data /\ eres_chargeAmount r = ed_amount data /\
     eres_channelCode r = ed_channelCode data) /\
  (forall e a base r, createQRISPayment e a base = Ok r ->
     qres_externalId r = e /\ qres_amount r = a) /\
  (forall data r, createInvoice data = Ok r ->
     ires_externalId r = id_externalId data /\ ires_amount r = id_amount data).
Proof.
  split; [|split; [|split]].
  - intros data now r. unfold createVirtualAccount.
    destruct (createFixedVA _) as [resp|] eqn:E; [|done]. intros [= <-].
    apply va_echo in E. simpl. naive_solver.
  - intros data r. unfold createEwalletCharge.
    destruct (createEWalletCharge _) as [resp|] eqn:E; [|done]. intros [= <-].
    apply ewallet_echo in E. simpl. naive_solver.
  - intros e a base r. unfold createQRISPayment.
    destruct (createCode _) as [resp|] eqn:E; [|done]. intros [= <-].
    apply qr_echo in E. simpl. naive_solver.
  - intros data r. unfold createInvoice.
    destruct (createInvoiceApi _) as [resp|] eqn:E; [|done]. intros [= <-].
    apply invoice_echo in E. simpl. naive_solver.
Qed.

End WithLaws.

Lemma instrument_echo_witness :
  @XenditLaws echo_xendit /\
  (forall data now r, @createVirtualAccount echo_xendit data now = Ok r ->
     vres_externalId r = vd_externalId data /\ vres_amount r = vd_amount data /\
     vres_bankCode r = vd_bankCode data).
Proof.
  split; [exact echo_xendit_laws|].
  exact (proj1 (@instrument_echo echo_xendit echo_xendit_laws)).
Defined.

End Gateway.
