(* ===== verification/Payment.v ===== *)
(** * Payment initiation

    The authenticated endpoints of [PaymentController]
    (src/src/modules/payment/payment.controller.ts, lines 29-241): each
    loads the caller's order with [order.findFirst({ where: { id, userId } })],
    asks the gateway client of [Gateway] for a payment instrument for the
    order's number and total, then records [paymentStatus: 'PENDING'] and a
    rail-specific note with [order.update]. The configuration values
    ([APP_URL], [XENDIT_CALLBACK_URL], [XENDIT_CALLBACK_TOKEN]) may be unset. *)

From S2P Require Import Prelude Pricing OrderStore Gateway.

Open Scope Z_scope.
Open Scope result_scope.
Open Scope string_scope.

Module Payment.
Import OrderStore Gateway.

(** [configService.get(...)] of the keys the controller reads. *)
Record Config := mkConfig {
  APP_URL : option string;
  XENDIT_CALLBACK_URL : option string;
  XENDIT_CALLBACK_TOKEN : option string;
}.

(** What the endpoints throw: [new Error('Order not found')], a failure of
    the gateway call, a failure of [order.update], or a TypeError when the
    included [order.user] is absent. *)
Inductive PayError :=
| OrderNotFound
| GatewayFailed (e : GatewayError)
| DbFailed (e : DbError)
| UserUndefined.

Record InvoiceView := mkInvoiceView {
  invoiceId : string; invoiceUrl : string; expiryDate : string; amount : Z;
}.

Record PaymentStatusView := mkPaymentStatusView {
  ps_orderId : Z; ps_orderNumber : string; ps_paymentStatus : PaymentStatus.t;
  ps_paidAt : option Z;
}.

Section Controller.
Context `{XenditApi} (cfg : Config).

(** [`${APP_URL}/payment/success?order=${order.orderNumber}`]. *)
Definition success_url (num : string) : string :=
  js_tpl (APP_URL cfg) ++ "/payment/success?order=" ++ num.

Definition failure_url (num : string) : string :=
  js_tpl (APP_URL cfg) ++ "/payment/failed?order=" ++ num.

(** [prisma.order.update({ where: { id: order.id }, data: { paymentStatus:
    'PENDING', notes } })]. *)
Definition pending_patch (note : string) : OrderPatch :=
  mkOrderPatch (Some PaymentStatus.PENDING) None None (Some (Some note)).

Definition mark_pending (o : Order) (note : string) (db : Db) : result Db PayError :=
  map_err DbFailed (order_update (oid o) (pending_patch note) db).

(** The first lines of every endpoint: the caller's order, or
    [throw new Error('Order not found')]. *)
Definition load_order (uid : Z) (orderId : option Z) (db : Db) : result Order PayError :=
  match order_find_first (by_id_owner orderId uid) db with
  | Some o => Ok o
  | None => Err OrderNotFound
  end.

(** [include: { user: true }]: [order.user]. *)
Definition load_user (o : Order) (db : Db) : result User PayError :=
  match users db !! userId o with
  | Some u => Ok u
  | None => Err UserUndefined
  end.

(** [POST /payment/invoice] (lines 39-97). *)
Definition createInvoiceEndpoint (uid : Z) (orderId : option Z) (db : Db)
  : result (InvoiceView * Db) PayError :=
  o <- load_order uid orderId db ;;
  u <- load_user o db ;;
  inv <- map_err GatewayFailed
           (createInvoice {| id_externalId := orderNumber o; id_amount := totalAmount o;
                             id_payerEmail := email u;
                             id_description := "Pembayaran order " ++ orderNumber o;
                             id_successRedirectUrl := Some (success_url (orderNumber o));
                             id_failureRedirectUrl := Some (failure_url (orderNumber o));
                             id_items := Some (map (fun it => mkInvoiceItem
                                 (Pricing.productName it) (Pricing.quantity it)
                                 (Pricing.item_price it)) (items o)) |}) ;;
  db' <- mark_pending o ("Xendit Invoice: " ++ ires_id inv) db ;;
  Ok ({| invoiceId := ires_id inv; invoiceUrl := ires_invoiceUrl inv;
         expiryDate := ires_expiryDate inv; amount := ires_amount inv |}, db').

(** [POST /payment/virtual-account] (lines 99-139); [now] is [Date.now()]. *)
Definition createVirtualAccountEndpoint (uid : Z) (orderId : option Z) (bankCode : string)
    (now : Z) (db : Db) : result (VAResult * Db) PayError :=
  o <- load_order uid orderId db ;;
  u <- load_user o db ;;
  va <- map_err GatewayFailed
          (createVirtualAccount {| vd_externalId := orderNumber o; vd_bankCode := bankCode;
                                   vd_name := fullName u; vd_amount := totalAmount o;
                                   vd_description := Some ("Pembayaran " ++ orderNumber o) |} now) ;;
  db' <- mark_pending o ("VA: " ++ vres_accountNumber va ++ " (" ++ vres_bankCode va ++ ")") db ;;
  Ok (va, db').

(** [POST /payment/ewallet] (lines 141-182). *)
Definition createEwalletPayment (uid : Z) (orderId : option Z) (channel : EwalletChannel)
    (mobileNumber : option string) (db : Db) : result (EwalletResult * Db) PayError :=
  o <- load_order uid orderId db ;;
  charge <- map_err GatewayFailed
              (createEwalletCharge {| ed_externalId := orderNumber o; ed_amount := totalAmount o;
                                      ed_channelCode := channel; ed_mobileNumber := mobileNumber;
                                      ed_successRedirectUrl := Some (success_url (orderNumber o));
                                      ed_failureRedirectUrl := Some (failure_url (orderNumber o)) |}) ;;
  db' <- mark_pending o ("E-Wallet: " ++ channel_code (eres_channelCode charge)) db ;;
  Ok (charge, db').

(** [POST /payment/qris] (lines 184-220). *)
Definition createQRISPaymentEndpoint (uid : Z) (orderId : option Z) (db : Db)
  : result (QrisResult * Db) PayError :=
  o <- load_order uid orderId db ;;
  qris <- map_err GatewayFailed
            (createQRISPayment (orderNumber o) (totalAmount o) (XENDIT_CALLBACK_URL cfg)) ;;
  db' <- mark_pending o ("QRIS ID: " ++ qres_id qris) db ;;
  Ok (qris, db').

(** [GET /payment/status/:orderId] (lines 222-241). *)
Definition getPaymentStatus (uid orderId : Z) (db : Db) : result PaymentStatusView PayError :=
  o <- load_order uid (Some orderId) db ;;
  Ok {| ps_orderId := oid o; ps_orderNumber := orderNumber o;
        ps_paymentStatus := paymentStatus o; ps_paidAt := paidAt o |}.

End Controller.

(** [GET /payment/methods] (lines 29-37). *)
Definition getPaymentMethods : list (string * string) * list (EwalletChannel * string * bool) * bool :=
  (getAvailableBanks, getAvailableEwallets, true).

(** ** Lemmas *)

(** The effect of a successful initiation: the caller's order [o], and
    only it, gets [paymentStatus = PENDING] and a new note. *)
Definition pending_step (uid : Z) (db db' : Db) : Prop :=
  exists o note, orders db !! oid o = Some o /\ userId o = uid /\
    orders db' = <[oid o := apply_patch (pending_patch note) o]> (orders db) /\
    next_order_id db' = next_order_id db /\ users db' = users db /\ products db' = products db.

Lemma load_order_Ok uid orderId db o :
  keys_ok db -> load_order uid orderId db = Ok o ->
  orders db !! oid o = Some o /\ userId o = uid.
Proof.
  intros Hk. unfold load_order. destruct (order_find_first _ db) as [o1|] eqn:E; [|done].
  intros [= <-]. apply find_first_Some in E as (k & Hko & Hp).
  apply andb_true_iff in Hp as [_ Hu%bool_decide_eq_true].
  destruct (Hk k o1 Hko) as [-> _]. done.
Qed.

Lemma mark_pending_step uid o note db db' :
  orders db !! oid o = Some o -> userId o = uid ->
  mark_pending o note db = Ok db' -> pending_step uid db db'.
Proof.
  intros Ho Hu. unfold mark_pending, order_update. rewrite Ho. simpl.
  intros [= <-]. exists o, note. simpl. auto 10.
Qed.

#[export] Hint Resolve mark_pending_step : api.

Section Props.
Context `{XenditApi} (cfg : Config).

(** C16 (functional, safety). Each of the four initiation endpoints, when
    it succeeds, changes exactly one row: the caller's own order, whose
    payment status becomes [PENDING] and whose note is replaced; ids,
    users and products are untouched. *)
Theorem initiate_effect uid orderId db :
  keys_ok db ->
  (forall v db', createInvoiceEndpoint cfg uid orderId db = Ok (v, db') -> pending_step uid db db') /\
  (forall bank now v db', createVirtualAccountEndpoint uid orderId bank now db = Ok (v, db') ->
     pending_step uid db db') /\
  (forall ch mob v db', createEwalletPayment cfg uid orderId ch mob db = Ok (v, db') ->
     pending_step uid db db') /\
  (forall v db', createQRISPaymentEndpoint cfg uid orderId db = Ok (v, db') -> pending_step uid db db').
Proof.
  intros Hk. unfold createInvoiceEndpoint, createVirtualAccountEndpoint,
    createEwalletPayment, createQRISPaymentEndpoint.
  destruct (load_order uid orderId db) as [o|e] eqn:Hl; [|repeat split; done].
  destruct (load_order_Ok _ _ _ _ Hk Hl) as [Ho Hu].
  repeat split; intros *;
    repeat match goal with
    | |- context [match ?c with Ok _ => _ | Err _ => _ end] =>
        destruct c eqn:?; [|done]
    end; intros [= <- <-]; eauto with api.
Qed.

End Props.

Lemma initiate_effect_witness :
  keys_ok (mkDb {[1 := mkOrder 1 "INV/20250101/ABC123" 5 2 3 None 0 0 0 "" "" "" None []
        OrderStatus.PENDING_PAYMENT PaymentStatus.UNPAID None]} 2 ∅ []) /\
  ((forall v db', createInvoiceEndpoint (mkConfig None None None) 5 (Some 1)
      (mkDb {[1 := mkOrder 1 "INV/20250101/ABC123" 5 2 3 None 0 0 0 "" "" "" None []
        OrderStatus.PENDING_PAYMENT PaymentStatus.UNPAID None]} 2 ∅ []) = Ok (v, db') ->
     pending_step 5 (mkDb {[1 := mkOrder 1 "INV/20250101/ABC123" 5 2 3 None 0 0 0 "" "" "" None []
        OrderStatus.PENDING_PAYMENT PaymentStatus.UNPAID None]} 2 ∅ []) db') /\
  (forall bank now v db', createVirtualAccountEndpoint 5 (Some 1) bank now
      (mkDb {[1 := mkOrder 1 "INV/20250101/ABC123" 5 2 3 None 0 0 0 "" "" "" None []
        OrderStatus.PENDING_PAYMENT PaymentStatus.UNPAID None]} 2 ∅ []) = Ok (v, db') ->
     pending_step 5 (mkDb {[1 := mkOrder 1 "INV/20250101/ABC123" 5 2 3 None 0 0 0 "" "" "" None []
        OrderStatus.PENDING_PAYMENT PaymentStatus.UNPAID None]} 2 ∅ []) db') /\
  (forall ch mob v db', createEwalletPayment (mkConfig None None None) 5 (Some 1) ch mob
      (mkDb {[1 := mkOrder 1 "INV/20250101/ABC123" 5 2 3 None 0 0 0 "" "" "" None []
        OrderStatus.PENDING_PAYMENT PaymentStatus.UNPAID None]} 2 ∅ []) = Ok (v, db') ->
     pending_step 5 (mkDb {[1 := mkOrder 1 "INV/20250101/ABC123" 5 2 3 None 0 0 0 "" "" "" None []
        OrderStatus.PENDING_PAYMENT PaymentStatus.UNPAID None]} 2 ∅ []) db') /\
  (forall v db', createQRISPaymentEndpoint (mkConfig None None None) 5 (Some 1)
      (mkDb {[1 := mkOrder 1 "INV/20250101/ABC123" 5 2 3 None 0 0 0 "" "" "" None []
        OrderStatus.PENDING_PAYMENT PaymentStatus.UNPAID None]} 2 ∅ []) = Ok (v, db') ->
     pending_step 5 (mkDb {[1 := mkOrder 1 "INV/20250101/ABC123" 5 2 3 None 0 0 0 "" "" "" None []
        OrderStatus.PENDING_PAYMENT PaymentStatus.UNPAID None]} 2 ∅ []) db')).
Proof.
  assert (H : keys_ok (mkDb {[1 := mkOrder 1 "INV/20250101/ABC123" 5 2 3 None 0 0 0 "" "" "" None []
        OrderStatus.PENDING_PAYMENT PaymentStatus.UNPAID None]} 2 ∅ [])).
  { unfold keys_ok. apply map_Forall_singleton. simpl. lia. }
  split; [exact H|]. exact (initiate_effect (mkConfig None None None) 5 (Some 1) _ H).
Defined.

Lemma load_order_by_id uid id db o :
  keys_ok db -> orders db !! id = Some o -> userId o = uid ->
  load_order uid (Some id) db = Ok o.
Proof.
  intros Hk Ho Hu. unfold load_order. rewrite find_by_id_owner, Ho by done.
  by rewrite bool_decide_eq_true_2.
Qed.

Section Repay.
Context `{XenditApi} (cfg : Config).

(** C7 (safety, finding). No endpoint checks the payment status before
    initiating a payment: for an order that is already paid, a new
    invoice is created and the payment status is set back from [PAID] to
    [PENDING], while the order status and payment time keep saying paid
    (the specification requires [OrderAlreadyPaid]). *)
Theorem reinitiate_paid_order uid id db o u :
  keys_ok db -> orders db !! id = Some o -> userId o = uid ->
  paymentStatus o = PaymentStatus.PAID -> users db !! uid = Some u ->
  (forall r, exists resp, createInvoiceApi r = Ok resp) ->
  exists v db' o', createInvoiceEndpoint cfg uid (Some id) db = Ok (v, db') /\
    orders db' !! id = Some o' /\ paymentStatus o' = PaymentStatus.PENDING /\
    status o' = status o /\ paidAt o' = paidAt o.
Proof.
  intros Hk Ho Hu Hpaid Husr Hacc. unfold createInvoiceEndpoint.
  rewrite (load_order_by_id uid id db o Hk Ho Hu). unfold load_user. rewrite Hu, Husr.
  unfold createInvoice. destruct (createInvoiceApi _) as [resp|e] eqn:E.
  - simpl. unfold mark_pending, order_update. destruct (Hk id o Ho) as [Hid _].
    rewrite Hid, Ho. cbn -[insert lookup]. do 3 eexists. split; [reflexivity|].
    cbn -[insert lookup]. rewrite lookup_insert_eq. split; [reflexivity|]. done.
  - exfalso. match type of E with createInvoiceApi ?r = _ => destruct (Hacc r) as [? Hr] end.
    congruence.
Qed.

End Repay.

Lemma reinitiate_paid_order_witness :
  (keys_ok (mkDb {[1 := mkOrder 1 "INV/20250101/ABC123" 5 2 3 None 0 0 195000 "" "" "" None []
        OrderStatus.PAID PaymentStatus.PAID (Some 1735689600000)]} 2 {[5 := mkUser "b@x.id" "Budi"]} []) /\
   orders (mkDb {[1 := mkOrder 1 "INV/20250101/ABC123" 5 2 3 None 0 0 195000 "" "" "" None []
        OrderStatus.PAID PaymentStatus.PAID (Some 1735689600000)]} 2 {[5 := mkUser "b@x.id" "Budi"]} []) !! 1 =
     Some (mkOrder 1 "INV/20250101/ABC123" 5 2 3 None 0 0 195000 "" "" "" None []
        OrderStatus.PAID PaymentStatus.PAID (Some 1735689600000))) /\
  exists v db' o', createInvoiceEndpoint (mkConfig (Some "https://app") None None) 5 (Some 1)
      (mkDb {[1 := mkOrder 1 "INV/20250101/ABC123" 5 2 3 None 0 0 195000 "" "" "" None []
        OrderStatus.PAID PaymentStatus.PAID (Some 1735689600000)]} 2 {[5 := mkUser "b@x.id" "Budi"]} []) = Ok (v, db') /\
    orders db' !! 1 = Some o' /\ paymentStatus o' = PaymentStatus.PENDING /\
    status o' = OrderStatus.PAID /\ paidAt o' = Some 1735689600000.
Proof.
  assert (Hk : keys_ok (mkDb {[1 := mkOrder 1 "INV/20250101/ABC123" 5 2 3 None 0 0 195000 "" "" "" None []
        OrderStatus.PAID PaymentStatus.PAID (Some 1735689600000)]} 2 {[5 := mkUser "b@x.id" "Budi"]} [])).
  { unfold keys_ok. apply map_Forall_singleton. simpl. lia. }
  split; [split; [exact Hk | reflexivity]|].
  exact (@reinitiate_paid_order echo_xendit (mkConfig (Some "https://app") None None) 5 1 _ _ _ Hk eq_refl eq_refl
           eq_refl eq_refl (fun r => ex_intro _ _ eq_refl)).
Defined.

Section Amounts.
Context `{XenditLaws} (cfg : Config).


End Amounts.


End Payment.
