(* ===== verification/Webhook.v ===== *)
(** * Webhook reconciliation

    The unauthenticated callback endpoints of [PaymentController]
    (src/src/modules/payment/payment.controller.ts, lines 243-335):
    [handleInvoiceCallback], [handleVACallback] and [handleEwalletCallback].
    Each compares the [x-callback-token] header with the configured token
    ([!==] on [string | undefined]), then applies an unconditional
    [order.updateMany({ where: { orderNumber: ref } })] chosen by the
    provider status, and acknowledges with [{ status: 'OK' }]. The clock
    ([new Date()]) is an input. The specification's reconciler (section
    4.5: a conditional update guarded by [paymentStatus in {UNPAID, PENDING}])
    is [reconcile_spec], against which the handlers are compared. *)

From S2P Require Import Prelude Pricing OrderStore Payment.

Open Scope Z_scope.
Open Scope result_scope.
Open Scope string_scope.

Module Webhook.
Import OrderStore Payment.

(** [throw new Error('Invalid callback token')]; a [new Date(paid_at)]
    that is an Invalid Date, which Prisma rejects; destructuring an absent
    [payload.data] (a TypeError). *)
Inductive CallbackError :=
| InvalidCallbackToken
| InvalidPaidAt
| PayloadTypeError.

(** The acknowledgement [{ status: 'OK' }]. *)
Definition Ack : string := "OK".

Record InvoicePayload := mkInvoicePayload {
  ip_external_id : option string;
  ip_status : option string;
  ip_paid_amount : option Z;
  ip_paid_at : option Z;      (* [new Date(paid_at)], None when invalid *)
}.

Record VAPayload := mkVAPayload {
  vp_external_id : option string;
  vp_payment_id : option string;
  vp_amount : option Z;
}.

Record EwalletEventData := mkEwalletEventData {
  ev_reference_id : option string;
  ev_status : option string;
}.

Record EwalletPayload := mkEwalletPayload {
  ep_data : option EwalletEventData;
}.

Definition paid_patch (t : Z) : OrderPatch :=
  mkOrderPatch (Some PaymentStatus.PAID) (Some OrderStatus.PAID) (Some (Some t)) None.

Definition expired_patch : OrderPatch :=
  mkOrderPatch (Some PaymentStatus.EXPIRED) None None None.

Section Handlers.
Variable cfg : Config.

(** [if (callbackToken !== expectedToken) throw ...]. *)
Definition token_rejected (token : option string) : bool :=
  js_strict_neq token (XENDIT_CALLBACK_TOKEN cfg).

(** [POST /payment/callback/invoice] (lines 246-280). *)
Definition handleInvoiceCallback (token : option string) (p : InvoicePayload) (db : Db)
  : result (string * Db) CallbackError :=
  if token_rejected token then Err InvalidCallbackToken
  else if bool_decide (ip_status p = Some "PAID") then
    match ip_paid_at p with
    | Some t => Ok (Ack, order_update_many (ip_external_id p) (paid_patch t) db)
    | None => Err InvalidPaidAt
    end
  else if bool_decide (ip_status p = Some "EXPIRED") then
    Ok (Ack, order_update_many (ip_external_id p) expired_patch db)
  else Ok (Ack, db).

(** [POST /payment/callback/va] (lines 282-306); [now] is [new Date()]. *)
Definition handleVACallback (token : option string) (p : VAPayload) (now : Z) (db : Db)
  : result (string * Db) CallbackError :=
  if token_rejected token then Err InvalidCallbackToken
  else Ok (Ack, order_update_many (vp_external_id p) (paid_patch now) db).

(** [POST /payment/callback/ewallet] (lines 308-335). *)
Definition handleEwalletCallback (token : option string) (p : EwalletPayload) (now : Z) (db : Db)
  : result (string * Db) CallbackError :=
  if token_rejected token then Err InvalidCallbackToken
  else match ep_data p with
  | None => Err PayloadTypeError
  | Some d =>
      if bool_decide (ev_status d = Some "SUCCEEDED") then
        Ok (Ack, order_update_many (ev_reference_id d) (paid_patch now) db)
      else Ok (Ack, db)
  end.

End Handlers.

(** ** The specification's reconciler (section 4.5)

    Written from the specification, not from the handlers: an outcome is
    one of [{PAID, EXPIRED, FAILED}]; it is applied by a conditional update
    whose precondition is [paymentStatus in {UNPAID, PENDING}] and which
    otherwise is a no-op; a [PAID] outcome also records [paidAt] and moves
    [orderStatus] to [PAID]. *)

Inductive Outcome := PaidOutcome (t : Z) | ExpiredOutcome | FailedOutcome.

Definition non_terminal (s : PaymentStatus.t) : bool :=
  match s with PaymentStatus.UNPAID | PaymentStatus.PENDING => true | _ => false end.

(** The order with its payment status, order status and payment time
    replaced, every other column kept. *)
Definition set_payment (ps : PaymentStatus.t) (st : OrderStatus.t) (pa : option Z) (o : Order)
  : Order :=
  mkOrder (oid o) (orderNumber o) (userId o) (storeId o) (addressId o) (voucherId o)
    (subtotal o) (shippingCost o) (totalAmount o) (courier o) (courierService o)
    (paymentMethod o) (notes o) (items o) st ps pa.

Definition reconcile_spec (ev : Outcome) (o : Order) : Order :=
  if non_terminal (paymentStatus o) then
    match ev with
    | PaidOutcome t => set_payment PaymentStatus.PAID OrderStatus.PAID (Some t) o
    | ExpiredOutcome => set_payment PaymentStatus.EXPIRED (status o) (paidAt o) o
    | FailedOutcome => set_payment PaymentStatus.FAILED (status o) (paidAt o) o
    end
  else o.

(** Step 3's fixed table for the invoice rail: the provider's final
    statuses [PAID] and [EXPIRED]; any other string is not an outcome. *)
Definition invoice_status_table (s : string) : option PaymentStatus.t :=
  if String.eqb s "PAID" then Some PaymentStatus.PAID
  else if String.eqb s "EXPIRED" then Some PaymentStatus.EXPIRED
  else None.

(** The outcome of a payload: its mapped status, with the payload's paid
    timestamp for a payment. *)
Definition outcome_of (ps : PaymentStatus.t) (paid_ts : option Z) : option Outcome :=
  match ps with
  | PaymentStatus.PAID => option_map PaidOutcome paid_ts
  | PaymentStatus.EXPIRED => Some ExpiredOutcome
  | PaymentStatus.FAILED => Some FailedOutcome
  | _ => None
  end.

Definition invoice_outcome (p : InvoicePayload) : option Outcome :=
  match ip_status p with
  | Some s => match invoice_status_table s with
              | Some ps => outcome_of ps (ip_paid_at p)
              | None => None
              end
  | None => None
  end.

(** ** Lemmas *)

Lemma paid_patch_ok t : patch_ok (paid_patch t).
Proof. split; [intros _; split; eauto | done]. Qed.

Lemma expired_patch_ok : patch_ok expired_patch.
Proof. by split. Qed.

Lemma paid_patch_set t o :
  apply_patch (paid_patch t) o = set_payment PaymentStatus.PAID OrderStatus.PAID (Some t) o.
Proof. by destruct o. Qed.

Lemma expired_patch_set o :
  apply_patch expired_patch o = set_payment PaymentStatus.EXPIRED (status o) (paidAt o) o.
Proof. by destruct o. Qed.

(** The invoice handler's two branches are the table's two outcomes. *)
Lemma invoice_outcome_cases p ev :
  invoice_outcome p = Some ev ->
  (ip_status p = Some "PAID" /\ exists t, ip_paid_at p = Some t /\ ev = PaidOutcome t) \/
  (ip_status p = Some "EXPIRED" /\ ev = ExpiredOutcome).
Proof.
  unfold invoice_outcome. destruct (ip_status p) as [st|]; [|done].
  destruct (invoice_status_table st) as [ps|] eqn:Ht; [|done].
  unfold invoice_status_table in Ht.
  destruct (String.eqb_spec st "PAID") as [->|_];
    [|destruct (String.eqb_spec st "EXPIRED") as [->|_]; [|done]];
    injection Ht as <-; simpl;
    [destruct (ip_paid_at p) as [t|]; simpl; [|done]; intros [= <-]; left; eauto
    | intros [= <-]; right; done].
Qed.

#[export] Hint Resolve paid_patch_ok expired_patch_ok update_many_wf : api.

Lemma token_accepted cfg token :
  token_rejected cfg token = false <-> token = XENDIT_CALLBACK_TOKEN cfg.
Proof. apply js_strict_neq_false. Qed.

Lemma apply_patch_twice p o : apply_patch p (apply_patch p o) = apply_patch p o.
Proof. by destruct p as [[] [] [] []]. Qed.

(** Patching the same rows twice with the same patch patches them once. *)
Lemma update_many_idem num p db :
  order_update_many num p (order_update_many num p db) = order_update_many num p db.
Proof.
  unfold order_update_many; simpl. f_equal. rewrite <- map_fmap_compose.
  apply map_fmap_ext. intros k o _. cbn.
  destruct (prisma_where_eq num (orderNumber o)) eqn:E; cbn; rewrite E;
    [apply apply_patch_twice | done].
Qed.

(** An update on a number no order has changes nothing. *)
Lemma update_many_unknown num p db :
  (forall k o, orders db !! k = Some o -> orderNumber o <> num) ->
  order_update_many (Some num) p db = db.
Proof.
  intros Hn. destruct db as [os n us ps]. unfold order_update_many; simpl. f_equal.
  apply map_eq. intros k. rewrite lookup_fmap. simpl in Hn.
  destruct (os !! k) as [o|] eqn:E; simpl; [|done].
  rewrite bool_decide_eq_false_2; [done | exact (Hn k o E)].
Qed.

Lemma lookup_update_many_match num p db k o :
  orders db !! k = Some o -> prisma_where_eq num (orderNumber o) = true ->
  orders (order_update_many num p db) !! k = Some (apply_patch p o).
Proof. intros Ho Hm. rewrite lookup_update_many, Ho. simpl. by rewrite Hm. Qed.

Lemma lookup_update_many_nomatch num p db k o :
  orders db !! k = Some o -> prisma_where_eq num (orderNumber o) = false ->
  orders (order_update_many num p db) !! k = Some o.
Proof. intros Ho Hm. rewrite lookup_update_many, Ho. simpl. by rewrite Hm. Qed.

Lemma update_many_twice_match num p1 p2 db k o :
  orders db !! k = Some o -> prisma_where_eq num (orderNumber o) = true ->
  orders (order_update_many num p2 (order_update_many num p1 db)) !! k =
  Some (apply_patch p2 (apply_patch p1 o)).
Proof.
  intros Ho Hm. apply lookup_update_many_match; [|exact Hm].
  by apply lookup_update_many_match.
Qed.

(** ** Properties *)

(** C8 (error, safety). A callback whose token differs from the configured
    one is rejected by all three endpoints before the payload is read, so
    no order is changed. *)
Theorem webhook_rejects_bad_token cfg token :
  token <> XENDIT_CALLBACK_TOKEN cfg ->
  (forall p db, handleInvoiceCallback cfg token p db = Err InvalidCallbackToken) /\
  (forall p now db, handleVACallback cfg token p now db = Err InvalidCallbackToken) /\
  (forall p now db, handleEwalletCallback cfg token p now db = Err InvalidCallbackToken).
Proof.
  intros Hne. assert (Hr : token_rejected cfg token = true).
  { destruct (token_rejected cfg token) eqn:E; [done|]. by apply token_accepted in E. }
  unfold handleInvoiceCallback, handleVACallback, handleEwalletCallback. rewrite Hr. done.
Qed.

Lemma webhook_rejects_bad_token_witness :
  Some "forged" <> XENDIT_CALLBACK_TOKEN (mkConfig None None (Some "s3cret")) /\
  (forall p db, handleInvoiceCallback (mkConfig None None (Some "s3cret")) (Some "forged") p db = Err InvalidCallbackToken) /\
  (forall p now db, handleVACallback (mkConfig None None (Some "s3cret")) (Some "forged") p now db = Err InvalidCallbackToken) /\
  (forall p now db, handleEwalletCallback (mkConfig None None (Some "s3cret")) (Some "forged") p now db = Err InvalidCallbackToken).
Proof.
  assert (H : Some "forged" <> XENDIT_CALLBACK_TOKEN (mkConfig None None (Some "s3cret"))) by (simpl; congruence).
  split; [exact H|]. exact (webhook_rejects_bad_token _ _ H).
Defined.

(** C9 (safety, finding). When [XENDIT_CALLBACK_TOKEN] is not configured,
    a request without the [x-callback-token] header passes the check
    ([undefined !== undefined] is false): anyone can mark an order paid
    through the virtual-account callback. *)
Theorem webhook_unset_token_accepts cfg p now db :
  XENDIT_CALLBACK_TOKEN cfg = None ->
  handleVACallback cfg None p now db =
    Ok (Ack, order_update_many (vp_external_id p) (paid_patch now) db).
Proof.
  intros Hcfg. unfold handleVACallback.
  assert (Hr : token_rejected cfg None = false) by (apply token_accepted; done).
  by rewrite Hr.
Qed.

Lemma webhook_unset_token_accepts_witness :
  XENDIT_CALLBACK_TOKEN (mkConfig None None None) = None /\
  handleVACallback (mkConfig None None None) None (mkVAPayload (Some "INV/20250101/ABC123") None None)
    1735689600000 (mkDb ∅ 1 ∅ []) =
    Ok (Ack, order_update_many (Some "INV/20250101/ABC123") (paid_patch 1735689600000) (mkDb ∅ 1 ∅ [])).
Proof. split; [reflexivity|]. by apply webhook_unset_token_accepts. Defined.

(** C1 (invariant). Every callback that is handled keeps the database well
    formed: it changes only statuses and payment times, never ids, order
    numbers, amounts or items, and a paid payment is always recorded with
    a paid order and a payment time. *)
Theorem webhooks_preserve_wf cfg token db :
  db_wf db ->
  (forall p a db', handleInvoiceCallback cfg token p db = Ok (a, db') -> db_wf db') /\
  (forall p now a db', handleVACallback cfg token p now db = Ok (a, db') -> db_wf db') /\
  (forall p now a db', handleEwalletCallback cfg token p now db = Ok (a, db') -> db_wf db').
Proof.
  intros Hwf. unfold handleInvoiceCallback, handleVACallback, handleEwalletCallback.
  destruct (token_rejected cfg token); [repeat split; done|].
  split; [|split]; [intros p a db' Hr | intros p now a db' Hr | intros p now a db' Hr];
    revert Hr; repeat (case_bool_decide || case_match); intros Hr;
    (discriminate Hr || injection Hr as <- <-); eauto with api.
Qed.

Lemma webhooks_preserve_wf_witness :
  db_wf (mkDb ∅ 1 ∅ []) /\
  ((forall p a db', handleInvoiceCallback (mkConfig None None None) None p (mkDb ∅ 1 ∅ []) = Ok (a, db') -> db_wf db') /\
   (forall p now a db', handleVACallback (mkConfig None None None) None p now (mkDb ∅ 1 ∅ []) = Ok (a, db') -> db_wf db') /\
   (forall p now a db', handleEwalletCallback (mkConfig None None None) None p now (mkDb ∅ 1 ∅ []) = Ok (a, db') -> db_wf db')).
Proof.
  pose proof (empty_db_wf ∅ []) as H.
  split; [exact H|]. exact (webhooks_preserve_wf _ _ _ H).
Defined.

(** C5 (functional). Redelivering the same invoice callback is a no-op:
    the payload carries its own [paid_at], so the second delivery is
    acknowledged again and leaves exactly the state of the first (the
    specification's idempotence under at-least-once delivery). *)
Theorem webhook_redelivery_idempotent cfg token p db a db' :
  handleInvoiceCallback cfg token p db = Ok (a, db') ->
  handleInvoiceCallback cfg token p db' = Ok (a, db').
Proof.
  unfold handleInvoiceCallback. destruct (token_rejected cfg token); [done|].
  repeat (case_bool_decide || case_match); intros Hr;
    (discriminate Hr || injection Hr as <- <-); try done; by rewrite update_many_idem.
Qed.

Lemma webhook_redelivery_idempotent_witness :
  handleInvoiceCallback (mkConfig None None (Some "tok")) (Some "tok")
    (mkInvoicePayload (Some "INV/20250101/ABC123") (Some "PAID") (Some 195000) (Some 1735689600000))
    (mkDb {[1 := mkOrder 1 "INV/20250101/ABC123" 5 2 3 None 0 0 0 "" "" "" None []
        OrderStatus.PENDING_PAYMENT PaymentStatus.PENDING None]} 2 ∅ []) =
  Ok (Ack, mkDb {[1 := mkOrder 1 "INV/20250101/ABC123" 5 2 3 None 0 0 0 "" "" "" None []
        OrderStatus.PAID PaymentStatus.PAID (Some 1735689600000)]} 2 ∅ []) /\
  handleInvoiceCallback (mkConfig None None (Some "tok")) (Some "tok")
    (mkInvoicePayload (Some "INV/20250101/ABC123") (Some "PAID") (Some 195000) (Some 1735689600000))
    (mkDb {[1 := mkOrder 1 "INV/20250101/ABC123" 5 2 3 None 0 0 0 "" "" "" None []
        OrderStatus.PAID PaymentStatus.PAID (Some 1735689600000)]} 2 ∅ []) =
  Ok (Ack, mkDb {[1 := mkOrder 1 "INV/20250101/ABC123" 5 2 3 None 0 0 0 "" "" "" None []
        OrderStatus.PAID PaymentStatus.PAID (Some 1735689600000)]} 2 ∅ []).
Proof.
  assert (H : handleInvoiceCallback (mkConfig None None (Some "tok")) (Some "tok")
    (mkInvoicePayload (Some "INV/20250101/ABC123") (Some "PAID") (Some 195000) (Some 1735689600000))
    (mkDb {[1 := mkOrder 1 "INV/20250101/ABC123" 5 2 3 None 0 0 0 "" "" "" None []
        OrderStatus.PENDING_PAYMENT PaymentStatus.PENDING None]} 2 ∅ []) =
  Ok (Ack, mkDb {[1 := mkOrder 1 "INV/20250101/ABC123" 5 2 3 None 0 0 0 "" "" "" None []
        OrderStatus.PAID PaymentStatus.PAID (Some 1735689600000)]} 2 ∅ [])) by (vm_compute; reflexivity).
  split; [exact H|]. exact (webhook_redelivery_idempotent _ _ _ _ _ _ H).
Defined.

(** C12 (functional). A callback for an order number that no order carries
    is acknowledged and changes nothing (the specification's
    [UnknownReference], reported as a plain acknowledgement). *)
Theorem webhook_unknown_reference cfg token ref db :
  token = XENDIT_CALLBACK_TOKEN cfg ->
  (forall k o, orders db !! k = Some o -> orderNumber o <> ref) ->
  (forall st pa t, handleInvoiceCallback cfg token (mkInvoicePayload (Some ref) st pa (Some t)) db =
     Ok (Ack, db)) /\
  (forall pid amt now, handleVACallback cfg token (mkVAPayload (Some ref) pid amt) now db = Ok (Ack, db)) /\
  (forall st now, handleEwalletCallback cfg token
     (mkEwalletPayload (Some (mkEwalletEventData (Some ref) st))) now db = Ok (Ack, db)).
Proof.
  intros Htok Hn. apply token_accepted in Htok.
  unfold handleInvoiceCallback, handleVACallback, handleEwalletCallback. rewrite Htok.
  split; [|split]; intros; simpl; repeat case_bool_decide; by rewrite ?update_many_unknown.
Qed.

Lemma webhook_unknown_reference_witness :
  (Some "tok" = XENDIT_CALLBACK_TOKEN (mkConfig None None (Some "tok")) /\
   forall k o, orders (mkDb {[1 := mkOrder 1 "INV/20250101/ABC123" 5 2 3 None 0 0 0 "" "" "" None []
        OrderStatus.PENDING_PAYMENT PaymentStatus.PENDING None]} 2 ∅ []) !! k = Some o ->
     orderNumber o <> "INV/20250101/ZZZZZZ") /\
  handleVACallback (mkConfig None None (Some "tok")) (Some "tok")
    (mkVAPayload (Some "INV/20250101/ZZZZZZ") None (Some 195000)) 1735689600000
    (mkDb {[1 := mkOrder 1 "INV/20250101/ABC123" 5 2 3 None 0 0 0 "" "" "" None []
        OrderStatus.PENDING_PAYMENT PaymentStatus.PENDING None]} 2 ∅ []) =
  Ok (Ack, mkDb {[1 := mkOrder 1 "INV/20250101/ABC123" 5 2 3 None 0 0 0 "" "" "" None []
        OrderStatus.PENDING_PAYMENT PaymentStatus.PENDING None]} 2 ∅ []).
Proof.
  assert (Hn : forall k o, orders (mkDb {[1 := mkOrder 1 "INV/20250101/ABC123" 5 2 3 None 0 0 0 "" "" "" None []
        OrderStatus.PENDING_PAYMENT PaymentStatus.PENDING None]} 2 ∅ []) !! k = Some o ->
     orderNumber o <> "INV/20250101/ZZZZZZ").
  { intros k o. simpl. rewrite lookup_singleton_Some. intros [_ <-]. simpl. discriminate. }
  split; [split; [reflexivity | exact Hn]|].
  exact (proj1 (proj2 (webhook_unknown_reference _ _ _ _ eq_refl Hn)) None (Some 195000) 1735689600000).
Defined.

(** C10 (safety, finding). A paid invoice callback without [external_id]
    (Prisma drops an [undefined] filter) marks every order in the
    database paid, whatever its owner and status. *)
Theorem webhook_missing_reference_marks_all cfg token st pa t db a db' :
  handleInvoiceCallback cfg token (mkInvoicePayload None st pa (Some t)) db = Ok (a, db') ->
  st = Some "PAID" ->
  forall k o, orders db !! k = Some o ->
    exists o', orders db' !! k = Some o' /\ paymentStatus o' = PaymentStatus.PAID /\
      status o' = OrderStatus.PAID /\ paidAt o' = Some t.
Proof.
  intros Hh -> k o Ho. unfold handleInvoiceCallback in Hh. simpl in Hh.
  destruct (token_rejected cfg token); [done|]. injection Hh as <- <-.
  exists (apply_patch (paid_patch t) o). split; [by apply lookup_update_many_match|done].
Qed.

Lemma webhook_missing_reference_marks_all_witness :
  handleInvoiceCallback (mkConfig None None (Some "tok")) (Some "tok")
    (mkInvoicePayload None (Some "PAID") None (Some 1735689600000))
    (mkDb {[7 := mkOrder 7 "INV/20250101/OTHER1" 9 2 3 None 0 0 0 "" "" "" None []
        OrderStatus.PENDING_PAYMENT PaymentStatus.UNPAID None]} 8 ∅ []) =
  Ok (Ack, order_update_many None (paid_patch 1735689600000)
    (mkDb {[7 := mkOrder 7 "INV/20250101/OTHER1" 9 2 3 None 0 0 0 "" "" "" None []
        OrderStatus.PENDING_PAYMENT PaymentStatus.UNPAID None]} 8 ∅ [])) /\
  exists o', orders (order_update_many None (paid_patch 1735689600000)
    (mkDb {[7 := mkOrder 7 "INV/20250101/OTHER1" 9 2 3 None 0 0 0 "" "" "" None []
        OrderStatus.PENDING_PAYMENT PaymentStatus.UNPAID None]} 8 ∅ [])) !! 7 = Some o' /\
    paymentStatus o' = PaymentStatus.PAID /\ status o' = OrderStatus.PAID /\ paidAt o' = Some 1735689600000.
Proof.
  assert (H : handleInvoiceCallback (mkConfig None None (Some "tok")) (Some "tok")
    (mkInvoicePayload None (Some "PAID") None (Some 1735689600000))
    (mkDb {[7 := mkOrder 7 "INV/20250101/OTHER1" 9 2 3 None 0 0 0 "" "" "" None []
        OrderStatus.PENDING_PAYMENT PaymentStatus.UNPAID None]} 8 ∅ []) =
  Ok (Ack, order_update_many None (paid_patch 1735689600000)
    (mkDb {[7 := mkOrder 7 "INV/20250101/OTHER1" 9 2 3 None 0 0 0 "" "" "" None []
        OrderStatus.PENDING_PAYMENT PaymentStatus.UNPAID None]} 8 ∅ []))) by reflexivity.
  split; [exact H|].
  exact (webhook_missing_reference_marks_all _ _ _ _ _ _ _ _ H eq_refl 7 _ (lookup_singleton_eq _ _)).
Defined.

(** C3 (refinement). On an order whose payment is still open ([UNPAID] or
    [PENDING]), an authenticated invoice callback does exactly what the
    specification's conditional reconciler does with the outcome its
    status table gives: a [PAID] payload with its paid time marks the
    payment and the order [PAID] and records that time, an [EXPIRED] one
    marks the payment [EXPIRED] and keeps the rest; orders with another
    number are untouched. *)
Theorem invoice_callback_refines_spec cfg token p ref ev db a db' :
  handleInvoiceCallback cfg token p db = Ok (a, db') ->
  ip_external_id p = Some ref -> invoice_outcome p = Some ev ->
  forall k o, orders db !! k = Some o ->
    (orderNumber o = ref -> non_terminal (paymentStatus o) = true ->
       orders db' !! k = Some (reconcile_spec ev o)) /\
    (orderNumber o <> ref -> orders db' !! k = Some o).
Proof.
  intros Hh Href Hev k o Ho.
  assert (Hm : orderNumber o = ref -> prisma_where_eq (Some ref) (orderNumber o) = true)
    by (intros; by apply prisma_where_eq_Some).
  assert (Hnm : orderNumber o <> ref -> prisma_where_eq (Some ref) (orderNumber o) = false)
    by (intros; simpl; by apply bool_decide_eq_false_2).
  assert (Hx : bool_decide (Some "EXPIRED" = Some "PAID") = false) by reflexivity.
  unfold handleInvoiceCallback in Hh. destruct (token_rejected cfg token); [done|].
  rewrite Href in Hh. unfold reconcile_spec.
  apply invoice_outcome_cases in Hev as [[Hs (t & Ht & ->)] | [Hs ->]];
    rewrite Hs in Hh; [rewrite bool_decide_eq_true_2 in Hh by done; rewrite Ht in Hh
                      | rewrite Hx, bool_decide_eq_true_2 in Hh by done];
    injection Hh as <- <-; split.
  - intros Hn ->. rewrite (lookup_update_many_match _ _ _ k o Ho (Hm Hn)).
    by rewrite paid_patch_set.
  - intros Hn. by rewrite (lookup_update_many_nomatch _ _ _ k o Ho (Hnm Hn)).
  - intros Hn ->. rewrite (lookup_update_many_match _ _ _ k o Ho (Hm Hn)).
    by rewrite expired_patch_set.
  - intros Hn. by rewrite (lookup_update_many_nomatch _ _ _ k o Ho (Hnm Hn)).
Qed.

Lemma invoice_callback_refines_spec_witness :
  (handleInvoiceCallback (mkConfig None None (Some "tok")) (Some "tok")
    (mkInvoicePayload (Some "INV/20250101/ABC123") (Some "PAID") (Some 195000) (Some 1735689600000))
    (mkDb {[1 := mkOrder 1 "INV/20250101/ABC123" 5 2 3 None 0 0 0 "" "" "" None []
        OrderStatus.PENDING_PAYMENT PaymentStatus.PENDING None]} 2 ∅ []) =
   Ok (Ack, order_update_many (Some "INV/20250101/ABC123") (paid_patch 1735689600000)
    (mkDb {[1 := mkOrder 1 "INV/20250101/ABC123" 5 2 3 None 0 0 0 "" "" "" None []
        OrderStatus.PENDING_PAYMENT PaymentStatus.PENDING None]} 2 ∅ [])) /\
   invoice_outcome (mkInvoicePayload (Some "INV/20250101/ABC123") (Some "PAID") (Some 195000) (Some 1735689600000))
     = Some (PaidOutcome 1735689600000)) /\
  orders (order_update_many (Some "INV/20250101/ABC123") (paid_patch 1735689600000)
    (mkDb {[1 := mkOrder 1 "INV/20250101/ABC123" 5 2 3 None 0 0 0 "" "" "" None []
        OrderStatus.PENDING_PAYMENT PaymentStatus.PENDING None]} 2 ∅ [])) !! 1 =
  Some (reconcile_spec (PaidOutcome 1735689600000) (mkOrder 1 "INV/20250101/ABC123" 5 2 3 None 0 0 0 "" "" "" None []
        OrderStatus.PENDING_PAYMENT PaymentStatus.PENDING None)).
Proof.
  assert (H : handleInvoiceCallback (mkConfig None None (Some "tok")) (Some "tok")
    (mkInvoicePayload (Some "INV/20250101/ABC123") (Some "PAID") (Some 195000) (Some 1735689600000))
    (mkDb {[1 := mkOrder 1 "INV/20250101/ABC123" 5 2 3 None 0 0 0 "" "" "" None []
        OrderStatus.PENDING_PAYMENT PaymentStatus.PENDING None]} 2 ∅ []) =
   Ok (Ack, order_update_many (Some "INV/20250101/ABC123") (paid_patch 1735689600000)
    (mkDb {[1 := mkOrder 1 "INV/20250101/ABC123" 5 2 3 None 0 0 0 "" "" "" None []
        OrderStatus.PENDING_PAYMENT PaymentStatus.PENDING None]} 2 ∅ []))) by reflexivity.
  assert (Hev : invoice_outcome (mkInvoicePayload (Some "INV/20250101/ABC123") (Some "PAID") (Some 195000) (Some 1735689600000))
     = Some (PaidOutcome 1735689600000)) by reflexivity.
  split; [split; [exact H | exact Hev]|].
  exact (proj1 (invoice_callback_refines_spec _ _ _ _ _ _ _ _ H eq_refl Hev 1 _
                  (lookup_singleton_eq _ _)) eq_refl eq_refl).
Defined.

(** C6 (safety, finding). Terminal payment states are not terminal in the
    code: for an open order, a PAID invoice callback followed by a late
    EXPIRED one leaves the payment [EXPIRED] while the order stays [PAID]
    with its payment time, where the specification's reconciler keeps the
    payment [PAID]; delivered the other way round, the order ends [PAID]
    where the specification keeps it [EXPIRED]. The last delivery wins. *)
Theorem invoice_last_writer_wins cfg ref t db k o :
  orders db !! k = Some o -> orderNumber o = ref -> non_terminal (paymentStatus o) = true ->
  let tok := XENDIT_CALLBACK_TOKEN cfg in
  let paid := mkInvoicePayload (Some ref) (Some "PAID") None (Some t) in
  let expired := mkInvoicePayload (Some ref) (Some "EXPIRED") None None in
  (exists db1 db2 o2,
     handleInvoiceCallback cfg tok paid db = Ok (Ack, db1) /\
     handleInvoiceCallback cfg tok expired db1 = Ok (Ack, db2) /\
     orders db2 !! k = Some o2 /\ paymentStatus o2 = PaymentStatus.EXPIRED /\
     status o2 = OrderStatus.PAID /\ paidAt o2 = Some t /\
     paymentStatus (reconcile_spec ExpiredOutcome (reconcile_spec (PaidOutcome t) o)) = PaymentStatus.PAID) /\
  (exists db1 db2 o2,
     handleInvoiceCallback cfg tok expired db = Ok (Ack, db1) /\
     handleInvoiceCallback cfg tok paid db1 = Ok (Ack, db2) /\
     orders db2 !! k = Some o2 /\ paymentStatus o2 = PaymentStatus.PAID /\
     paymentStatus (reconcile_spec (PaidOutcome t) (reconcile_spec ExpiredOutcome o)) = PaymentStatus.EXPIRED).
Proof.
  intros Ho Hn Hnt tok paid expired.
  assert (Hr : token_rejected cfg tok = false) by (by apply token_accepted).
  assert (Hm : prisma_where_eq (Some ref) (orderNumber o) = true) by (by apply prisma_where_eq_Some).
  unfold handleInvoiceCallback, reconcile_spec. rewrite Hr, Hnt. simpl.
  split; do 3 eexists; (split; [reflexivity|]); (split; [reflexivity|]);
    (split; [exact (update_many_twice_match _ _ _ _ k o Ho Hm)|]); simpl; done.
Qed.

Lemma invoice_last_writer_wins_witness :
  (orders (mkDb {[1 := mkOrder 1 "INV/20250101/ABC123" 5 2 3 None 0 0 0 "" "" "" None []
        OrderStatus.PENDING_PAYMENT PaymentStatus.PENDING None]} 2 ∅ []) !! 1 =
     Some (mkOrder 1 "INV/20250101/ABC123" 5 2 3 None 0 0 0 "" "" "" None []
        OrderStatus.PENDING_PAYMENT PaymentStatus.PENDING None) /\
   non_terminal PaymentStatus.PENDING = true) /\
  exists db1 db2 o2,
     handleInvoiceCallback (mkConfig None None (Some "tok")) (Some "tok")
       (mkInvoicePayload (Some "INV/20250101/ABC123") (Some "PAID") None (Some 1735689600000))
       (mkDb {[1 := mkOrder 1 "INV/20250101/ABC123" 5 2 3 None 0 0 0 "" "" "" None []
        OrderStatus.PENDING_PAYMENT PaymentStatus.PENDING None]} 2 ∅ []) = Ok (Ack, db1) /\
     handleInvoiceCallback (mkConfig None None (Some "tok")) (Some "tok")
       (mkInvoicePayload (Some "INV/20250101/ABC123") (Some "EXPIRED") None None) db1 = Ok (Ack, db2) /\
     orders db2 !! 1 = Some o2 /\ paymentStatus o2 = PaymentStatus.EXPIRED /\
     status o2 = OrderStatus.PAID /\ paidAt o2 = Some 1735689600000 /\
     paymentStatus (reconcile_spec ExpiredOutcome (reconcile_spec (PaidOutcome 1735689600000)
       (mkOrder 1 "INV/20250101/ABC123" 5 2 3 None 0 0 0 "" "" "" None []
        OrderStatus.PENDING_PAYMENT PaymentStatus.PENDING None))) = PaymentStatus.PAID.
Proof.
  split; [split; reflexivity|].
  refine (proj1 (invoice_last_writer_wins (mkConfig None None (Some "tok")) "INV/20250101/ABC123"
    1735689600000 (mkDb {[1 := (mkOrder 1 "INV/20250101/ABC123" 5 2 3 None 0 0 0 "" "" "" None [] OrderStatus.PENDING_PAYMENT PaymentStatus.PENDING None)]} 2 ∅ []) 1 (mkOrder 1 "INV/20250101/ABC123" 5 2 3 None 0 0 0 "" "" "" None [] OrderStatus.PENDING_PAYMENT PaymentStatus.PENDING None) _ _ _)); reflexivity.
Defined.

(** C11 (error, finding). The virtual-account callback neither reads the
    paid amount nor keeps the first payment time: a payment of any amount
    marks the order paid (no [AmountMismatch]), and a redelivery of the
    same notification moves [paidAt] to the time of the redelivery. *)
Theorem va_callback_ignores_amount_and_redelivery cfg ref pid db k o t1 t2 :
  orders db !! k = Some o -> orderNumber o = ref ->
  let tok := XENDIT_CALLBACK_TOKEN cfg in
  (forall a1 a2 now, handleVACallback cfg tok (mkVAPayload (Some ref) pid a1) now db =
                     handleVACallback cfg tok (mkVAPayload (Some ref) pid a2) now db) /\
  (forall amt, exists db1 db2 o2,
     handleVACallback cfg tok (mkVAPayload (Some ref) pid amt) t1 db = Ok (Ack, db1) /\
     handleVACallback cfg tok (mkVAPayload (Some ref) pid amt) t2 db1 = Ok (Ack, db2) /\
     orders db2 !! k = Some o2 /\ paymentStatus o2 = PaymentStatus.PAID /\ paidAt o2 = Some t2).
Proof.
  intros Ho Hn tok.
  assert (Hr : token_rejected cfg tok = false) by (by apply token_accepted).
  assert (Hm : prisma_where_eq (Some ref) (orderNumber o) = true) by (by apply prisma_where_eq_Some).
  unfold handleVACallback. rewrite Hr. split; [done|]. intros amt. simpl.
  do 3 eexists. split; [reflexivity|]. split; [reflexivity|].
  split; [exact (update_many_twice_match _ _ _ _ k o Ho Hm)|done].
Qed.

Lemma va_callback_ignores_amount_and_redelivery_witness :
  (orders (mkDb {[1 := mkOrder 1 "INV/20250101/ABC123" 5 2 3 None 0 0 195000 "" "" "" None []
        OrderStatus.PENDING_PAYMENT PaymentStatus.PENDING None]} 2 ∅ []) !! 1 =
     Some (mkOrder 1 "INV/20250101/ABC123" 5 2 3 None 0 0 195000 "" "" "" None []
        OrderStatus.PENDING_PAYMENT PaymentStatus.PENDING None) /\
   orderNumber (mkOrder 1 "INV/20250101/ABC123" 5 2 3 None 0 0 195000 "" "" "" None []
        OrderStatus.PENDING_PAYMENT PaymentStatus.PENDING None) = "INV/20250101/ABC123") /\
  exists db1 db2 o2,
     handleVACallback (mkConfig None None (Some "tok")) (Some "tok")
       (mkVAPayload (Some "INV/20250101/ABC123") None (Some 1)) 100
       (mkDb {[1 := mkOrder 1 "INV/20250101/ABC123" 5 2 3 None 0 0 195000 "" "" "" None []
        OrderStatus.PENDING_PAYMENT PaymentStatus.PENDING None]} 2 ∅ []) = Ok (Ack, db1) /\
     handleVACallback (mkConfig None None (Some "tok")) (Some "tok")
       (mkVAPayload (Some "INV/20250101/ABC123") None (Some 1)) 200 db1 = Ok (Ack, db2) /\
     orders db2 !! 1 = Some o2 /\ paymentStatus o2 = PaymentStatus.PAID /\ paidAt o2 = Some 200.
Proof.
  split; [split; reflexivity|].
  refine (proj2 (va_callback_ignores_amount_and_redelivery (mkConfig None None (Some "tok"))
    "INV/20250101/ABC123" None (mkDb {[1 := (mkOrder 1 "INV/20250101/ABC123" 5 2 3 None 0 0 195000 "" "" "" None [] OrderStatus.PENDING_PAYMENT PaymentStatus.PENDING None)]} 2 ∅ []) 1 (mkOrder 1 "INV/20250101/ABC123" 5 2 3 None 0 0 195000 "" "" "" None [] OrderStatus.PENDING_PAYMENT PaymentStatus.PENDING None) 100 200 _ _) (Some 1));
    reflexivity.
Defined.

End Webhook.
