(* ===== verification/Lifecycle.v ===== *)
(** * The order and payment lifecycle

    The whole core as a state machine: every request the API serves on
    orders and payments ([POST /orders], the four payment initiations, the
    three callbacks) is an [Event]; [apply_event] runs its handler and
    keeps the new database when the handler returns, the old one when it
    throws (each request is one transaction). Reachable databases are
    those produced by a sequence of events from an empty order table.
    The specification's payment state machine (section 4.5) is [spec_step];
    the code is compared with it here. *)

From S2P Require Import Prelude Pricing OrderStore OrderNumber Orders Gateway Payment Webhook.

Open Scope Z_scope.
Open Scope result_scope.

Module Lifecycle.
Import OrderStore Gateway Payment Webhook.

Inductive Event :=
| EvCreateOrder (uid : Z) (data : Orders.CreateOrderInput) (now : OrderNumber.DateParts) (rand36 : string)
| EvInvoice (uid : Z) (orderId : option Z)
| EvVirtualAccount (uid : Z) (orderId : option Z) (bank : string) (now : Z)
| EvEwallet (uid : Z) (orderId : option Z) (ch : EwalletChannel) (mobile : option string)
| EvQris (uid : Z) (orderId : option Z)
| EvInvoiceCallback (token : option string) (p : InvoicePayload)
| EvVACallback (token : option string) (p : VAPayload) (now : Z)
| EvEwalletCallback (token : option string) (p : EwalletPayload) (now : Z).

(** The database after a request: the handler's result, or the database
    unchanged when the handler throws. *)
Definition keep {A E} (db : Db) (r : result (A * Db) E) : Db :=
  match r with Ok (_, db') => db' | Err _ => db end.

Section Machine.
Context `{XenditApi} (cfg : Config).

Definition apply_event (ev : Event) (db : Db) : Db :=
  match ev with
  | EvCreateOrder uid data now r => keep db (Orders.createOrder uid data now r db)
  | EvInvoice uid oid => keep db (createInvoiceEndpoint cfg uid oid db)
  | EvVirtualAccount uid oid bank now => keep db (createVirtualAccountEndpoint uid oid bank now db)
  | EvEwallet uid oid ch mob => keep db (createEwalletPayment cfg uid oid ch mob db)
  | EvQris uid oid => keep db (createQRISPaymentEndpoint cfg uid oid db)
  | EvInvoiceCallback tok p => keep db (handleInvoiceCallback cfg tok p db)
  | EvVACallback tok p now => keep db (handleVACallback cfg tok p now db)
  | EvEwalletCallback tok p now => keep db (handleEwalletCallback cfg tok p now db)
  end.

Definition run (evs : list Event) (db : Db) : Db := fold_left (fun d ev => apply_event ev d) evs db.

Definition init_db (us : gmap Z User) (ps : list Pricing.Product) : Db := mkDb ∅ 1 us ps.

Definition step (db db' : Db) : Prop := exists ev, db' = apply_event ev db.

Definition reachable (us : gmap Z User) (ps : list Pricing.Product) (db : Db) : Prop :=
  rtc step (init_db us ps) db.

End Machine.

(** ** The specification's payment state machine (section 4.5) *)



(** ** Lemmas *)

(** What one request can do to the order table. *)
Inductive shape (db db' : Db) : Prop :=
| sh_same : db' = db -> shape db db'
| sh_create o : orders db !! next_order_id db = None ->
    orders db' = <[next_order_id db := o]> (orders db) -> shape db db'
| sh_pending uid : pending_step uid db db' -> shape db db'
| sh_many num p : (p = expired_patch \/ exists t, p = paid_patch t) ->
    db' = order_update_many num p db -> shape db db'.

Lemma keys_ok_next_free db : keys_ok db -> orders db !! next_order_id db = None.
Proof.
  intros Hk. destruct (orders db !! next_order_id db) as [o|] eqn:E; [|done].
  destruct (Hk _ _ E). lia.
Qed.

Section Steps.
Context `{XenditApi} (cfg : Config).

Lemma apply_event_shape ev db : keys_ok db -> shape db (apply_event cfg ev db).
Proof.
  intros Hk. destruct ev as [uid data now r|uid oid|uid oid bank now|uid oid ch mob|uid oid
                            |tok p|tok p now|tok p now]; simpl.
  - destruct (Orders.createOrder uid data now r db) as [[o db']|] eqn:E; [|by apply sh_same].
    apply Orders.createOrder_Ok in E as (t & f & _ & _ & Hc). unfold order_create in Hc.
    destruct (number_taken _ _); [done|]. injection Hc as _ <-.
    eapply sh_create; [by apply keys_ok_next_free | reflexivity].
  - destruct (createInvoiceEndpoint cfg uid oid db) as [[v db']|] eqn:E; [|by apply sh_same].
    eapply sh_pending. exact (proj1 (initiate_effect cfg uid oid db Hk) _ _ E).
  - destruct (createVirtualAccountEndpoint uid oid bank now db) as [[v db']|] eqn:E;
      [|by apply sh_same].
    eapply sh_pending. exact (proj1 (proj2 (initiate_effect cfg uid oid db Hk)) _ _ _ _ E).
  - destruct (createEwalletPayment cfg uid oid ch mob db) as [[v db']|] eqn:E; [|by apply sh_same].
    eapply sh_pending. exact (proj1 (proj2 (proj2 (initiate_effect cfg uid oid db Hk))) _ _ _ _ E).
  - destruct (createQRISPaymentEndpoint cfg uid oid db) as [[v db']|] eqn:E; [|by apply sh_same].
    eapply sh_pending. exact (proj2 (proj2 (proj2 (initiate_effect cfg uid oid db Hk))) _ _ E).
  - unfold handleInvoiceCallback. destruct (token_rejected cfg tok); [by apply sh_same|].
    repeat case_bool_decide; [destruct (ip_paid_at p) as [t|]| |]; simpl;
      [eapply sh_many; [right; eauto | reflexivity] | by apply sh_same
      | eapply sh_many; [left; done | reflexivity] | by apply sh_same].
  - unfold handleVACallback. destruct (token_rejected cfg tok); simpl; [by apply sh_same|].
    eapply sh_many; [right; eauto | reflexivity].
  - unfold handleEwalletCallback. destruct (token_rejected cfg tok); simpl; [by apply sh_same|].
    destruct (ep_data p) as [d|]; simpl; [|by apply sh_same].
    case_bool_decide; simpl; [|by apply sh_same].
    eapply sh_many; [right; eauto | reflexivity].
Qed.

Lemma pending_step_wf uid db db' : db_wf db -> pending_step uid db db' -> db_wf db'.
Proof.
  intros Hwf (o & note & Ho & _ & Hos & Hn & Hu & Hp).
  apply (order_update_wf (oid o) (pending_patch note) db); [by split|done|].
  unfold order_update. rewrite Ho. destruct db' as [os n us ps]; simpl in *. by subst.
Qed.

Lemma apply_event_wf ev db : db_wf db -> db_wf (apply_event cfg ev db).
Proof.
  intros Hwf. destruct ev as [uid data now r|uid oid|uid oid bank now|uid oid ch mob|uid oid
                              |tok p|tok p now|tok p now]; simpl.
  - destruct (Orders.createOrder uid data now r db) as [[o db']|] eqn:E; [|done].
    exact (Orders.createOrder_wf _ _ _ _ _ _ _ Hwf E).
  - destruct (createInvoiceEndpoint cfg uid oid db) as [[v db']|] eqn:E; [|done].
    eapply pending_step_wf; [exact Hwf|]. exact (proj1 (initiate_effect cfg uid oid db (proj1 (proj2 Hwf))) _ _ E).
  - destruct (createVirtualAccountEndpoint uid oid bank now db) as [[v db']|] eqn:E; [|done].
    eapply pending_step_wf; [exact Hwf|].
    exact (proj1 (proj2 (initiate_effect cfg uid oid db (proj1 (proj2 Hwf)))) _ _ _ _ E).
  - destruct (createEwalletPayment cfg uid oid ch mob db) as [[v db']|] eqn:E; [|done].
    eapply pending_step_wf; [exact Hwf|].
    exact (proj1 (proj2 (proj2 (initiate_effect cfg uid oid db (proj1 (proj2 Hwf))))) _ _ _ _ E).
  - destruct (createQRISPaymentEndpoint cfg uid oid db) as [[v db']|] eqn:E; [|done].
    eapply pending_step_wf; [exact Hwf|].
    exact (proj2 (proj2 (proj2 (initiate_effect cfg uid oid db (proj1 (proj2 Hwf))))) _ _ E).
  - destruct (handleInvoiceCallback cfg tok p db) as [[a db']|] eqn:E; [|done].
    exact (proj1 (webhooks_preserve_wf cfg tok db Hwf) _ _ _ E).
  - destruct (handleVACallback cfg tok p now db) as [[a db']|] eqn:E; [|done].
    exact (proj1 (proj2 (webhooks_preserve_wf cfg tok db Hwf)) _ _ _ _ E).
  - destruct (handleEwalletCallback cfg tok p now db) as [[a db']|] eqn:E; [|done].
    exact (proj2 (proj2 (webhooks_preserve_wf cfg tok db Hwf)) _ _ _ _ E).
Qed.

(** An existing order keeps its row, with a patched status at most. *)
Lemma shape_lookup db db' k o :
  shape db db' -> orders db !! k = Some o ->
  orders db' !! k = Some o \/ exists p, orders db' !! k = Some (apply_patch p o) /\
    (p = expired_patch \/ (exists t, p = paid_patch t) \/ exists note, p = pending_patch note).
Proof.
  intros [->|o1 Hfree Hos|uid (o0 & note & Ho0 & _ & Hos & _)|num p Hp ->] Ho; [by left|..].
  - left. rewrite Hos, lookup_insert_ne; [done|]. intros Heq. rewrite <- Heq in Ho. congruence.
  - rewrite Hos. destruct (decide (oid o0 = k)) as [<-|Hne].
    + right. exists (pending_patch note). rewrite lookup_insert_eq. rewrite Ho0 in Ho.
      injection Ho as ->. eauto.
    + left. by rewrite lookup_insert_ne.
  - rewrite lookup_update_many, Ho. simpl. destruct (prisma_where_eq num (orderNumber o));
      [right; exists p; naive_solver | by left].
Qed.

End Steps.


Lemma init_db_wf us ps : db_wf (init_db us ps).
Proof. apply empty_db_wf. Qed.


Section Props.
Context `{XenditApi} (cfg : Config).

(** C2 (invariant). Every database reachable from an empty order table by
    any sequence of requests (order creation, the four payment
    initiations, the three callbacks, each succeeding or throwing) is well
    formed: keys and ids agree, order numbers are unique, each order's
    total is its subtotal plus shipping and its subtotal the sum of its
    line totals, and a paid payment comes with a paid order and a payment
    time. *)
Theorem reachable_wf us ps db : reachable cfg us ps db -> db_wf db.
Proof.
  unfold reachable. intros Hr. generalize (init_db_wf us ps). revert Hr.
  generalize (init_db us ps). intros d0 Hr.
  induction Hr as [d|d1 d2 d3 [ev ->] _ IH]; [done|]. intros Hwf. by apply IH, apply_event_wf.
Qed.

(** C18 (safety). Orders are never deleted and their identity, owner,
    number, amounts and items never change: along any run of requests
    from a well-formed database, an order keeps its row and its [frame]. *)
Theorem order_frame_stable db db' k o :
  db_wf db -> rtc (step cfg) db db' -> orders db !! k = Some o ->
  exists o', orders db' !! k = Some o' /\ frame o' = frame o.
Proof.
  intros Hwf Hr. revert o. induction Hr as [d|d1 d2 d3 [ev ->] _ IH]; intros o Ho; [eauto|].
  destruct (shape_lookup _ _ k o (apply_event_shape cfg ev d1 (proj1 (proj2 Hwf))) Ho)
    as [Ho2|(p & Ho2 & _)].
  - apply IH; [by apply apply_event_wf | exact Ho2].
  - destruct (IH (apply_event_wf cfg ev d1 Hwf) _ Ho2) as (o' & Ho' & Hf). eauto.
Qed.


End Props.

Lemma reachable_wf_witness :
  reachable (mkConfig None None None) ∅ [] (init_db ∅ []) /\ db_wf (init_db ∅ []).
Proof.
  assert (H : reachable (mkConfig None None None) ∅ [] (init_db ∅ [])) by apply rtc_refl.
  split; [exact H|]. exact (@reachable_wf echo_xendit _ _ _ _ H).
Defined.

Lemma order_frame_stable_witness :
  db_wf (mkDb {[1 := mkOrder 1 "INV/20250101/ABC123" 5 2 3 None 0 0 0 "" "" "" None []
        OrderStatus.PENDING_PAYMENT PaymentStatus.UNPAID None]} 2 ∅ []) /\
  exists o', orders (mkDb {[1 := mkOrder 1 "INV/20250101/ABC123" 5 2 3 None 0 0 0 "" "" "" None []
        OrderStatus.PENDING_PAYMENT PaymentStatus.UNPAID None]} 2 ∅ []) !! 1 = Some o' /\
    frame o' = frame (mkOrder 1 "INV/20250101/ABC123" 5 2 3 None 0 0 0 "" "" "" None []
        OrderStatus.PENDING_PAYMENT PaymentStatus.UNPAID None).
Proof.
  assert (Hwf : db_wf (mkDb {[1 := mkOrder 1 "INV/20250101/ABC123" 5 2 3 None 0 0 0 "" "" "" None []
        OrderStatus.PENDING_PAYMENT PaymentStatus.UNPAID None]} 2 ∅ []))
    by (apply (singleton_db_wf (mkOrder 1 "INV/20250101/ABC123" 5 2 3 None 0 0 0 "" "" "" None []
        OrderStatus.PENDING_PAYMENT PaymentStatus.UNPAID None)); [simpl; lia | split; reflexivity | by intros ?]).
  split; [exact Hwf|].
  exact (@order_frame_stable echo_xendit (mkConfig None None None) _ _ 1 _ Hwf (rtc_refl _ _)
           (lookup_singleton_eq _ _)).
Defined.


End Lifecycle.
